(** * rechiseled-buildersdelight: the archive bundler and the recipe generator

    A shallow embedding of [scripts/bundle.py] and [scripts/generate.py].

    - Python [str] values are [string]s (characters are code points below 256).
    - [Module Py] holds the [str] methods the scripts call, [Module Fnmatch]
      the glob matcher of the [fnmatch] module, [Module Posixpath] the
      [os.path] functions on a POSIX host ([os.sep] is ["/"]).
    - [Module Bundle] embeds [bundle.py]; the directory tree that [os.walk]
      visits is a value of type [entry], the archive an ordered list of
      (arcname, data) pairs, an uncaught exception is [None].
    - [Module Generate] embeds [generate.py]; the network is an oracle from
      URLs to outcomes, the output directory a finite map from the names of
      its files to what they hold, [print] appends to a log. *)

From Stdlib Require Import String Ascii List Bool Arith ZArith DecimalString Lia.
From stdpp Require Import base strings gmap.
Import ListNotations.
Open Scope string_scope.
Open Scope list_scope.

(* ===================================================================== *)
(** ** Python string methods *)
(* ===================================================================== *)

Module Py.

(** [s.startswith(p)] *)
Fixpoint startswith (s p : string) {struct p} : bool :=
  match p with
  | EmptyString => true
  | String b p' =>
      match s with
      | EmptyString => false
      | String a s' => Ascii.eqb a b && startswith s' p'
      end
  end.

(** [s.endswith(p)]: some tail of [s] is [p]. *)
Fixpoint endswith (s p : string) : bool :=
  String.eqb s p ||
  match s with
  | EmptyString => false
  | String _ s' => endswith s' p
  end.

(** [sub in s] *)
Fixpoint contains (sub s : string) : bool :=
  startswith s sub ||
  match s with
  | EmptyString => false
  | String _ s' => contains sub s'
  end.

(** [c in s] for a single character *)
Fixpoint has_char (c : ascii) (s : string) : bool :=
  match s with
  | EmptyString => false
  | String a s' => Ascii.eqb a c || has_char c s'
  end.

(** [s.split(sep)] for a one-character separator; never the empty list. *)
Fixpoint split (sep : ascii) (s : string) : list string :=
  match s with
  | EmptyString => [EmptyString]
  | String c s' =>
      if Ascii.eqb c sep then EmptyString :: split sep s'
      else match split sep s' with
           | h :: t => String c h :: t
           | [] => [String c EmptyString]
           end
  end.

(** [sep.join(l)] *)
Definition join (sep : string) (l : list string) : string := String.concat sep l.

(** [s.rstrip(c)] for a one-character argument: drops every trailing [c]. *)
Fixpoint rstrip_char (c : ascii) (s : string) : string :=
  match s with
  | EmptyString => EmptyString
  | String a s' =>
      match rstrip_char c s' with
      | EmptyString => if Ascii.eqb a c then EmptyString else String a EmptyString
      | r => String a r
      end
  end.

(** Characters for which [str.isspace] holds, among code points below 256:
    TAB, LF, VT, FF, CR, FS, GS, RS, US, space, NEL and NBSP. *)
Definition isspace (c : ascii) : bool :=
  let n := nat_of_ascii c in
  (Nat.leb 9 n && Nat.leb n 13) || (Nat.leb 28 n && Nat.leb n 32)
  || Nat.eqb n 133 || Nat.eqb n 160.

Fixpoint lstrip (s : string) : string :=
  match s with
  | EmptyString => EmptyString
  | String a s' => if isspace a then lstrip s' else s
  end.

Fixpoint rstrip (s : string) : string :=
  match s with
  | EmptyString => EmptyString
  | String a s' =>
      match rstrip s' with
      | EmptyString => if isspace a then EmptyString else String a EmptyString
      | r => String a r
      end
  end.

(** [s.strip()] *)
Definition strip (s : string) : string := rstrip (lstrip s).

(** [s.replace(old, new)] for a non-empty [old]: the occurrences of [old]
    are found left to right and do not overlap. [skip] counts the characters
    of a replaced occurrence that are still to be passed over. *)
Fixpoint replace_from (old new : string) (skip : nat) (s : string) : string :=
  match s with
  | EmptyString => EmptyString
  | String c s' =>
      match skip with
      | S k => replace_from old new k s'
      | O =>
          if startswith s old
          then new +:+ replace_from old new (String.length old - 1) s'
          else String c (replace_from old new 0 s')
      end
  end.

Definition replace (s old new : string) : string := replace_from old new 0 s.

(** First and last character, [s[1:]] and [s[:-1]]. *)
Definition first_char (s : string) : option ascii :=
  match s with EmptyString => None | String c _ => Some c end.

Fixpoint last_char (s : string) : option ascii :=
  match s with
  | EmptyString => None
  | String c EmptyString => Some c
  | String _ s' => last_char s'
  end.

Definition drop_first (s : string) : string :=
  match s with EmptyString => EmptyString | String _ s' => s' end.

Fixpoint drop_last (s : string) : string :=
  match s with
  | EmptyString => EmptyString
  | String _ EmptyString => EmptyString
  | String c s' => String c (drop_last s')
  end.

End Py.

(* ===================================================================== *)
(** ** fnmatch: shell-style patterns *)
(* ===================================================================== *)

Module Fnmatch.

(** What [translate] appends to [res]: [STAR], ['.'] ([ANY]), an escaped
    character ([LIT]), a bracket expression ([SET], kept as the chunks that
    [translate] joins with range hyphens) or ['(?!)'] ([NEVER]). *)
Inductive token : Type :=
| STAR
| ANY
| LIT (c : ascii)
| SET (negate : bool) (chunks : list string)
| NEVER.

(** The scan for the closing bracket: [j] passes an initial ['!'], then an
    initial [']'], then runs to the next [']']. Returns [pat[i:j]] and
    [pat[j+1:]], or [None] when [j >= n]. *)
Fixpoint until_close (s : string) : option (string * string) :=
  match s with
  | EmptyString => None
  | String c s' =>
      if Ascii.eqb c "]" then Some (EmptyString, s')
      else match until_close s' with
           | Some (stuff, rest) => Some (String c stuff, rest)
           | None => None
           end
  end.

Definition bracket_scan (s : string) : option (string * string) :=
  let '(bang, s1) :=
    match s with
    | String "!" s' => ("!", s')
    | _ => (EmptyString, s)
    end in
  let '(close, s2) :=
    match s1 with
    | String "]" s' => ("]", s')
    | _ => (EmptyString, s1)
    end in
  match until_close s2 with
  | Some (stuff, rest) => Some (bang +:+ close +:+ stuff, rest)
  | None => None
  end.

(** The chunk loop: a hyphen at or after index [k] ends the current chunk
    and the next candidate hyphen is three positions further ([k = k+3]), so
    two characters are passed before a hyphen counts again. [cur] is the
    chunk being read, [skip] the number of characters before index [k]. *)
Fixpoint chunk_loop (skip : nat) (cur : string) (s : string) : list string :=
  match s with
  | EmptyString => [cur]
  | String c s' =>
      match skip with
      | O =>
          if Ascii.eqb c "-" then cur :: chunk_loop 2 EmptyString s'
          else chunk_loop 0 (cur +:+ String c EmptyString) s'
      | S k => chunk_loop k (cur +:+ String c EmptyString) s'
      end
  end.

(** After the loop an empty last chunk is dropped and its hyphen goes to the
    end of the chunk before it ([chunks[-1] += '-']). *)
Fixpoint close_chunks (chunks : list string) : list string :=
  match chunks with
  | [] => []
  | [c] => [c]
  | [c; EmptyString] => [c +:+ "-"]
  | c :: rest => c :: close_chunks rest
  end.

Definition make_chunks (stuff : string) : list string :=
  close_chunks (chunk_loop (if Py.startswith stuff "!" then 2 else 1) EmptyString stuff).

(** [chunks[k-1][-1] > chunks[k][0]] *)
Definition empty_range (c d : string) : bool :=
  match Py.last_char c, Py.first_char d with
  | Some lo, Some hi => Ascii.ltb hi lo
  | _, _ => false
  end.

(** Removal of the empty ranges, from the last pair of chunks to the first. *)
Fixpoint remove_empty_ranges (chunks : list string) : list string :=
  match chunks with
  | [] => []
  | c :: rest =>
      match remove_empty_ranges rest with
      | [] => [c]
      | d :: rest' =>
          if empty_range c d then (Py.drop_last c +:+ Py.drop_first d) :: rest'
          else c :: d :: rest'
      end
  end.

(** The token for [pat[i:j]]. When the joined text starts with ['!'] the
    set is negated and the ['!'] dropped; a range hyphen that thereby comes
    first in the set is an ordinary character of it. *)
Definition bracket_token (stuff : string) : token :=
  let chunks :=
    if Py.has_char "-" stuff then remove_empty_ranges (make_chunks stuff)
    else [stuff] in
  let joined := Py.join "-" chunks in
  if String.eqb joined EmptyString then NEVER
  else if String.eqb joined "!" then ANY
  else if Py.startswith joined "!" then
    match chunks with
    | "!" :: d :: rest => SET true (("-" +:+ d) :: rest)
    | c :: rest => SET true (Py.drop_first c :: rest)
    | [] => NEVER
    end
  else SET false chunks.

(** The first loop of [translate]; [res] is kept in reverse. Each step
    consumes at least one character of [pat], so [fuel] of [length pat]
    suffices. *)
Fixpoint translate_loop (fuel : nat) (pat : string) (res : list token) : list token :=
  match fuel with
  | O => res
  | S fuel' =>
      match pat with
      | EmptyString => res
      | String c rest =>
          if Ascii.eqb c "*" then
            match res with
            | STAR :: _ => translate_loop fuel' rest res
            | _ => translate_loop fuel' rest (STAR :: res)
            end
          else if Ascii.eqb c "?" then translate_loop fuel' rest (ANY :: res)
          else if Ascii.eqb c "[" then
            match bracket_scan rest with
            | None => translate_loop fuel' rest (LIT "[" :: res)
            | Some (stuff, rest') =>
                translate_loop fuel' rest' (bracket_token stuff :: res)
            end
          else translate_loop fuel' rest (LIT c :: res)
      end
  end.

Definition translate (pat : string) : list token :=
  rev (translate_loop (String.length pat) pat []).

(** Membership in a bracket expression: a character of a chunk, or a
    character between the last character of a chunk and the first of the
    next one. *)
Definition in_range (lo hi x : ascii) : bool :=
  negb (Ascii.ltb x lo) && negb (Ascii.ltb hi x).

Fixpoint in_ranges (chunks : list string) (x : ascii) : bool :=
  match chunks with
  | c :: ((d :: _) as rest) =>
      match Py.last_char c, Py.first_char d with
      | Some lo, Some hi => in_range lo hi x
      | _, _ => false
      end || in_ranges rest x
  | _ => false
  end.

Definition in_set (chunks : list string) (x : ascii) : bool :=
  existsb (Py.has_char x) chunks || in_ranges chunks x.

Definition token_accepts (t : token) (x : ascii) : bool :=
  match t with
  | STAR => false
  | ANY => true
  | LIT c => Ascii.eqb x c
  | SET negate chunks => xorb negate (in_set chunks x)
  | NEVER => false
  end.

(** The compiled expression is anchored at both ends; a [STAR] stands for
    any run of characters, every other token for exactly one. *)
Fixpoint tokens_match (ts : list token) (name : string) : bool :=
  match ts with
  | [] => match name with EmptyString => true | _ => false end
  | STAR :: ts' =>
      (fix star (s : string) : bool :=
         tokens_match ts' s ||
         match s with
         | EmptyString => false
         | String _ s' => star s'
         end) name
  | t :: ts' =>
      match name with
      | EmptyString => false
      | String x s' => token_accepts t x && tokens_match ts' s'
      end
  end.

(** [fnmatch.fnmatch(name, pat)]; [os.path.normcase] is the identity. *)
Definition fnmatch (name pat : string) : bool := tokens_match (translate pat) name.

End Fnmatch.

(* ===================================================================== *)
(** ** os.path on POSIX *)
(* ===================================================================== *)

Module Posixpath.

Definition isabs (p : string) : bool := Py.startswith p "/".

(** One step of [os.path.join(a, *p)]. *)
Definition join2 (path b : string) : string :=
  if Py.startswith b "/" then b
  else if String.eqb path EmptyString || Py.endswith path "/" then path +:+ b
  else path +:+ "/" +:+ b.

Definition join (a : string) (p : list string) : string := fold_left join2 p a.

(** [basename(p)] is [p[p.rfind('/')+1:]], the last piece of the split. *)
Definition basename (p : string) : string := List.last (Py.split "/" p) EmptyString.

Definition initial_slashes (path : string) : nat :=
  if Py.startswith path "/" then
    if Py.startswith path "//" && negb (Py.startswith path "///") then 2 else 1
  else 0.

(** The body of the loop of [normpath] over [comps]. *)
Definition norm_step (slashes : nat) (new_comps : list string) (comp : string)
  : list string :=
  if String.eqb comp EmptyString || String.eqb comp "." then new_comps
  else if negb (String.eqb comp "..")
          || (Nat.eqb slashes 0 && match new_comps with [] => true | _ => false end)
          || match new_comps with
             | [] => false
             | _ => String.eqb (List.last new_comps EmptyString) ".."
             end
       then new_comps ++ [comp]
       else removelast new_comps.

Definition norm_comps (path : string) : list string :=
  fold_left (norm_step (initial_slashes path)) (Py.split "/" path) [].

Definition normpath (path : string) : string :=
  if String.eqb path EmptyString then "."
  else
    let path' :=
      match initial_slashes path with
      | 0 => Py.join "/" (norm_comps path)
      | 1 => "/" +:+ Py.join "/" (norm_comps path)
      | _ => "//" +:+ Py.join "/" (norm_comps path)
      end in
    if String.eqb path' EmptyString then "." else path'.

(** [abspath]; [cwd] is what [os.getcwd()] returns, an absolute path. *)
Definition abspath (cwd path : string) : string :=
  normpath (if isabs path then path else join2 cwd path).

(** [commonprefix] of two lists of path components: the longest common
    leading part (the minimum and the maximum of two lists are the two
    lists). *)
Fixpoint commonprefix (s1 s2 : list string) : list string :=
  match s1, s2 with
  | a :: s1', b :: s2' => if String.eqb a b then a :: commonprefix s1' s2' else []
  | _, _ => []
  end.

Definition nonempty (x : string) : bool := negb (String.eqb x EmptyString).

(** [relpath(path, start)]; [None] is the [ValueError] for an empty path. *)
Definition relpath (cwd path start : string) : option string :=
  if String.eqb path EmptyString then None
  else
    let start_list := List.filter nonempty (Py.split "/" (abspath cwd start)) in
    let path_list := List.filter nonempty (Py.split "/" (abspath cwd path)) in
    let i := length (commonprefix start_list path_list) in
    let rel_list := repeat ".." (length start_list - i) ++ skipn i path_list in
    match rel_list with
    | [] => Some "."
    | a :: p => Some (join a p)
    end.

(** [p[:p.rfind('/')+1]]: a character belongs to the head when a separator
    stands at or after it. *)
Fixpoint dir_head (p : string) : string :=
  match p with
  | EmptyString => EmptyString
  | String c p' =>
      if Ascii.eqb c "/" || Py.has_char "/" p' then String c (dir_head p')
      else EmptyString
  end.

Fixpoint all_slashes (s : string) : bool :=
  match s with
  | EmptyString => true
  | String c s' => Ascii.eqb c "/" && all_slashes s'
  end.

(** [dirname(p)] *)
Definition dirname (p : string) : string :=
  let head := dir_head p in
  if nonempty head && negb (all_slashes head) then Py.rstrip_char "/" head
  else head.

End Posixpath.

(* ===================================================================== *)
(** ** bundle.py *)
(* ===================================================================== *)

Module Bundle.

(** What a path names when it is opened for reading: nothing, a text file
    (the lines that iterating over it yields, each with its line end), or
    something that exists and cannot be read as text (a directory, a file
    without read permission). *)
Inductive fs_node : Type :=
| NoEntry
| TextFile (lines : list string)
| Unreadable.

Unset Elimination Schemes.
(** The tree below a directory, in the order [os.scandir] lists it:
    regular files with their content, and directories. *)
Inductive entry : Type :=
| File (name : string) (data : string)
| Dir (name : string) (children : list entry).
Set Elimination Schemes.

Definition entry_name (e : entry) : string :=
  match e with File n _ => n | Dir n _ => n end.

(** The archive: the (arcname, content) entries in the order [zipf.write]
    adds them. The relative path of a file below the root is stored as it
    is. *)
Definition archive : Type := list (string * string).

(** Sequencing of calls that may raise. *)
Definition bind {A B : Type} (m : option A) (k : A -> option B) : option B :=
  match m with Some a => k a | None => None end.

Notation "x <- m ;; k" := (bind m (fun x => k))
  (at level 100, m at next level, right associativity).

Definition filterM {A : Type} (keep : A -> option bool) : list A -> option (list A) :=
  fix go (l : list A) : option (list A) :=
    match l with
    | [] => Some []
    | a :: l' =>
        b <- keep a ;;
        r <- go l' ;;
        Some (if b then a :: r else r)
    end.

Definition concatM {A B : Type} (f : A -> option (list B)) : list A -> option (list B) :=
  fix go (l : list A) : option (list B) :=
    match l with
    | [] => Some []
    | a :: l' =>
        x <- f a ;;
        r <- go l' ;;
        Some (x ++ r)
    end.

(** The namespace of [parse_args]: [--output]/[-o] and [--packignore]. *)
Record Args : Type := mkArgs {
  output : string;
  packignore : string
}.

(** The defaults of the two options. *)
Definition default_args : Args := mkArgs "pack.zip" ".packignore".

Section Bundler.

(** The process's working directory, [os.getcwd()]. *)
Variable cwd : string.

(** The files that [open(path, 'r')] may meet, by the path as it is
    written: a path that is not absolute is read from the working
    directory [cwd]. *)
Variable fs : string -> fs_node.

Definition load_packignore_patterns (packignore_path : string) : option (list string) :=
  match fs packignore_path with
  | NoEntry => Some []
  | Unreadable => None
  | TextFile lines =>
      Some (fold_left
              (fun patterns line =>
                 let line := Py.strip line in
                 if negb (String.eqb line EmptyString) && negb (Py.startswith line "#")
                 then patterns ++ [line]
                 else patterns)
              lines [])
  end.

(** The test of the first loop of [should_ignore] for one pattern. *)
Definition pattern_hits (relative_path base : string) (pattern : string) : bool :=
  if Py.endswith pattern "/"
  then Fnmatch.fnmatch (relative_path +:+ "/") pattern
       || Fnmatch.fnmatch relative_path (Py.rstrip_char "/" pattern)
  else Fnmatch.fnmatch relative_path pattern
       || Fnmatch.fnmatch base pattern.

(** The test of the second loop for one prefix and one pattern. *)
Definition prefix_hits (partial_path : string) (pattern : string) : bool :=
  if Py.endswith pattern "/"
  then Fnmatch.fnmatch (partial_path +:+ "/") pattern
  else Fnmatch.fnmatch partial_path pattern.

Definition should_ignore (path : string) (patterns : list string) (base_path : string)
  : option bool :=
  relative_path <- Posixpath.relpath cwd path base_path ;;
  if existsb (pattern_hits relative_path (Posixpath.basename path)) patterns
  then Some true
  else
    let parts := Py.split "/" relative_path in
    Some (existsb
            (fun i =>
               let partial_path := Py.join "/" (firstn (i + 1) parts) in
               existsb (prefix_hits partial_path) patterns)
            (seq 0 (length parts))).

(** The names [os.walk] yields for a directory: [dirs] and [files]. *)
Definition dir_names (children : list entry) : list string :=
  flat_map (fun c => match c with Dir d _ => [d] | File _ _ => [] end) children.

Definition file_entries (children : list entry) : list (string * string) :=
  flat_map (fun c => match c with File f data => [(f, data)] | Dir _ _ => [] end) children.

(** The body of [for file in files]. *)
Definition bundle_file (patterns : list string) (source_dir output_filename root : string)
    (file : string * string) : option archive :=
  let file_path := Posixpath.join2 root (fst file) in
  ignored <- should_ignore file_path patterns source_dir ;;
  if negb ignored && negb (String.eqb (Posixpath.basename file_path) output_filename)
  then
    arcname <- Posixpath.relpath cwd file_path source_dir ;;
    Some [(arcname, snd file)]
  else Some [].

(** [for root, dirs, files in os.walk(source_dir)] with the loop body of
    [bundle_files]: [root] is the path of the directory [e]. The walk yields
    the directory first, the body prunes [dirs] and writes the files, and the
    walk then descends into the names left in [dirs], in order. Walking
    something that is not a directory yields nothing. *)
Fixpoint walk (patterns : list string) (source_dir output_filename root : string)
    (e : entry) {struct e} : option archive :=
  match e with
  | File _ _ => Some []
  | Dir _ children =>
      dirs <- filterM
                (fun d =>
                   ignored <- should_ignore (Posixpath.join2 root d) patterns source_dir ;;
                   Some (negb ignored))
                (dir_names children) ;;
      written <- concatM (bundle_file patterns source_dir output_filename root)
                   (file_entries children) ;;
      below <- concatM
                 (fun c =>
                    match c with
                    | Dir d _ =>
                        if existsb (String.eqb d) dirs
                        then walk patterns source_dir output_filename
                               (Posixpath.join2 root d) c
                        else Some []
                    | File _ _ => Some []
                    end)
                 children ;;
      Some (written ++ below)
  end.

(** [bundle_files(source_dir, output_zip, packignore_path)]; [tree] is the
    directory at [source_dir] as the walk finds it. The result is the
    content of the archive, [None] when an exception of the ignore file or
    of a path ends the run. [zipfile.ZipFile(output_zip, 'w')] is taken to
    succeed: the result is what the archive holds once it can be created,
    which needs the directory of [output_zip] to exist. *)
Definition bundle_files (tree : entry) (source_dir output_zip packignore_path : string)
  : option archive :=
  patterns <- load_packignore_patterns packignore_path ;;
  let output_filename := Posixpath.basename output_zip in
  walk patterns source_dir output_filename source_dir tree.

(** [main()]: [file] is [__file__], [args] what [parse_args] returns and
    [tree] the directory above the script's directory. The result is the
    archive and the printed line. *)
Definition main (file : string) (args : Args) (tree : entry) : option (archive * string) :=
  let script_dir := Posixpath.dirname (Posixpath.abspath cwd file) in
  let parent_dir := Posixpath.dirname script_dir in
  let packignore_path := Posixpath.join2 parent_dir (packignore args) in
  let output_path := Posixpath.join2 parent_dir (output args) in
  zip <- bundle_files tree parent_dir output_path packignore_path ;;
  Some (zip, "Bundle created: " +:+ output args).

End Bundler.

End Bundle.

(* ===================================================================== *)
(** ** generate.py *)
(* ===================================================================== *)

Module Generate.

Unset Elimination Schemes.
(** Parsed JSON, as [response.json()] returns it: [None], [bool], numbers
    (integers here), [str], [list] and [dict] (keys in document order). *)
Inductive json : Type :=
| JNull
| JBool (b : bool)
| JNum (n : Z)
| JStr (s : string)
| JArr (items : list json)
| JObj (fields : list (string * json)).
Set Elimination Schemes.

(** The exceptions the script can meet. [JSONDecodeError] is what
    [Response.json()] raises. *)
Inductive exn : Type :=
| RequestException (msg : string)
| JSONDecodeError (msg : string)
| KeyError (key : string)
| TypeError
| AttributeError
| IOError (msg : string)
| FileNotFoundError (path : string).

Inductive result (A : Type) : Type :=
| Ok (a : A)
| Raise (e : exn).
Arguments Ok {A} a.
Arguments Raise {A} e.

(** What a GET of a URL leads to: [requests.get] or [raise_for_status]
    raises a [RequestException], or the body arrives and is or is not JSON. *)
Inductive outcome : Type :=
| Unreachable (msg : string)
| Malformed (msg : string)
| Document (j : json).

(** What a file of the output directory holds: a document that
    [json.dump] has written out, or what is left when [open(..., 'w')] has
    created or emptied the file and the dump did not get to its end. *)
Inductive file : Type :=
| Whole (doc : json)
| Partial.

(** What [open(output_path, 'w')] followed by [json.dump] leads to: the
    document is written, [open] raises an [IOError] and the file system stays
    as it was, or the file is opened and an [IOError] ends the dump. *)
Inductive write_outcome : Type :=
| Written
| OpenFails (msg : string)
| DumpFails (msg : string).

(** The output directory ([None] when it does not exist, else its files by
    name; the script creates no directory below it) and what has been
    printed. *)
Record state : Type := mkState {
  out_dir : option (gmap string file);
  log : list string
}.

Definition M (A : Type) : Type := state -> result A * state.

Definition ret {A : Type} (a : A) : M A := fun st => (Ok a, st).

Definition raise {A : Type} (e : exn) : M A := fun st => (Raise e, st).

Definition bind {A B : Type} (m : M A) (k : A -> M B) : M B :=
  fun st =>
    match m st with
    | (Ok a, st') => k a st'
    | (Raise e, st') => (Raise e, st')
    end.

Notation "x <- m ;; k" := (bind m (fun x => k))
  (at level 100, m at next level, right associativity).
Notation "m ;;; k" := (bind m (fun _ => k))
  (at level 100, right associativity).

(** [try: body except ...: handler]; [handler e] is [None] when no
    [except] clause matches [e]. *)
Definition try_except {A : Type} (body : M A) (handler : exn -> option (M A)) : M A :=
  fun st =>
    match body st with
    | (Raise e, st') =>
        match handler e with
        | Some h => h st'
        | None => (Raise e, st')
        end
    | r => r
    end.

Definition lift {A : Type} (r : result A) : M A := fun st => (r, st).

Definition print (msg : string) : M unit :=
  fun st => (Ok tt, mkState (out_dir st) (log st ++ [msg])).

Definition str_of_nat (n : nat) : string := NilEmpty.string_of_uint (Nat.to_uint n).

(** Truth value of a parsed document ([if not content]). *)
Definition truthy (j : json) : bool :=
  match j with
  | JNull => false
  | JBool b => b
  | JNum n => negb (Z.eqb n 0)
  | JStr s => negb (String.eqb s EmptyString)
  | JArr items => match items with [] => false | _ => true end
  | JObj fields => match fields with [] => false | _ => true end
  end.

(** A key of a [dict]; the last occurrence in the document wins. *)
Fixpoint dict_lookup (fields : list (string * json)) (key : string) : option json :=
  match fields with
  | [] => None
  | (k, v) :: rest =>
      match dict_lookup rest key with
      | Some v' => Some v'
      | None => if String.eqb k key then Some v else None
      end
  end.

(** [j[key]] for a string key. *)
Definition subscript (j : json) (key : string) : result json :=
  match j with
  | JObj fields =>
      match dict_lookup fields key with
      | Some v => Ok v
      | None => Raise (KeyError key)
      end
  | _ => Raise TypeError
  end.

(** [j.get(key, default)] *)
Definition dict_get (j : json) (key : string) (default : json) : result json :=
  match j with
  | JObj fields =>
      match dict_lookup fields key with
      | Some v => Ok v
      | None => Ok default
      end
  | _ => Raise AttributeError
  end.

Fixpoint chars (s : string) : list json :=
  match s with
  | EmptyString => []
  | String c s' => JStr (String c EmptyString) :: chars s'
  end.

(** [for x in j] *)
Definition iterate (j : json) : result (list json) :=
  match j with
  | JArr items => Ok items
  | JObj fields => Ok (map (fun kv => JStr (fst kv)) fields)
  | JStr s => Ok (chars s)
  | _ => Raise TypeError
  end.

(** [len(j)] *)
Definition len (j : json) : result nat :=
  match j with
  | JArr items => Ok (length items)
  | JObj fields => Ok (length fields)
  | JStr s => Ok (String.length s)
  | _ => Raise TypeError
  end.

Definition GITHUB_API_BASE : string :=
  "https://api.github.com/repos/Tynoxs/BuildersDelight/contents/src/main/resources/data/buildersdelight/chisel".
Definition GITHUB_BRANCH : string := "1.20.1".

Definition extract_base_name (filename : string) : string :=
  let base_name := Py.replace filename ".json" "" in
  if Py.contains "_frame" base_name then Py.replace base_name "_frame" "_planks"
  else if Py.endswith base_name "_log" then base_name
  else if negb (Py.endswith base_name "_planks") then base_name +:+ "_planks"
  else base_name.

(** The comprehension [[{"item": variant} for variant in variants]] appends
    one entry per element. *)
Definition create_chiseling_recipe (variants : list json) : json :=
  let entries :=
    fold_left (fun entries variant => entries ++ [JObj [("item", variant)]]) variants [] in
  JObj [("type", JStr "rechiseled:chiseling");
        ("overwrite", JBool false);
        ("entries", JArr entries)].

Section Generator.

(** The network: what a GET of the given argument leads to. *)
Variable net : json -> outcome.

(** Whether the [JSONDecodeError] of [Response.json()] is also a
    [RequestException] (it is from requests 2.27 on). *)
Variable json_error_is_request_exception : bool.

(** What the file system does when the file of the given name is opened
    for writing and dumped to. *)
Variable writing : string -> write_outcome.

(** An output file name with a separator does not name an entry of the
    output directory: [stray name] is the text of the path
    [SCRIPT_DIR / OUTPUT_DIR / name] and the entry of the output directory
    that this path leads to, [None] when it leads elsewhere. *)
Variable stray : string -> string * option string.

(** [str(SCRIPT_DIR / OUTPUT_DIR)], [str(x)] for values that are not
    strings, and the text of the interpreter's own errors. *)
Variable output_dir_str : string.
Variable repr : json -> string.
Variable builtin_message : exn -> string.

Definition fmt (j : json) : string :=
  match j with JStr s => s | _ => repr j end.

(** [requests.get(url)], [raise_for_status()] and [response.json()]. *)
Definition get_json (url : json) : M json :=
  match net url with
  | Unreachable msg => raise (RequestException msg)
  | Malformed msg => raise (JSONDecodeError msg)
  | Document j => ret j
  end.

Definition is_RequestException (e : exn) : bool :=
  match e with
  | RequestException _ => true
  | JSONDecodeError _ => json_error_is_request_exception
  | _ => false
  end.

Definition exn_str (e : exn) : string :=
  match e with
  | RequestException msg | JSONDecodeError msg | IOError msg => msg
  | KeyError key => "'" +:+ key +:+ "'"
  | TypeError | AttributeError | FileNotFoundError _ => builtin_message e
  end.

(** [except IOError]: [IOError] is [OSError], of which [FileNotFoundError]
    and [requests.RequestException] are subclasses. *)
Definition is_IOError (e : exn) : bool :=
  match e with
  | IOError _ | FileNotFoundError _ => true
  | _ => is_RequestException e
  end.

(** [shutil.rmtree] and [mkdir] are taken to succeed. *)
Definition clean_output_directory : M unit :=
  fun st =>
    let st1 :=
      match out_dir st with
      | Some _ => mkState None (log st ++ ["Cleaning directory: " +:+ output_dir_str])
      | None => st
      end in
    (Ok tt, mkState (Some ∅) (log st1 ++ ["Created directory: " +:+ output_dir_str])).

(** The filter of the comprehension in [get_github_files]. *)
Definition is_json_file (f : json) : result bool :=
  match subscript f "name" with
  | Raise e => Raise e
  | Ok (JStr name) =>
      if Py.endswith name ".json" then
        match subscript f "type" with
        | Raise e => Raise e
        | Ok (JStr "file") => Ok true
        | Ok _ => Ok false
        end
      else Ok false
  | Ok _ => Raise AttributeError
  end.

Fixpoint select_json_files (files : list json) : result (list json) :=
  match files with
  | [] => Ok []
  | f :: rest =>
      match is_json_file f with
      | Raise e => Raise e
      | Ok keep =>
          match select_json_files rest with
          | Raise e => Raise e
          | Ok r => Ok (if keep then f :: r else r)
          end
      end
  end.

Definition get_github_files : M (list json) :=
  let url := GITHUB_API_BASE +:+ "?ref=" +:+ GITHUB_BRANCH in
  print ("Fetching file list from: " +:+ url) ;;;
  try_except
    (files <- get_json (JStr url) ;;
     items <- lift (iterate files) ;;
     json_files <- lift (select_json_files items) ;;
     print ("Found " +:+ str_of_nat (length json_files) +:+ " JSON files") ;;;
     ret json_files)
    (fun e =>
       if is_RequestException e
       then Some (print ("Error fetching file list: " +:+ exn_str e) ;;; ret [])
       else None).

Definition download_file_content (download_url : json) : M (option json) :=
  try_except
    (j <- get_json download_url ;; ret (Some j))
    (fun e =>
       if is_RequestException e then
         Some (print ("Error downloading file from " +:+ fmt download_url +:+ ": "
                      +:+ exn_str e) ;;; ret None)
       else
         match e with
         | JSONDecodeError _ =>
             Some (print ("Error parsing JSON from " +:+ fmt download_url +:+ ": "
                          +:+ exn_str e) ;;; ret None)
         | _ => None
         end).

(** [str(SCRIPT_DIR / OUTPUT_DIR / output_filename)] *)
Definition path_str (output_filename : string) : string :=
  if Py.has_char "/" output_filename then fst (stray output_filename)
  else output_dir_str +:+ "/" +:+ output_filename.

(** The entry of the output directory that this path names: the file name
    itself when it has no separator. *)
Definition target (output_filename : string) : option string :=
  if Py.has_char "/" output_filename then snd (stray output_filename)
  else Some output_filename.

(** The file that has been opened for writing now holds [content]. *)
Definition store (output_filename : string) (content : file) (st : state) : state :=
  match target output_filename, out_dir st with
  | Some name, Some files => mkState (Some (<[name := content]> files)) (log st)
  | _, _ => st
  end.

(** [with open(output_path, 'w') as f: json.dump(recipe, f)]. A file in a
    directory that does not exist cannot be opened; a dump that fails leaves
    the file it has opened. *)
Definition write_json (output_filename : string) (doc : json) : M unit :=
  fun st =>
    match out_dir st, Py.has_char "/" output_filename with
    | None, false => (Raise (FileNotFoundError (path_str output_filename)), st)
    | _, _ =>
        match writing output_filename with
        | Written => (Ok tt, store output_filename (Whole doc) st)
        | OpenFails msg => (Raise (IOError msg), st)
        | DumpFails msg => (Raise (IOError msg), store output_filename Partial st)
        end
    end.

Definition process_chisel_file (file_info : json) : M unit :=
  filename <- lift (subscript file_info "name") ;;
  download_url <- lift (subscript file_info "download_url") ;;
  print ("Processing: " +:+ fmt filename) ;;;
  content <- download_file_content download_url ;;
  match content with
  | None => print ("Skipping " +:+ fmt filename +:+ " due to download/parse error")
  | Some content =>
      if negb (truthy content)
      then print ("Skipping " +:+ fmt filename +:+ " due to download/parse error")
      else
        variants <- lift (dict_get content "variants" (JArr [])) ;;
        if negb (truthy variants)
        then print ("No variants found in " +:+ fmt filename)
        else
          n <- lift (len variants) ;;
          print ("Found " +:+ str_of_nat n +:+ " variants in " +:+ fmt filename) ;;;
          base_name <- lift (match filename with
                             | JStr s => Ok (extract_base_name s)
                             | _ => Raise AttributeError
                             end) ;;
          let output_filename := base_name +:+ ".json" in
          let output_path := path_str output_filename in
          items <- lift (iterate variants) ;;
          let recipe := create_chiseling_recipe items in
          try_except
            (write_json output_filename recipe ;;;
             print ("Generated: " +:+ output_path))
            (fun e =>
               if is_IOError e
               then Some (print ("Error writing " +:+ output_path +:+ ": " +:+ exn_str e))
               else None)
  end.

(** The [for file_info in files] loop of [main]. *)
Fixpoint process_files (files : list json) : M unit :=
  match files with
  | [] => ret tt
  | file_info :: rest =>
      try_except (process_chisel_file file_info)
        (fun e =>
           Some (name <- lift (subscript file_info "name") ;;
                 print ("Error processing " +:+ fmt name +:+ ": " +:+ exn_str e))) ;;;
      print "------------------------------" ;;;
      process_files rest
  end.

Definition rule : string := "==================================================".

Definition main : M unit :=
  print "Starting chisel recipe generation..." ;;;
  print rule ;;;
  clean_output_directory ;;;
  files <- get_github_files ;;
  match files with
  | [] => print "No files found or error occurred. Exiting."
  | _ =>
      print rule ;;;
      process_files files ;;;
      print rule ;;;
      print "Generation complete!" ;;;
      print ("Output directory: " +:+ output_dir_str)
  end.

End Generator.

End Generate.

(* ===================================================================== *)
(** ** Notions used to state the properties *)
(* ===================================================================== *)

Module PathSpec.
Import Py Posixpath.

(** The name of a directory entry: not empty, without a separator, and
    neither ["."] nor [".."]. *)
Definition wf_name (n : string) : bool :=
  negb (String.eqb n "") && negb (has_char "/" n)
  && negb (String.eqb n ".") && negb (String.eqb n "..").

(** A component that [normpath] keeps. *)
Definition plain (n : string) : Prop := n <> "" /\ has_char "/" n = false.

(** The components that the loop of [normpath] keeps for an absolute
    path. *)
Definition nc (path : string) : list string :=
  fold_left (norm_step 1) (split "/" path) [].

(** The path that [abspath] normalises. *)
Definition resolve (cwd path : string) : string :=
  if isabs path then path else join2 cwd path.

(** [[x for x in abspath(path).split(sep) if x]] *)
Definition abs_list (cwd path : string) : list string :=
  List.filter nonempty (split "/" (abspath cwd path)).

End PathSpec.

Module FnmatchSpec.
Import Py Fnmatch.

(** A pattern without ['*'], ['?'] and ['[']. *)
Definition literal (s : string) : bool :=
  negb (has_char "*" s) && negb (has_char "?" s) && negb (has_char "[" s).

(** The tokens of a pattern without metacharacters. *)
Fixpoint lits (s : string) : list token :=
  match s with
  | EmptyString => []
  | String c s' => LIT c :: lits s'
  end.

End FnmatchSpec.

Module BundleSpec.
Import Py Posixpath PathSpec Bundle.

(** Entries of a real directory have names that are not empty, hold no
    separator and are neither ["."] nor [".."]. *)
Fixpoint names_ok (e : entry) : bool :=
  match e with
  | File _ _ => true
  | Dir _ children =>
      forallb (fun c => wf_name (entry_name c) && names_ok c) children
  end.

(** [file_at e comps data]: below the directory [e], the chain of names
    [comps] leads to a file with content [data]. *)
Inductive file_at : entry -> list string -> string -> Prop :=
| file_here n children f data :
    In (File f data) children -> file_at (Dir n children) [f] data
| file_below n children d ch rest data :
    In (Dir d ch) children -> file_at (Dir d ch) rest data ->
    file_at (Dir n children) (d :: rest) data.

(** What [should_ignore] answers for the entry reached by the names [comps]
    from the root: the first loop on the relative path and the last name,
    the second loop on every prefix. *)
Definition ignored (patterns : list string) (comps : list string) : bool :=
  existsb (pattern_hits (Py.join "/" comps) (List.last comps "")) patterns
  || existsb
       (fun i => existsb (prefix_hits (Py.join "/" (firstn (i + 1) comps))) patterns)
       (seq 0 (length comps)).

(** The entry that the loop body adds for one file. *)
Definition file_pure (patterns : list string) (out : string) (pre : list string)
    (file : string * string) : archive :=
  if negb (ignored patterns (pre ++ [fst file])) && negb (String.eqb (fst file) out)
  then [(Py.join "/" (pre ++ [fst file]), snd file)]
  else [].

(** The walk with the paths replaced by chains of names. *)
Fixpoint walk_pure (patterns : list string) (out : string) (pre : list string)
    (e : entry) {struct e} : archive :=
  match e with
  | File _ _ => []
  | Dir _ children =>
      flat_map (file_pure patterns out pre) (file_entries children)
      ++ flat_map
           (fun c =>
              match c with
              | Dir d _ =>
                  if negb (ignored patterns (pre ++ [d]))
                  then walk_pure patterns out (pre ++ [d]) c
                  else []
              | File _ _ => []
              end)
           children
  end.

(** No directory on the way from [pre] to the entry at [pre ++ rest] is
    ignored: the walk descends as far as the entry's parent. *)
Definition reached (patterns : list string) (pre rest : list string) : Prop :=
  forall k, 0 < k < length rest -> ignored patterns (pre ++ firstn k rest) = false.

(** A stripped line that [load_packignore_patterns] keeps. *)
Definition is_pattern_line (line : string) : bool :=
  negb (String.eqb line "") && negb (startswith line "#").

(** The contract as it is worded: the lines of the file that are not empty
    and are no comments, as they stand in the file. *)
Definition non_empty_non_comment_lines (lines : list string) : list string :=
  List.filter (fun line => negb (String.eqb line "") && negb (startswith line "#")) lines.

(** Induction on a tree, with the property for every child of a
    directory. *)
Definition entry_induction (P : entry -> Prop)
    (HFile : forall n data, P (File n data))
    (HDir : forall n children, Forall P children -> P (Dir n children))
  : forall e, P e :=
  fix go (e : entry) : P e :=
    match e with
    | File n data => HFile n data
    | Dir n children =>
        HDir n children
          ((fix all (l : list entry) : Forall P l :=
              match l with
              | [] => @List.Forall_nil entry P
              | c :: l' => @List.Forall_cons entry P c l' (go c) (all l')
              end) children)
    end.

(** A small project: the ignore file at [/pack/.packignore] and two trees
    at [/pack]. *)
Definition ignore_file (lines : list string) (p : string) : fs_node :=
  if String.eqb p "/pack/.packignore" then TextFile lines else NoEntry.

Definition pack_tree : entry :=
  Dir "pack" [File "a.txt" "A"; Dir "skip" [File "b.txt" "B"];
              Dir "keep" [File "c.txt" "C"; Dir "skip" [File "d.txt" "D"]];
              File "pack.zip" ""].

Definition nested_zip_tree : entry :=
  Dir "pack" [File "a.txt" "A"; Dir "sub" [File "pack.zip" "Z"]; File "pack.zip" ""].

Definition three_file_tree : entry :=
  Dir "pack" [File "a.txt" "A"; Dir "skip" [File "b.txt" "B"];
              Dir "keep" [File "c.txt" "C"]].

End BundleSpec.

Module GenerateSpec.
Import Py Generate.

(** The GET of [url] fails on the network or delivers a body that is not
    JSON. *)
Definition download_fails (net : json -> outcome) (url : json) : bool :=
  match net url with
  | Document _ => false
  | _ => true
  end.

Definition list_url : string := GITHUB_API_BASE +:+ "?ref=" +:+ GITHUB_BRANCH.

(** The list request raises a [RequestException]. *)
Definition list_fetch_fails (net : json -> outcome)
    (json_error_is_request_exception : bool) (msg : string) : Prop :=
  net (JStr list_url) = Unreachable msg
  \/ (net (JStr list_url) = Malformed msg /\ json_error_is_request_exception = true).

(** What [main] has printed when the list request failed. *)
Definition failed_run_log (output_dir_str : string) (st : state) (msg : string)
  : list string :=
  log st
  ++ ["Starting chisel recipe generation..."; rule]
  ++ match out_dir st with
     | Some _ => ["Cleaning directory: " +:+ output_dir_str]
     | None => []
     end
  ++ ["Created directory: " +:+ output_dir_str;
      "Fetching file list from: " +:+ list_url;
      "Error fetching file list: " +:+ msg;
      "No files found or error occurred. Exiting."].

(** What [process_chisel_file] prints for a file of the given name whose
    download failed, [msg] being the line of [download_file_content]. *)
Definition skipped_lines (filename msg : string) : list string :=
  ["Processing: " +:+ filename; msg;
   "Skipping " +:+ filename +:+ " due to download/parse error"].

(** The line that ends each turn of the loop of [main]. *)
Definition turn_end : string := "------------------------------".

(** A computation only adds lines to what has been printed. *)
Definition appends {A : Type} (m : M A) : Prop :=
  forall st, exists lines, log (snd (m st)) = log st ++ lines.

(** No file name in the listing that the list request delivers holds a
    separator (the names of the entries of a directory never do). *)
Definition plain_names (net : json -> outcome) : Prop :=
  forall listing items f name,
    net (JStr list_url) = Document listing ->
    iterate listing = Ok items ->
    In f items ->
    subscript f "name" = Ok (JStr name) ->
    has_char "/" name = false.

(** A network on which every request fails. *)
Definition net_down (url : json) : outcome := Unreachable "connection refused".

(** A listing of three files, of which the first cannot be downloaded. *)
(** A run in which the first of two downloads fails. *)
Definition file_info (name url : string) : json :=
  JObj [("name", JStr name); ("type", JStr "file"); ("download_url", JStr url)].

Definition net0 (url : json) : outcome :=
  match url with
  | JStr u =>
      if String.eqb u list_url then
        Document (JArr [file_info "oak_frame.json" "https://raw/oak";
                        file_info "birch_frame.json" "https://raw/birch";
                        file_info "README.md" "https://raw/readme"])
      else if String.eqb u "https://raw/oak" then Unreachable "timed out"
      else if String.eqb u "https://raw/birch" then
        Document (JObj [("variants", JArr [JStr "bd:birch_frame_1"; JStr "bd:birch_frame_2"])])
      else Unreachable "404"
  | _ => Unreachable "Invalid URL"
  end.

Definition run0 : result unit * state :=
  main net0 true (fun _ => Written) (fun _ => ("", None)) "../data/rechiseld/chiseling_recipes"
    (fun _ => "") (fun _ => "") (mkState None []).

End GenerateSpec.

(** Notions for the further properties of the bundler. *)
Module ArchiveSpec.
Import Py Posixpath PathSpec Bundle BundleSpec.

(** The answer of [should_ignore] once the relative path is known: the
    first loop, then the loop over the prefixes. *)
Definition rel_hits (relative_path base : string) (patterns : list string) : bool :=
  existsb (pattern_hits relative_path base) patterns
  || existsb
       (fun i =>
          existsb
            (prefix_hits (Py.join "/" (firstn (i + 1) (split "/" relative_path))))
            patterns)
       (seq 0 (length (split "/" relative_path))).

(** No two equal strings in a list. *)
Fixpoint distinct (l : list string) : bool :=
  match l with
  | [] => true
  | a :: l' => negb (existsb (String.eqb a) l') && distinct l'
  end.

(** In every directory of the tree the entries have different names. *)
Fixpoint names_unique (e : entry) : bool :=
  match e with
  | File _ _ => true
  | Dir _ children =>
      distinct (map entry_name children) && forallb names_unique children
  end.

(** What the walk adds for one child of a directory: the entries below a
    subdirectory that is kept. *)
Definition walk_below (patterns : list string) (out : string) (pre : list string)
    (c : entry) : archive :=
  match c with
  | Dir d _ =>
      if negb (ignored patterns (pre ++ [d]))
      then walk_pure patterns out (pre ++ [d]) c
      else []
  | File _ _ => []
  end.

(** [dir_at e comps]: below the directory [e], the chain of names [comps]
    leads to a directory ([e] itself for the empty chain). *)
Fixpoint dir_at (e : entry) (comps : list string) {struct e} : bool :=
  match e with
  | File _ _ => false
  | Dir _ children =>
      match comps with
      | [] => true
      | c :: rest =>
          existsb (fun x => String.eqb (entry_name x) c && dir_at x rest) children
      end
  end.

(** A project as [main] finds it at [/pack]: the script in [scripts], the
    ignore file, and a directory [dist] for the archive. *)
Definition project_tree : entry :=
  Dir "pack" [File ".packignore" "skip/"; File "a.txt" "A";
              Dir "dist" [File "pack.zip" ""];
              Dir "scripts" [File "bundle.py" ""];
              Dir "skip" [File "b.txt" "B"]].

End ArchiveSpec.

(* ===================================================================== *)
(** ** Facts about the string methods *)
(* ===================================================================== *)

#[local] Arguments String.append !s1 s2 : simpl nomatch.

Module PyFacts.
Import Py.

Lemma sapp_nil_r (s : string) : s +:+ "" = s.
Proof. induction s; simpl; congruence. Qed.

Lemma sapp_assoc (a b c : string) : (a +:+ b) +:+ c = a +:+ (b +:+ c).
Proof. induction a; simpl; congruence. Qed.

Lemma endswith_unfold (s p : string) :
  endswith s p =
  String.eqb s p || match s with "" => false | String _ s' => endswith s' p end.
Proof. destruct s; reflexivity. Qed.

Lemma endswith_refl (s : string) : endswith s s = true.
Proof. rewrite endswith_unfold, String.eqb_refl. reflexivity. Qed.

Lemma endswith_app (s p : string) : endswith (s +:+ p) p = true.
Proof.
  induction s as [|c s IH].
  - apply endswith_refl.
  - rewrite endswith_unfold. simpl. rewrite IH. apply orb_true_r.
Qed.

Lemma endswith_inv (s p : string) : endswith s p = true -> exists t, s = t +:+ p.
Proof.
  induction s as [|c s IH]; rewrite endswith_unfold; intros H.
  - rewrite orb_false_r in H. apply String.eqb_eq in H. subst. exists "". reflexivity.
  - apply orb_true_iff in H. destruct H as [H|H].
    + apply String.eqb_eq in H. exists "". simpl. congruence.
    + destruct (IH H) as [t ->]. exists (String c t). reflexivity.
Qed.

Lemma has_char_app (c : ascii) (a b : string) :
  has_char c (a +:+ b) = has_char c a || has_char c b.
Proof. induction a; simpl; [reflexivity|]. rewrite IHa. apply orb_assoc. Qed.

Lemma split_not_nil (sep : ascii) (s : string) : split sep s <> [].
Proof.
  induction s as [|c s IH]; simpl; [discriminate|].
  destruct (Ascii.eqb c sep); [discriminate|].
  destruct (split sep s); discriminate.
Qed.

Lemma split_no_sep (sep : ascii) (s : string) :
  has_char sep s = false -> split sep s = [s].
Proof.
  induction s as [|c s IH]; simpl; intros H; [reflexivity|].
  apply orb_false_iff in H. destruct H as [H1 H2].
  rewrite H1, (IH H2). reflexivity.
Qed.

Lemma split_app_sep (sep : ascii) (x y : string) :
  split sep (x +:+ String sep y) = split sep x ++ split sep y.
Proof.
  induction x as [|c x IH]; simpl.
  - rewrite Ascii.eqb_refl. reflexivity.
  - destruct (Ascii.eqb c sep); rewrite IH; [reflexivity|].
    destruct (split sep x) eqn:E; [exfalso; eapply split_not_nil; eauto|].
    reflexivity.
Qed.

Lemma join_cons (sep a : string) (l : list string) :
  l <> [] -> join sep (a :: l) = a +:+ sep +:+ join sep l.
Proof. destruct l; [congruence|reflexivity]. Qed.

Lemma join_snoc (sep : string) (l : list string) (a : string) :
  l <> [] -> join sep (l ++ [a]) = join sep l +:+ sep +:+ a.
Proof.
  induction l as [|b l IH]; [congruence|]. intros _.
  destruct l as [|c l].
  - reflexivity.
  - change ((b :: c :: l) ++ [a]) with (b :: ((c :: l) ++ [a])).
    rewrite join_cons by (simpl; discriminate).
    rewrite IH by discriminate.
    rewrite (join_cons sep b (c :: l)) by discriminate.
    rewrite !sapp_assoc. reflexivity.
Qed.

(** Names without the separator survive a join followed by a split. *)
Lemma split_join (l : list string) :
  l <> [] -> Forall (fun n => has_char "/" n = false) l ->
  split "/" (join "/" l) = l.
Proof.
  induction l as [|a l IH]; [congruence|]. intros _ H.
  inversion H as [|? ? Ha Hl]; subst.
  destruct l as [|b l].
  - simpl. apply split_no_sep; assumption.
  - rewrite join_cons by discriminate.
    change ("/" +:+ join "/" (b :: l)) with (String "/" (join "/" (b :: l))).
    rewrite split_app_sep, IH by (try discriminate; assumption).
    rewrite split_no_sep by assumption. reflexivity.
Qed.

Lemma last_app {A : Type} (l l' : list A) (d : A) :
  l' <> [] -> List.last (l ++ l') d = List.last l' d.
Proof.
  intros H. induction l as [|a l IH]; [reflexivity|].
  simpl. rewrite IH. destruct (l ++ l') eqn:E; [|reflexivity].
  apply app_eq_nil in E. destruct E; congruence.
Qed.

Lemma last_split_app_sep (sep : ascii) (x y : string) :
  List.last (split sep (x +:+ String sep y)) "" = List.last (split sep y) "".
Proof. rewrite split_app_sep. apply last_app, split_not_nil. Qed.

Lemma split_slash_free (s : string) :
  Forall (fun n => has_char "/" n = false) (split "/" s).
Proof.
  induction s as [|c s IH]; simpl.
  - constructor; [reflexivity|constructor].
  - destruct (Ascii.eqb c "/") eqn:E.
    + constructor; [reflexivity|assumption].
    + destruct (split "/" s) as [|h t]; inversion IH; subst;
        constructor; simpl; try rewrite E; auto.
Qed.

Lemma startswith_app_nonempty (a b : string) :
  a <> "" -> startswith (a +:+ b) "/" = startswith a "/".
Proof. destruct a; [congruence|]. intros _. reflexivity. Qed.

Lemma endswith_slash_cons (c : ascii) (s : string) :
  s <> "" -> endswith (String c s) "/" = endswith s "/".
Proof.
  intros H. rewrite endswith_unfold.
  destruct s; [congruence|].
  replace (String.eqb (String c (String a s)) "/") with false; [reflexivity|].
  symmetry. apply String.eqb_neq. intros E. inversion E.
Qed.

Lemma endswith_slash_app (x a : string) :
  a <> "" -> endswith (x +:+ a) "/" = endswith a "/".
Proof.
  intros H. induction x as [|c x IH]; [reflexivity|].
  change (String c x +:+ a) with (String c (x +:+ a)).
  rewrite endswith_slash_cons; [assumption|].
  intros E. apply H. destruct x; [exact E|discriminate].
Qed.

Lemma endswith_slash_free (d : string) :
  has_char "/" d = false -> endswith d "/" = false.
Proof.
  intros H. destruct (endswith d "/") eqn:E; [|reflexivity].
  apply endswith_inv in E. destruct E as [t ->].
  rewrite has_char_app in H. simpl in H.
  rewrite orb_true_r in H. discriminate.
Qed.

Lemma app_eq_nil_l (a b : string) : a +:+ b = "" -> a = "".
Proof. destruct a; [reflexivity|discriminate]. Qed.

End PyFacts.

(* ===================================================================== *)
(** ** Facts about paths *)
(* ===================================================================== *)

Module PosixFacts.
Import Py PyFacts Posixpath PathSpec.

Lemma wf_name_inv (n : string) :
  wf_name n = true ->
  n <> "" /\ has_char "/" n = false /\ n <> "." /\ n <> "..".
Proof.
  unfold wf_name. rewrite !andb_true_iff, !negb_true_iff, !String.eqb_neq.
  tauto.
Qed.

Lemma wf_name_not_abs (d : string) : wf_name d = true -> startswith d "/" = false.
Proof.
  intros H. apply wf_name_inv in H. destruct H as (_ & H & _).
  destruct d as [|c d]; [reflexivity|].
  simpl in H. apply orb_false_iff in H. destruct H as [H _].
  simpl. rewrite H. reflexivity.
Qed.

(** [join2] with a directory entry's name. *)
Lemma join2_name (root d : string) :
  wf_name d = true ->
  join2 root d =
  if String.eqb root "" || endswith root "/" then root +:+ d else root +:+ "/" +:+ d.
Proof. intros H. unfold join2. rewrite (wf_name_not_abs d H). reflexivity. Qed.

Lemma join2_nonempty (root d : string) : wf_name d = true -> join2 root d <> "".
Proof.
  intros H. rewrite (join2_name _ _ H).
  apply wf_name_inv in H. destruct H as (Hd & _).
  destruct (String.eqb root "" || endswith root "/");
    intros E; destruct root; simpl in E; congruence.
Qed.

Lemma basename_join2 (root d : string) :
  wf_name d = true -> basename (join2 root d) = d.
Proof.
  intros H. rewrite (join2_name _ _ H).
  pose proof (wf_name_inv _ H) as (Hd & Hs & _).
  unfold basename.
  destruct (String.eqb root "") eqn:E1; simpl.
  - apply String.eqb_eq in E1. subst. simpl. rewrite split_no_sep by assumption. reflexivity.
  - destruct (endswith root "/") eqn:E2.
    + apply endswith_inv in E2. destruct E2 as [t ->].
      rewrite sapp_assoc. change ("/" +:+ d) with (String "/" d).
      rewrite last_split_app_sep, split_no_sep by assumption. reflexivity.
    + change ("/" +:+ d) with (String "/" d).
      rewrite last_split_app_sep, split_no_sep by assumption. reflexivity.
Qed.


(** *** Normalisation of absolute paths *)

Lemma initial_slashes_abs (path : string) :
  isabs path = true -> initial_slashes path = 1 \/ initial_slashes path = 2.
Proof.
  unfold initial_slashes, isabs. intros ->.
  destruct (startswith path "//" && negb (startswith path "///")); auto.
Qed.

Lemma norm_comps_abs (path : string) : isabs path = true -> norm_comps path = nc path.
Proof.
  intros H. unfold norm_comps, nc.
  destruct (initial_slashes_abs path H) as [-> | ->]; reflexivity.
Qed.

Lemma norm_step_name (s : nat) (acc : list string) (d : string) :
  wf_name d = true -> norm_step s acc d = acc ++ [d].
Proof.
  intros H. apply wf_name_inv in H. destruct H as (H1 & _ & H2 & H3).
  unfold norm_step.
  apply String.eqb_neq in H1, H2, H3. rewrite H1, H2, H3. reflexivity.
Qed.

Lemma norm_step_plain (s : nat) (acc : list string) (c : string) :
  has_char "/" c = false -> Forall plain acc -> Forall plain (norm_step s acc c).
Proof.
  intros Hc Hacc. unfold norm_step.
  destruct (String.eqb c "") eqn:E; simpl; [assumption|].
  destruct (String.eqb c "."); simpl; [assumption|].
  match goal with |- Forall _ (if ?b then _ else _) => destruct b end.
  - apply List.Forall_app. split; [assumption|].
    constructor; [|constructor]. split; [|assumption].
    apply String.eqb_neq. assumption.
  - clear -Hacc. induction Hacc as [|x l Hx Hl IH]; simpl; [constructor|].
    destruct l; [constructor|]. constructor; assumption.
Qed.

Lemma fold_norm_plain (s : nat) (comps acc : list string) :
  Forall (fun n => has_char "/" n = false) comps -> Forall plain acc ->
  Forall plain (fold_left (norm_step s) comps acc).
Proof.
  revert acc. induction comps as [|c comps IH]; simpl; intros acc Hc Hacc.
  - assumption.
  - inversion Hc; subst. apply IH; [assumption|]. apply norm_step_plain; assumption.
Qed.

Lemma nc_plain (path : string) : Forall plain (nc path).
Proof. apply fold_norm_plain; [apply split_slash_free|constructor]. Qed.

Lemma filter_nonempty_plain (l : list string) :
  Forall plain l -> List.filter nonempty l = l.
Proof.
  induction 1 as [|x l [Hx _] _ IH]; simpl; [reflexivity|].
  unfold nonempty at 1. apply String.eqb_neq in Hx. rewrite Hx. simpl. congruence.
Qed.

Lemma filter_split_join (l : list string) :
  Forall plain l -> List.filter nonempty (split "/" (Py.join "/" l)) = l.
Proof.
  intros H. destruct l as [|a l]; [reflexivity|].
  rewrite split_join; [apply filter_nonempty_plain; assumption|discriminate|].
  eapply List.Forall_impl; [|exact H]. intros x [_ Hx]. exact Hx.
Qed.

(** The components of a normalised absolute path are those that the loop of
    [normpath] keeps. *)
Lemma normpath_abs_list (path : string) :
  isabs path = true -> List.filter nonempty (split "/" (normpath path)) = nc path.
Proof.
  intros H. unfold normpath.
  assert (Hne : String.eqb path "" = false) by (destruct path; [discriminate|reflexivity]).
  rewrite Hne, (norm_comps_abs path H).
  pose proof (nc_plain path) as Hp.
  destruct (initial_slashes_abs path H) as [-> | ->]; simpl.
  - change (List.filter nonempty (split "/" (Py.join "/" (nc path))) = nc path).
    apply filter_split_join; assumption.
  - change (List.filter nonempty (split "/" (Py.join "/" (nc path))) = nc path).
    apply filter_split_join; assumption.
Qed.

Lemma nc_snoc (z d : string) :
  wf_name d = true -> nc (z +:+ "/" +:+ d) = nc z ++ [d].
Proof.
  intros H. unfold nc. change ("/" +:+ d) with (String "/" d).
  rewrite split_app_sep, fold_left_app.
  rewrite split_no_sep by (apply wf_name_inv in H; tauto).
  simpl. apply norm_step_name; assumption.
Qed.

Lemma nc_slash (y : string) : nc (y +:+ "/") = nc y.
Proof.
  unfold nc. change (y +:+ "/") with (y +:+ String "/" "").
  rewrite split_app_sep, fold_left_app. reflexivity.
Qed.

Lemma nc_join2 (z d : string) :
  z <> "" -> wf_name d = true -> nc (join2 z d) = nc z ++ [d].
Proof.
  intros Hz H. rewrite (join2_name _ _ H).
  apply String.eqb_neq in Hz. rewrite Hz. simpl.
  destruct (endswith z "/") eqn:E.
  - apply endswith_inv in E. destruct E as [t ->].
    rewrite sapp_assoc, nc_snoc, nc_slash by assumption. reflexivity.
  - apply nc_snoc; assumption.
Qed.

Lemma join2_rel (x p : string) :
  startswith p "/" = false ->
  join2 x p =
  if String.eqb x "" || endswith x "/" then x +:+ p else x +:+ "/" +:+ p.
Proof. intros H. unfold join2. rewrite H. reflexivity. Qed.

Lemma join2_after (y a d : string) :
  a <> "" -> wf_name d = true ->
  join2 (y +:+ a) d =
  if String.eqb a "" || endswith a "/" then y +:+ a +:+ d else y +:+ a +:+ "/" +:+ d.
Proof.
  intros Ha Hd. rewrite (join2_name _ _ Hd), endswith_slash_app by assumption.
  assert (E1 : String.eqb (y +:+ a) "" = false).
  { apply String.eqb_neq. intros E. destruct y; simpl in E; [congruence|discriminate]. }
  assert (E2 : String.eqb a "" = false) by (apply String.eqb_neq; assumption).
  rewrite E1, E2, !sapp_assoc. reflexivity.
Qed.

Lemma join2_assoc (x a d : string) :
  a <> "" -> startswith a "/" = false -> wf_name d = true ->
  join2 x (join2 a d) = join2 (join2 x a) d.
Proof.
  intros Ha Hrel Hd.
  rewrite (join2_rel x a Hrel), (join2_name a d Hd).
  assert (Hrel' : forall t, startswith (a +:+ t) "/" = false).
  { intros t. rewrite startswith_app_nonempty; assumption. }
  destruct (String.eqb x "" || endswith x "/") eqn:Ex.
  - rewrite (join2_after x a d Ha Hd).
    destruct (String.eqb a "" || endswith a "/");
      rewrite join2_rel by apply Hrel'; rewrite Ex; reflexivity.
  - rewrite <- (sapp_assoc x "/" a), (join2_after (x +:+ "/") a d Ha Hd).
    destruct (String.eqb a "" || endswith a "/");
      rewrite join2_rel by apply Hrel'; rewrite Ex, !sapp_assoc; reflexivity.
Qed.

Section Absolute.

Variable cwd : string.
Hypothesis cwd_abs : isabs cwd = true.

Lemma cwd_nonempty : cwd <> "".
Proof using cwd_abs. intros E. rewrite E in cwd_abs. discriminate. Qed.

Lemma join2_cwd_abs (p : string) : isabs p = false -> isabs (join2 cwd p) = true.
Proof using cwd_abs.
  intros Hp. unfold join2. unfold isabs in Hp. rewrite Hp.
  destruct (String.eqb cwd "" || endswith cwd "/");
    unfold isabs; rewrite startswith_app_nonempty; auto using cwd_nonempty.
Qed.

Lemma resolve_abs (p : string) : isabs (resolve cwd p) = true.
Proof using cwd_abs.
  unfold resolve. destruct (isabs p) eqn:E; [assumption|].
  apply join2_cwd_abs; assumption.
Qed.

Lemma abs_list_nc (p : string) : abs_list cwd p = nc (resolve cwd p).
Proof using cwd_abs.
  unfold abs_list, abspath. fold (resolve cwd p).
  apply normpath_abs_list, resolve_abs.
Qed.

Lemma resolve_nonempty (p : string) : resolve cwd p <> "".
Proof using cwd_abs.
  intros E. pose proof (resolve_abs p) as H. rewrite E in H. discriminate.
Qed.

Lemma nc_resolve_join2 (a d : string) :
  wf_name d = true -> nc (resolve cwd (join2 a d)) = nc (resolve cwd a) ++ [d].
Proof using cwd_abs.
  intros Hd. unfold resolve at 1 2.
  destruct (isabs a) eqn:Ea.
  - assert (Hne : a <> "") by (intros E; rewrite E in Ea; discriminate).
    assert (Habs : isabs (join2 a d) = true).
    { rewrite (join2_name _ _ Hd).
      destruct (String.eqb a "" || endswith a "/");
        unfold isabs; rewrite startswith_app_nonempty; assumption. }
    rewrite Habs. apply nc_join2; assumption.
  - destruct (String.eqb a "") eqn:E0.
    + apply String.eqb_eq in E0. subst a.
      assert (Hj : join2 "" d = d) by (rewrite (join2_name _ _ Hd); reflexivity).
      rewrite Hj. unfold isabs. rewrite (wf_name_not_abs _ Hd).
      rewrite nc_join2 by auto using cwd_nonempty. f_equal.
      unfold join2. simpl.
      pose proof cwd_nonempty as Hc. apply String.eqb_neq in Hc. rewrite Hc. simpl.
      destruct (endswith cwd "/").
      * rewrite sapp_nil_r. reflexivity.
      * rewrite nc_slash. reflexivity.
    + apply String.eqb_neq in E0.
      assert (Hrel : isabs (join2 a d) = false).
      { rewrite (join2_name _ _ Hd).
        destruct (String.eqb a "" || endswith a "/");
          unfold isabs; rewrite startswith_app_nonempty; assumption. }
      rewrite Hrel, join2_assoc by assumption.
      apply nc_join2; [|assumption].
      fold (resolve cwd a). intros E.
      assert (H : resolve cwd a = join2 cwd a) by (unfold resolve; rewrite Ea; reflexivity).
      rewrite <- H in E. exact (resolve_nonempty a E).
Qed.

Lemma abs_list_join (a : string) (comps : list string) :
  Forall (fun n => wf_name n = true) comps ->
  abs_list cwd (Posixpath.join a comps) = abs_list cwd a ++ comps.
Proof using cwd_abs.
  revert a. induction comps as [|d comps IH]; intros a H.
  - rewrite List.app_nil_r. reflexivity.
  - inversion H; subst.
    change (Posixpath.join a (d :: comps)) with (Posixpath.join (join2 a d) comps).
    rewrite IH by assumption.
    rewrite !abs_list_nc, nc_resolve_join2 by assumption.
    rewrite <- List.app_assoc. reflexivity.
Qed.


Lemma commonprefix_app (l r : list string) : commonprefix l (l ++ r) = l.
Proof.
  induction l as [|a l IH]; simpl; [destruct r; reflexivity|].
  rewrite String.eqb_refl, IH. reflexivity.
Qed.

(** Joining entry names is joining them with the separator. *)
Lemma join_names (l p : list string) :
  l <> [] -> Forall (fun n => wf_name n = true) l ->
  Forall (fun n => wf_name n = true) p ->
  fold_left join2 p (Py.join "/" l) = Py.join "/" (l ++ p).
Proof.
  revert l. induction p as [|b p IH]; intros l Hl Hwf Hp; simpl.
  - rewrite List.app_nil_r. reflexivity.
  - inversion Hp; subst.
    assert (Hjoin : join2 (Py.join "/" l) b = Py.join "/" (l ++ [b])).
    { rewrite join2_name by assumption.
      destruct (exists_last Hl) as (l0 & x & ->).
      apply List.Forall_app in Hwf. destruct Hwf as [_ Hx]. inversion Hx; subst.
      pose proof (wf_name_inv x ltac:(assumption)) as (Hx1 & Hx2 & _).
      assert (E : Py.join "/" (l0 ++ [x]) = match l0 with
                                             | [] => x
                                             | _ => Py.join "/" l0 +:+ "/" +:+ x
                                             end).
      { destruct l0; [reflexivity|]. apply join_snoc. discriminate. }
      assert (E1 : String.eqb (Py.join "/" (l0 ++ [x])) "" = false).
      { rewrite E. apply String.eqb_neq. destruct l0; [assumption|].
        destruct (Py.join "/" (s :: l0)); discriminate. }
      assert (E2 : endswith (Py.join "/" (l0 ++ [x])) "/" = false).
      { rewrite E. destruct l0.
        - apply endswith_slash_free; assumption.
        - rewrite <- sapp_assoc, endswith_slash_app by assumption.
          apply endswith_slash_free; assumption. }
      rewrite E1, E2. cbn [orb]. rewrite (join_snoc "/" (l0 ++ [x]) b); [reflexivity|].
      intros E'. apply app_eq_nil in E'. destruct E'; discriminate. }
    rewrite Hjoin, IH.
    + rewrite <- List.app_assoc. reflexivity.
    + intros E'. apply app_eq_nil in E'. destruct E'; discriminate.
    + apply List.Forall_app. split; [assumption|]. constructor; [assumption|constructor].
    + assumption.
Qed.

(** The relative path of an entry below [source_dir] is its chain of names. *)
Lemma relpath_below (source_dir : string) (comps : list string) :
  comps <> [] -> Forall (fun n => wf_name n = true) comps ->
  relpath cwd (Posixpath.join source_dir comps) source_dir = Some (Py.join "/" comps).
Proof using cwd_abs.
  intros Hne Hwf. unfold relpath.
  assert (Hpath : String.eqb (Posixpath.join source_dir comps) "" = false).
  { apply String.eqb_neq. destruct (exists_last Hne) as (l0 & x & ->).
    unfold Posixpath.join. rewrite fold_left_app. simpl.
    apply join2_nonempty. apply List.Forall_app in Hwf. destruct Hwf as [_ Hx].
    inversion Hx; assumption. }
  rewrite Hpath.
  fold (abs_list cwd source_dir). fold (abs_list cwd (Posixpath.join source_dir comps)).
  rewrite abs_list_join by assumption.
  rewrite commonprefix_app, Nat.sub_diag. simpl.
  rewrite skipn_app, Nat.sub_diag, skipn_all. simpl.
  destruct comps as [|a p]; [congruence|].
  inversion Hwf; subst. f_equal.
  change a with (Py.join "/" [a]) at 1.
  unfold Posixpath.join. rewrite join_names; try assumption; [reflexivity|discriminate|].
  constructor; [assumption|constructor].
Qed.

Lemma basename_below (source_dir : string) (comps : list string) :
  comps <> [] -> Forall (fun n => wf_name n = true) comps ->
  basename (Posixpath.join source_dir comps) = List.last comps "".
Proof.
  intros Hne Hwf. destruct (exists_last Hne) as (l0 & x & ->).
  unfold Posixpath.join. rewrite fold_left_app, last_last. simpl.
  apply basename_join2. apply List.Forall_app in Hwf. destruct Hwf as [_ Hx].
  inversion Hx; assumption.
Qed.

End Absolute.

End PosixFacts.

(* ===================================================================== *)
(** ** The walk on a tree of directory entries *)
(* ===================================================================== *)

Module BundleFacts.
Import Py PyFacts Posixpath PathSpec PosixFacts Bundle BundleSpec.

Lemma filterM_Some {A : Type} (keep : A -> option bool) (g : A -> bool) (l : list A) :
  (forall a, In a l -> keep a = Some (g a)) -> filterM keep l = Some (List.filter g l).
Proof.
  induction l as [|a l IH]; intros H; simpl; [reflexivity|].
  rewrite (H a (or_introl eq_refl)). simpl.
  rewrite IH by (intros; apply H; right; assumption). simpl.
  destruct (g a); reflexivity.
Qed.

Lemma concatM_Some {A B : Type} (f : A -> option (list B)) (g : A -> list B) (l : list A) :
  (forall a, In a l -> f a = Some (g a)) -> concatM f l = Some (flat_map g l).
Proof.
  induction l as [|a l IH]; intros H; simpl; [reflexivity|].
  rewrite (H a (or_introl eq_refl)). simpl.
  rewrite IH by (intros; apply H; right; assumption). reflexivity.
Qed.

Lemma in_dir_names (d : string) (children : list entry) :
  In d (dir_names children) <-> exists ch, In (Dir d ch) children.
Proof.
  unfold dir_names. rewrite in_flat_map. split.
  - intros (c & Hc & Hd). destruct c; simpl in Hd; [contradiction|].
    destruct Hd as [<- | []]. eauto.
  - intros (ch & H). exists (Dir d ch). simpl. auto.
Qed.

Lemma in_file_entries (f data : string) (children : list entry) :
  In (f, data) (file_entries children) <-> In (File f data) children.
Proof.
  unfold file_entries. rewrite in_flat_map. split.
  - intros (c & Hc & Hd). destruct c; simpl in Hd; [|contradiction].
    destruct Hd as [E | []]. inversion E; subst. assumption.
  - intros H. exists (File f data). simpl. auto.
Qed.

Lemma names_ok_child (n : string) (children : list entry) (c : entry) :
  names_ok (Dir n children) = true -> In c children ->
  wf_name (entry_name c) = true /\ names_ok c = true.
Proof.
  simpl. rewrite forallb_forall. intros H Hc.
  apply andb_true_iff. apply H. assumption.
Qed.

Lemma existsb_eqb_filter (g : string -> bool) (d : string) (l : list string) :
  In d l -> existsb (String.eqb d) (List.filter g l) = g d.
Proof.
  intros Hd. destruct (g d) eqn:E.
  - apply existsb_exists. exists d. split; [|apply String.eqb_refl].
    apply filter_In. auto.
  - apply not_true_is_false. intros H. apply existsb_exists in H.
    destruct H as (x & Hx & Hxd). apply String.eqb_eq in Hxd. subst x.
    apply filter_In in Hx. destruct Hx. congruence.
Qed.

Section Walk.

Variable cwd : string.
Hypothesis cwd_abs : isabs cwd = true.
Variable patterns : list string.
Variable source_dir : string.

(** [should_ignore] on a path made of entry names below [source_dir]. *)
Lemma should_ignore_below (comps : list string) :
  comps <> [] -> Forall (fun n => wf_name n = true) comps ->
  should_ignore cwd (Posixpath.join source_dir comps) patterns source_dir
  = Some (ignored patterns comps).
Proof using cwd_abs.
  intros Hne Hwf. unfold should_ignore.
  rewrite (relpath_below cwd cwd_abs) by assumption. simpl.
  rewrite basename_below by assumption.
  rewrite split_join; [|assumption|].
  - unfold ignored.
    destruct (existsb (pattern_hits (Py.join "/" comps) (List.last comps "")) patterns);
      reflexivity.
  - eapply List.Forall_impl; [|exact Hwf]. intros x Hx.
    apply wf_name_inv in Hx. tauto.
Qed.

Lemma join_snoc_path (pre : list string) (d : string) :
  join2 (Posixpath.join source_dir pre) d = Posixpath.join source_dir (pre ++ [d]).
Proof. unfold Posixpath.join. rewrite fold_left_app. reflexivity. Qed.

Lemma wf_snoc (pre : list string) (d : string) :
  Forall (fun n => wf_name n = true) pre -> wf_name d = true ->
  Forall (fun n => wf_name n = true) (pre ++ [d]).
Proof. intros H Hd. apply List.Forall_app. split; [assumption|]. constructor; [assumption|constructor]. Qed.

Lemma snoc_not_nil {A : Type} (l : list A) (a : A) : l ++ [a] <> [].
Proof. intros E. apply app_eq_nil in E. destruct E; discriminate. Qed.

Variable out : string.

Lemma bundle_file_pure (pre : list string) (file : string * string) :
  Forall (fun n => wf_name n = true) pre -> wf_name (fst file) = true ->
  bundle_file cwd patterns source_dir out (Posixpath.join source_dir pre) file
  = Some (file_pure patterns out pre file).
Proof using cwd_abs.
  intros Hpre Hf. unfold bundle_file, file_pure.
  rewrite join_snoc_path.
  rewrite should_ignore_below by (auto using snoc_not_nil, wf_snoc). simpl.
  rewrite basename_below by (auto using snoc_not_nil, wf_snoc).
  rewrite last_last.
  destruct (negb (ignored patterns (pre ++ [fst file])) && negb (String.eqb (fst file) out));
    [|reflexivity].
  rewrite (relpath_below cwd cwd_abs) by (auto using snoc_not_nil, wf_snoc).
  reflexivity.
Qed.

(** On a tree of real entries no call raises, and the walk is [walk_pure]. *)
Lemma walk_is_pure (e : entry) :
  forall pre,
    names_ok e = true -> Forall (fun n => wf_name n = true) pre ->
    walk cwd patterns source_dir out (Posixpath.join source_dir pre) e
    = Some (walk_pure patterns out pre e).
Proof using cwd_abs.
  induction e as [n data | n children IH] using entry_induction; intros pre Hok Hpre.
  - reflexivity.
  - cbn [walk walk_pure].
    rewrite (filterM_Some _ (fun d => negb (ignored patterns (pre ++ [d])))).
    2:{ intros d Hd. apply in_dir_names in Hd. destruct Hd as (ch & Hd).
        destruct (names_ok_child _ _ _ Hok Hd) as [Hwf _]. simpl in Hwf.
        rewrite join_snoc_path, should_ignore_below by (auto using snoc_not_nil, wf_snoc).
        reflexivity. }
    cbn [bind].
    rewrite (concatM_Some _ (file_pure patterns out pre)).
    2:{ intros [f data] Hf. apply in_file_entries in Hf.
        destruct (names_ok_child _ _ _ Hok Hf) as [Hwf _]. simpl in Hwf.
        apply bundle_file_pure; assumption. }
    cbn [bind].
    rewrite (concatM_Some _
               (fun c =>
                  match c with
                  | Dir d _ =>
                      if negb (ignored patterns (pre ++ [d]))
                      then walk_pure patterns out (pre ++ [d]) c
                      else []
                  | File _ _ => []
                  end)).
    2:{ intros c Hc. destruct c as [f data | d ch]; [reflexivity|].
        destruct (names_ok_child _ _ _ Hok Hc) as [Hwf Hokc]. simpl in Hwf.
        rewrite existsb_eqb_filter by (apply in_dir_names; eauto).
        destruct (negb (ignored patterns (pre ++ [d]))); [|reflexivity].
        rewrite join_snoc_path.
        rewrite List.Forall_forall in IH. apply IH; auto using wf_snoc. }
    reflexivity.
Qed.

End Walk.

Lemma file_at_nonempty (e : entry) (comps : list string) (data : string) :
  file_at e comps data -> comps <> [].
Proof. intros H. inversion H; discriminate. Qed.

Lemma file_at_wf (e : entry) (comps : list string) (data : string) :
  names_ok e = true -> file_at e comps data ->
  Forall (fun n => wf_name n = true) comps.
Proof.
  intros Hok H. induction H as [n children f data Hin | n children d ch rest data Hin H IH].
  - destruct (names_ok_child _ _ _ Hok Hin) as [Hwf _].
    constructor; [exact Hwf|constructor].
  - destruct (names_ok_child _ _ _ Hok Hin) as [Hwf Hokc].
    constructor; [exact Hwf|]. apply IH. assumption.
Qed.

Lemma reached_cons (patterns : list string) (pre : list string) (d : string)
    (rest : list string) :
  rest <> [] ->
  (reached patterns pre (d :: rest) <->
   ignored patterns (pre ++ [d]) = false /\ reached patterns (pre ++ [d]) rest).
Proof.
  intros Hne. unfold reached. split.
  - intros H. split.
    + apply (H 1). simpl. destruct rest; [congruence|]. simpl. lia.
    + intros k Hk. rewrite <- List.app_assoc. apply (H (S k)). simpl. lia.
  - intros [H1 H2] k Hk. destruct k as [|k]; [lia|].
    destruct k as [|k].
    + exact H1.
    + specialize (H2 (S k)). rewrite <- List.app_assoc in H2. apply H2.
      simpl in Hk. lia.
Qed.

Lemma reached_single (patterns : list string) (pre : list string) (f : string) :
  reached patterns pre [f].
Proof. intros k Hk. simpl in Hk. lia. Qed.

Lemma last_cons_nonempty {A : Type} (a d : A) (l : list A) :
  l <> [] -> List.last (a :: l) d = List.last l d.
Proof. destruct l; [congruence|reflexivity]. Qed.

(** The entries of the archive are the files whose ancestors are all kept,
    that are kept themselves and are not named like the output. *)
Lemma walk_pure_in (patterns : list string) (out : string) (e : entry) :
  forall pre key data,
    In (key, data) (walk_pure patterns out pre e) <->
    exists rest,
      file_at e rest data /\ key = Py.join "/" (pre ++ rest)
      /\ reached patterns pre rest
      /\ ignored patterns (pre ++ rest) = false
      /\ List.last rest "" <> out.
Proof.
  induction e as [n data0 | n children IH] using entry_induction; intros pre key data.
  - simpl. split; [contradiction|]. intros (rest & H & _). inversion H.
  - rewrite List.Forall_forall in IH. cbn [walk_pure]. rewrite in_app_iff, !in_flat_map.
    split.
    + intros [((f, data') & Hf & Hin) | (c & Hc & Hin)].
      * unfold file_pure in Hin. cbn [fst snd] in Hin.
        destruct (negb (ignored patterns (pre ++ [f])) && negb (String.eqb f out)) eqn:E;
          [|contradiction].
        destruct Hin as [Hin | []]. inversion Hin; subst.
        apply andb_true_iff in E. destruct E as [E1 E2].
        apply negb_true_iff in E1, E2. apply String.eqb_neq in E2.
        exists [f]. repeat split; auto using reached_single.
        constructor. apply in_file_entries. assumption.
      * destruct c as [f data' | d ch]; [contradiction|].
        destruct (negb (ignored patterns (pre ++ [d]))) eqn:E; [|contradiction].
        apply negb_true_iff in E.
        apply (IH _ Hc) in Hin. destruct Hin as (rest & Hat & Hkey & Hreach & Hign & Hout).
        pose proof (file_at_nonempty _ _ _ Hat) as Hne.
        exists (d :: rest). rewrite <- List.app_assoc in Hkey, Hign.
        repeat split; auto.
        -- econstructor; eassumption.
        -- apply reached_cons; auto.
        -- rewrite last_cons_nonempty; assumption.
    + intros (rest & Hat & Hkey & Hreach & Hign & Hout).
      inversion Hat as [n' ch' f data' Hin | n' ch' d ch rest' data' Hin Hat']; subst.
      * left. exists (f, data). split; [apply in_file_entries; assumption|].
        unfold file_pure. cbn [fst snd]. rewrite Hign.
        apply String.eqb_neq in Hout. simpl in Hout. rewrite Hout. simpl. auto.
      * right. exists (Dir d ch). split; [assumption|].
        pose proof (file_at_nonempty _ _ _ Hat') as Hne.
        apply reached_cons in Hreach; [|assumption]. destruct Hreach as [Hd Hreach].
        rewrite Hd. simpl. apply (IH _ Hin).
        exists rest'. rewrite <- List.app_assoc.
        rewrite last_cons_nonempty in Hout by assumption.
        repeat split; auto.
Qed.

(** Chains of entry names are determined by their joined text. *)
Lemma join_names_inj (l l' : list string) :
  l <> [] -> l' <> [] ->
  Forall (fun n => wf_name n = true) l -> Forall (fun n => wf_name n = true) l' ->
  Py.join "/" l = Py.join "/" l' -> l = l'.
Proof.
  intros Hl Hl' Hwf Hwf' E.
  assert (Hs : forall x, Forall (fun n => wf_name n = true) x ->
                         Forall (fun n => has_char "/" n = false) x).
  { intros x Hx. eapply List.Forall_impl; [|exact Hx]. intros y Hy.
    apply wf_name_inv in Hy. tauto. }
  rewrite <- (split_join l), <- (split_join l') by auto. rewrite E. reflexivity.
Qed.

End BundleFacts.

(* ===================================================================== *)
(** ** Patterns without metacharacters *)
(* ===================================================================== *)

Module FnmatchFacts.
Import Py PyFacts Fnmatch FnmatchSpec.

Lemma until_close_shorter (s stuff rest : string) :
  until_close s = Some (stuff, rest) -> String.length rest < String.length s.
Proof.
  revert stuff. induction s as [|c s IH]; intros stuff; simpl; [discriminate|].
  destruct (Ascii.eqb c "]").
  - intros E. inversion E; subst. lia.
  - destruct (until_close s) as [[stuff' rest']|]; [|discriminate].
    intros E. inversion E; subst. specialize (IH stuff' eq_refl). lia.
Qed.

Lemma bracket_scan_shorter (s stuff rest : string) :
  bracket_scan s = Some (stuff, rest) -> String.length rest < String.length s.
Proof.
  unfold bracket_scan.
  set (p1 := match s with String "!" s' => ("!", s') | _ => ("", s) end).
  assert (H1 : String.length (snd p1) <= String.length s).
  { subst p1. destruct s as [|c s]; [simpl; lia|].
    destruct (Ascii.eqb c "!") eqn:E.
    - apply Ascii.eqb_eq in E. subst c. simpl. lia.
    - replace (match String c s with String "!" s' => ("!", s') | _ => ("", String c s) end)
        with ("", String c s); [simpl; lia|].
      destruct c as [[] [] [] [] [] [] [] []]; try reflexivity. discriminate. }
  destruct p1 as [bang s1]. simpl in H1.
  set (p2 := match s1 with String "]" s' => ("]", s') | _ => ("", s1) end).
  assert (H2 : String.length (snd p2) <= String.length s1).
  { subst p2. destruct s1 as [|c s1]; [simpl; lia|].
    destruct (Ascii.eqb c "]") eqn:E.
    - apply Ascii.eqb_eq in E. subst c. simpl. lia.
    - replace (match String c s1 with String "]" s' => ("]", s') | _ => ("", String c s1) end)
        with ("", String c s1); [simpl; lia|].
      destruct c as [[] [] [] [] [] [] [] []]; try reflexivity. discriminate. }
  destruct p2 as [close s2]. simpl in H2.
  destruct (until_close s2) as [[stuff' rest']|] eqn:E; [|discriminate].
  intros E'. inversion E'; subst.
  apply until_close_shorter in E. lia.
Qed.

(** The loop of [translate] never runs out of fuel: any fuel of at least
    the length of the pattern gives the same tokens. *)
Lemma translate_loop_fuel (f1 : nat) :
  forall f2 pat res,
    String.length pat <= f1 -> String.length pat <= f2 ->
    translate_loop f1 pat res = translate_loop f2 pat res.
Proof.
  induction f1 as [|f1 IH]; intros f2 pat res H1 H2.
  - destruct pat; [|simpl in H1; lia]. destruct f2; reflexivity.
  - destruct f2 as [|f2].
    + destruct pat; [reflexivity|simpl in H2; lia].
    + destruct pat as [|c rest]; [reflexivity|].
      simpl in H1, H2. cbn [translate_loop].
      destruct (Ascii.eqb c "*").
      { destruct res as [|[] res]; apply IH; lia. }
      destruct (Ascii.eqb c "?"); [apply IH; lia|].
      destruct (Ascii.eqb c "[").
      * destruct (bracket_scan rest) as [[stuff rest']|] eqn:E.
        -- apply bracket_scan_shorter in E. apply IH; lia.
        -- apply IH; lia.
      * apply IH; lia.
Qed.

Lemma literal_cons (c : ascii) (s : string) :
  literal (String c s) = true ->
  Ascii.eqb c "*" = false /\ Ascii.eqb c "?" = false /\ Ascii.eqb c "[" = false
  /\ literal s = true.
Proof.
  unfold literal. simpl. rewrite !andb_true_iff, !negb_true_iff, !orb_false_iff.
  intros [[[H1 H2] [H3 H4]] [H5 H6]]. rewrite H2, H4, H6. repeat split; assumption.
Qed.

Lemma literal_app (a b : string) :
  literal a = true -> literal b = true -> literal (a +:+ b) = true.
Proof.
  unfold literal. rewrite !has_char_app, !andb_true_iff, !negb_true_iff.
  intros [[-> ->] ->] [[-> ->] ->]. auto.
Qed.

Lemma translate_loop_literal (s : string) :
  forall fuel res,
    literal s = true -> String.length s <= fuel ->
    translate_loop fuel s res = rev (lits s) ++ res.
Proof.
  induction s as [|c s IH]; intros fuel res Hlit Hfuel.
  - destruct fuel; reflexivity.
  - destruct fuel as [|fuel]; [simpl in Hfuel; lia|].
    apply literal_cons in Hlit. destruct Hlit as (H1 & H2 & H3 & Hlit).
    cbn [translate_loop]. rewrite H1, H2, H3.
    rewrite IH by (simpl in Hfuel; auto; lia).
    simpl. rewrite <- List.app_assoc. reflexivity.
Qed.

Lemma translate_literal (s : string) : literal s = true -> translate s = lits s.
Proof.
  intros H. unfold translate.
  rewrite translate_loop_literal by auto.
  rewrite List.app_nil_r. apply rev_involutive.
Qed.

Lemma tokens_match_lits (s : string) : tokens_match (lits s) s = true.
Proof.
  induction s as [|c s IH]; [reflexivity|].
  simpl. rewrite Ascii.eqb_refl, IH. reflexivity.
Qed.

(** A pattern without metacharacters matches itself. *)
Lemma fnmatch_literal (s : string) : literal s = true -> fnmatch s s = true.
Proof.
  intros H. unfold fnmatch. rewrite translate_literal by assumption.
  apply tokens_match_lits.
Qed.

End FnmatchFacts.

(* ===================================================================== *)
(** ** Properties of bundle.py *)
(* ===================================================================== *)

Module BundleTheorems.
Import Py PyFacts Posixpath PathSpec PosixFacts Fnmatch FnmatchSpec FnmatchFacts.
Import Bundle BundleSpec BundleFacts.

Lemma load_loop (lines acc : list string) :
  fold_left
    (fun patterns line =>
       let line := strip line in
       if negb (String.eqb line "") && negb (startswith line "#")
       then patterns ++ [line] else patterns)
    lines acc
  = acc ++ List.filter is_pattern_line (map strip lines).
Proof.
  revert acc. induction lines as [|l lines IH]; intros acc;
    cbn [fold_left map List.filter].
  - rewrite List.app_nil_r. reflexivity.
  - rewrite IH. unfold is_pattern_line at 2. cbv zeta.
    destruct (negb (String.eqb (strip l) "") && negb (startswith (strip l) "#"));
      [rewrite <- List.app_assoc|]; reflexivity.
Qed.

Lemma load_text (fs : string -> fs_node) (path : string) (lines : list string) :
  fs path = TextFile lines ->
  load_packignore_patterns fs path = Some (List.filter is_pattern_line (map strip lines)).
Proof. intros H. unfold load_packignore_patterns. rewrite H, load_loop. reflexivity. Qed.

Lemma strip_keeps_hash (line : string) :
  startswith line "#" = true -> startswith (strip line) "#" = true.
Proof.
  destruct line as [|c s]; [discriminate|]. simpl.
  rewrite andb_true_r. intros H. apply Ascii.eqb_eq in H. subst c.
  unfold strip. simpl. destruct (rstrip s); reflexivity.
Qed.

Lemma relpath_defined (cwd path start : string) :
  path <> "" -> exists r, relpath cwd path start = Some r.
Proof.
  intros H. unfold relpath. apply String.eqb_neq in H. rewrite H.
  match goal with |- context [match ?l with [] => _ | _ => _ end] => destruct l end; eauto.
Qed.

Lemma last_in {A : Type} (l : list A) (d : A) : l <> [] -> In (List.last l d) l.
Proof.
  induction l as [|a l IH]; [congruence|]. intros _.
  destruct l as [|b l]; [left; reflexivity|].
  right. apply IH. discriminate.
Qed.

Lemma basename_slash_free (p : string) : has_char "/" (basename p) = false.
Proof.
  unfold basename. pose proof (split_slash_free p) as H.
  rewrite List.Forall_forall in H. apply H. apply last_in, split_not_nil.
Qed.

Lemma join_two_has_slash (a b : string) (l : list string) :
  has_char "/" (Py.join "/" (a :: b :: l)) = true.
Proof.
  rewrite join_cons by discriminate. rewrite !has_char_app. simpl.
  rewrite orb_true_r. reflexivity.
Qed.

(** The run of [bundle_files] on a tree of real entries. *)
Lemma bundle_files_run (cwd : string) (fs : string -> fs_node) (tree : entry)
    (source_dir output_zip packignore_path : string) (patterns : list string) :
  isabs cwd = true -> names_ok tree = true ->
  load_packignore_patterns fs packignore_path = Some patterns ->
  bundle_files cwd fs tree source_dir output_zip packignore_path
  = Some (walk_pure patterns (basename output_zip) [] tree).
Proof.
  intros Hcwd Hok Hload. unfold bundle_files. rewrite Hload. simpl.
  apply (walk_is_pure cwd Hcwd patterns source_dir (basename output_zip) tree []);
    [assumption|constructor].
Qed.

(** Keys of the archive, for a file of the tree. *)
Lemma archived_iff (patterns : list string) (out : string) (tree : entry)
    (comps : list string) (data : string) :
  names_ok tree = true -> file_at tree comps data ->
  (In (Py.join "/" comps) (map fst (walk_pure patterns out [] tree)) <->
   reached patterns [] comps /\ ignored patterns comps = false
   /\ List.last comps "" <> out).
Proof.
  intros Hok Hat. split.
  - intros H. apply in_map_iff in H. destruct H as ((key, data') & Hkey & H).
    simpl in Hkey. subst key.
    apply walk_pure_in in H. destruct H as (rest & Hat' & Hjoin & H).
    simpl in Hjoin, H.
    assert (rest = comps) as ->; [|exact H].
    symmetry. apply join_names_inj; eauto using file_at_nonempty, file_at_wf.
  - intros H. apply in_map_iff. exists (Py.join "/" comps, data). split; [reflexivity|].
    apply walk_pure_in. exists comps. simpl. auto.
Qed.


(** C3. A pattern without a trailing separator that matches the basename of
    a path makes [should_ignore] answer true for that path, whatever the
    depth of the path below the root and whatever else the list holds. *)
Theorem basename_match_is_ignored (cwd path base_path : string)
    (patterns : list string) (pattern : string) :
  path <> "" ->
  In pattern patterns ->
  endswith pattern "/" = false ->
  fnmatch (basename path) pattern = true ->
  should_ignore cwd path patterns base_path = Some true.
Proof.
  intros Hpath Hin Hsep Hmatch. unfold should_ignore.
  destruct (relpath_defined cwd path base_path Hpath) as [r ->]. simpl.
  replace (existsb (pattern_hits r (basename path)) patterns) with true; [reflexivity|].
  symmetry. apply existsb_exists. exists pattern. split; [assumption|].
  unfold pattern_hits. rewrite Hsep, Hmatch. apply orb_true_r.
Qed.

Lemma basename_match_is_ignored_witness :
  should_ignore "/home/u" "/pack/keep/deep/notes.txt" ["skip/"; "*.txt"] "/pack"
  = Some true.
Proof.
  apply (basename_match_is_ignored "/home/u" "/pack/keep/deep/notes.txt" "/pack"
           ["skip/"; "*.txt"] "*.txt").
  - discriminate.
  - simpl. auto.
  - reflexivity.
  - reflexivity.
Defined.

Lemma ignored_by_first_prefix (patterns : list string) (p : string) (rest : list string) :
  In (p +:+ "/") patterns -> literal p = true -> has_char "/" p = false ->
  ignored patterns (p :: rest) = true.
Proof.
  intros Hin Hlit Hslash. unfold ignored. apply orb_true_iff. right.
  apply existsb_exists. exists 0. split; [simpl; auto|].
  apply existsb_exists. exists (p +:+ "/"). split; [assumption|].
  unfold prefix_hits. rewrite endswith_app. simpl.
  apply fnmatch_literal. apply literal_app; [assumption|reflexivity].
Qed.

(** C2. With a directory pattern [p/] in the list, [p] a name without
    metacharacters, [should_ignore] answers true for every file below the
    root's child [p], and no such file gets an entry in the archive. *)
Theorem directory_pattern_ignores_subtree (cwd source_dir : string)
    (patterns : list string) (p : string) (rest : list string) :
  isabs cwd = true ->
  In (p +:+ "/") patterns ->
  literal p = true ->
  rest <> [] ->
  Forall (fun n => wf_name n = true) (p :: rest) ->
  should_ignore cwd (Posixpath.join source_dir (p :: rest)) patterns source_dir
  = Some true
  /\ forall fs tree output_zip packignore_path data,
       names_ok tree = true ->
       load_packignore_patterns fs packignore_path = Some patterns ->
       file_at tree (p :: rest) data ->
       exists a,
         bundle_files cwd fs tree source_dir output_zip packignore_path = Some a
         /\ ~ In (Py.join "/" (p :: rest)) (map fst a).
Proof.
  intros Hcwd Hin Hlit Hrest Hwf.
  assert (Hign : ignored patterns (p :: rest) = true).
  { apply ignored_by_first_prefix; try assumption.
    inversion Hwf as [|? ? Hp _]; subst. apply wf_name_inv in Hp. tauto. }
  split.
  - rewrite (should_ignore_below cwd Hcwd) by (assumption || discriminate).
    rewrite Hign. reflexivity.
  - intros fs tree output_zip packignore_path data Hok Hload Hat.
    eexists. split; [apply bundle_files_run; eassumption|].
    intros H. apply (archived_iff _ _ _ _ _ Hok Hat) in H.
    destruct H as (_ & H & _). congruence.
Qed.

(** C4. No entry of the archive has the output archive's file name as its
    key. *)
Theorem archive_never_holds_output_name (cwd : string) (fs : string -> fs_node)
    (tree : entry) (source_dir output_zip packignore_path : string)
    (patterns : list string) :
  isabs cwd = true ->
  names_ok tree = true ->
  load_packignore_patterns fs packignore_path = Some patterns ->
  exists a,
    bundle_files cwd fs tree source_dir output_zip packignore_path = Some a
    /\ ~ In (basename output_zip) (map fst a).
Proof.
  intros Hcwd Hok Hload.
  eexists. split; [apply bundle_files_run; eassumption|].
  intros H. apply in_map_iff in H. destruct H as ((key, data) & Hkey & H).
  simpl in Hkey. subst key.
  apply walk_pure_in in H. destruct H as (rest & Hat & Hjoin & _ & _ & Hout).
  simpl in Hjoin.
  pose proof (basename_slash_free output_zip) as Hfree.
  destruct rest as [|a [|b l]].
  - inversion Hat.
  - simpl in Hjoin, Hout. congruence.
  - rewrite Hjoin, join_two_has_slash in Hfree. discriminate.
Qed.

(** C10. A file of the tree has an entry in the archive exactly when
    [should_ignore] answers false for it and for each of its ancestor
    directories below the root, and its basename is not the output
    archive's. *)
Theorem archived_exactly_when_kept (cwd : string) (fs : string -> fs_node)
    (tree : entry) (source_dir output_zip packignore_path : string)
    (patterns : list string) :
  isabs cwd = true ->
  names_ok tree = true ->
  load_packignore_patterns fs packignore_path = Some patterns ->
  exists a,
    bundle_files cwd fs tree source_dir output_zip packignore_path = Some a
    /\ forall comps data arcname,
         file_at tree comps data ->
         relpath cwd (Posixpath.join source_dir comps) source_dir = Some arcname ->
         (In arcname (map fst a) <->
          should_ignore cwd (Posixpath.join source_dir comps) patterns source_dir
          = Some false
          /\ (forall k, 0 < k < length comps ->
                should_ignore cwd (Posixpath.join source_dir (firstn k comps))
                  patterns source_dir = Some false)
          /\ basename (Posixpath.join source_dir comps) <> basename output_zip).
Proof.
  intros Hcwd Hok Hload.
  eexists. split; [apply bundle_files_run; eassumption|].
  intros comps data arcname Hat Hrel.
  pose proof (file_at_nonempty _ _ _ Hat) as Hne.
  pose proof (file_at_wf _ _ _ Hok Hat) as Hwf.
  rewrite (relpath_below cwd Hcwd) in Hrel by assumption.
  inversion Hrel; subst arcname.
  rewrite (archived_iff _ _ _ _ _ Hok Hat).
  rewrite (should_ignore_below cwd Hcwd) by assumption.
  rewrite basename_below by assumption.
  assert (Hpre : forall k, 0 < k < length comps ->
            should_ignore cwd (Posixpath.join source_dir (firstn k comps))
              patterns source_dir = Some (ignored patterns (firstn k comps))).
  { intros k Hk. apply (should_ignore_below cwd Hcwd).
    - intros E. apply (f_equal (@length string)) in E.
      rewrite length_firstn in E. simpl in E. lia.
    - rewrite <- (firstn_skipn k comps) in Hwf. apply List.Forall_app in Hwf. tauto. }
  unfold reached. simpl. split.
  - intros (H1 & H2 & H3). repeat split; try congruence.
    intros k Hk. rewrite Hpre by assumption. rewrite H1 by assumption. reflexivity.
  - intros (H1 & H2 & H3). repeat split; try congruence.
    intros k Hk. specialize (H2 k Hk). rewrite Hpre in H2 by assumption. congruence.
Qed.


Lemma ignored_nil (comps : list string) : ignored [] comps = false.
Proof.
  unfold ignored. simpl.
  induction (seq 0 (length comps)) as [|i l IH]; [reflexivity|exact IH].
Qed.

Lemma filter_none (lines : list string) :
  (forall line, In line lines -> strip line = "" \/ startswith line "#" = true) ->
  List.filter is_pattern_line (map strip lines) = [].
Proof.
  induction lines as [|l lines IH]; intros H; [reflexivity|].
  cbn [map List.filter].
  replace (is_pattern_line (strip l)) with false.
  - apply IH. intros line Hl. apply H. right. assumption.
  - symmetry. unfold is_pattern_line.
    destruct (H l (or_introl eq_refl)) as [E | E].
    + rewrite E. reflexivity.
    + rewrite (strip_keeps_hash l E). apply andb_false_r.
Qed.

(** C1, amended. A directory below the root is pruned, and no file beneath
    it at any depth gets an entry, when the list holds a pattern without a
    trailing separator that matches the directory's name, or a pattern with
    a trailing separator that matches the directory's path relative to the
    root (with the separator appended, or with the pattern's separators
    stripped). *)
Theorem pruned_directory_excludes_descendants (cwd : string) (fs : string -> fs_node)
    (tree : entry) (source_dir output_zip packignore_path : string)
    (patterns : list string) (q : string) (dir rest : list string) (data : string) :
  isabs cwd = true ->
  names_ok tree = true ->
  load_packignore_patterns fs packignore_path = Some patterns ->
  In q patterns ->
  dir <> [] -> rest <> [] ->
  file_at tree (dir ++ rest) data ->
  (endswith q "/" = false /\ fnmatch (List.last dir "") q = true)
  \/ (endswith q "/" = true
      /\ (fnmatch (Py.join "/" dir +:+ "/") q
          || fnmatch (Py.join "/" dir) (rstrip_char "/" q)) = true) ->
  should_ignore cwd (Posixpath.join source_dir dir) patterns source_dir = Some true
  /\ exists a,
       bundle_files cwd fs tree source_dir output_zip packignore_path = Some a
       /\ ~ In (Py.join "/" (dir ++ rest)) (map fst a).
Proof.
  intros Hcwd Hok Hload Hin Hdir Hrest Hat Hq.
  pose proof (file_at_wf _ _ _ Hok Hat) as Hwf.
  assert (Hign : ignored patterns dir = true).
  { unfold ignored. apply orb_true_iff. left.
    apply existsb_exists. exists q. split; [assumption|].
    unfold pattern_hits. destruct Hq as [[-> Hm] | [-> Hm]].
    - rewrite Hm. apply orb_true_r.
    - exact Hm. }
  split.
  - rewrite (should_ignore_below cwd Hcwd); [rewrite Hign; reflexivity|assumption|].
    apply List.Forall_app in Hwf. tauto.
  - eexists. split; [apply bundle_files_run; eassumption|].
    intros H. apply (archived_iff _ _ _ _ _ Hok Hat) in H.
    destruct H as (Hreach & _).
    specialize (Hreach (length dir)). simpl in Hreach.
    rewrite firstn_app, Nat.sub_diag, firstn_all, firstn_O, List.app_nil_r in Hreach.
    rewrite Hreach in Hign; [discriminate|].
    rewrite length_app. destruct dir; [congruence|]. destruct rest; [congruence|].
    simpl. lia.
Qed.

(** C5, amended. With an ignore file of blank lines and comment lines only,
    the pattern list is empty and a file of the tree has an entry in the
    archive exactly when its name is not the output archive's file name. *)
Theorem comment_only_ignore_file (cwd : string) (fs : string -> fs_node)
    (tree : entry) (source_dir output_zip packignore_path : string)
    (lines : list string) :
  isabs cwd = true ->
  names_ok tree = true ->
  fs packignore_path = TextFile lines ->
  (forall line, In line lines -> strip line = "" \/ startswith line "#" = true) ->
  load_packignore_patterns fs packignore_path = Some []
  /\ exists a,
       bundle_files cwd fs tree source_dir output_zip packignore_path = Some a
       /\ forall comps data,
            file_at tree comps data ->
            (In (Py.join "/" comps, data) a <->
             List.last comps "" <> basename output_zip).
Proof.
  intros Hcwd Hok Hfs Hlines.
  assert (Hload : load_packignore_patterns fs packignore_path = Some []).
  { rewrite (load_text fs packignore_path lines Hfs), filter_none by assumption.
    reflexivity. }
  split; [exact Hload|].
  eexists. split; [apply bundle_files_run; eassumption|].
  intros comps data Hat. rewrite walk_pure_in. simpl. split.
  - intros (rest & Hat' & Hjoin & _ & _ & Hout).
    assert (comps = rest) as ->; [|exact Hout].
    apply join_names_inj; eauto using file_at_nonempty, file_at_wf.
  - intros Hout. exists comps. repeat split; auto using ignored_nil.
    intros k _. apply ignored_nil.
Qed.

(** C6, as stated, fails on lines with white space around them: the
    function does not return the non-empty, non-comment lines of the file.
    It strips every line first, so a padded pattern comes back without its
    padding, and a line of blanks or a comment after blanks is dropped. *)
Lemma padded_lines_are_stripped :
  let lines := [" skip/ "; "   "; "  # c"] in
  non_empty_non_comment_lines lines = lines
  /\ load_packignore_patterns (ignore_file lines) "/pack/.packignore" = Some ["skip/"]
  /\ load_packignore_patterns (ignore_file lines) "/pack/.packignore"
     <> Some (non_empty_non_comment_lines lines).
Proof. vm_compute. split; [reflexivity|]. split; [reflexivity|discriminate]. Qed.

(** C6, amended. A missing ignore file gives the empty list without an error, and
    the run is then the walk with no pattern at all; an ignore file that can
    be read gives its stripped lines that are neither empty nor comments, in
    the order of the file. *)
Theorem load_packignore_patterns_contract (fs : string -> fs_node)
    (packignore_path : string) :
  fs packignore_path <> Unreadable ->
  load_packignore_patterns fs packignore_path
  = Some match fs packignore_path with
         | TextFile lines => List.filter is_pattern_line (map strip lines)
         | _ => []
         end
  /\ (fs packignore_path = NoEntry ->
      forall cwd tree source_dir output_zip,
        bundle_files cwd fs tree source_dir output_zip packignore_path
        = walk cwd [] source_dir (basename output_zip) source_dir tree).
Proof.
  intros Hfs. split.
  - destruct (fs packignore_path) as [|lines|] eqn:E.
    + unfold load_packignore_patterns. rewrite E. reflexivity.
    + apply load_text. assumption.
    + congruence.
  - intros E cwd tree source_dir output_zip.
    unfold bundle_files, load_packignore_patterns. rewrite E. reflexivity.
Qed.


(** *** Concrete runs *)

Ltac find_file :=
  repeat (first [ apply file_here; simpl; tauto
                | eapply file_below; [simpl; eauto 10|] ]).

(** C1, as stated, fails for a directory pattern and a directory that is
    not a child of the root: ["skip/"] matches the name of [keep/skip], and
    the file beneath it is written to the archive all the same. *)
Lemma nested_directory_is_not_pruned :
  let patterns := ["skip/"] in
  In "skip/" patterns
  /\ fnmatch "skip" (rstrip_char "/" "skip/") = true
  /\ fnmatch ("skip" +:+ "/") "skip/" = true
  /\ file_at pack_tree ["keep"; "skip"; "d.txt"] "D"
  /\ should_ignore "/home/u" "/pack/keep/skip" patterns "/pack" = Some false
  /\ bundle_files "/home/u" (ignore_file ["skip/"]) pack_tree
       "/pack" "/pack/pack.zip" "/pack/.packignore"
     = Some [("a.txt", "A"); ("keep/c.txt", "C"); ("keep/skip/d.txt", "D")].
Proof.
  split; [simpl; tauto|]. split; [reflexivity|]. split; [reflexivity|].
  split; [find_file|]. split; vm_compute; reflexivity.
Qed.

Lemma pruned_directory_excludes_descendants_witness :
  (should_ignore "/home/u" (Posixpath.join "/pack" ["keep"; "skip"]) ["skip"] "/pack"
   = Some true
   /\ exists a,
        bundle_files "/home/u" (ignore_file ["skip"]) pack_tree
          "/pack" "/pack/pack.zip" "/pack/.packignore" = Some a
        /\ ~ In (Py.join "/" (["keep"; "skip"] ++ ["d.txt"])) (map fst a))
  /\ (should_ignore "/home/u" (Posixpath.join "/pack" ["skip"]) ["skip/"] "/pack"
      = Some true
      /\ exists a,
           bundle_files "/home/u" (ignore_file ["skip/"]) pack_tree
             "/pack" "/pack/pack.zip" "/pack/.packignore" = Some a
           /\ ~ In (Py.join "/" (["skip"] ++ ["b.txt"])) (map fst a)).
Proof.
  split.
  - apply (pruned_directory_excludes_descendants "/home/u" (ignore_file ["skip"])
             pack_tree "/pack" "/pack/pack.zip" "/pack/.packignore" ["skip"] "skip"
             ["keep"; "skip"] ["d.txt"] "D");
      try reflexivity; try discriminate.
    + simpl; tauto.
    + find_file.
    + left. split; reflexivity.
  - apply (pruned_directory_excludes_descendants "/home/u" (ignore_file ["skip/"])
             pack_tree "/pack" "/pack/pack.zip" "/pack/.packignore" ["skip/"] "skip/"
             ["skip"] ["b.txt"] "B");
      try reflexivity; try discriminate.
    + simpl; tauto.
    + find_file.
    + right. split; reflexivity.
Defined.

Lemma directory_pattern_ignores_subtree_witness :
  should_ignore "/home/u" (Posixpath.join "/pack" ["skip"; "b.txt"]) ["skip/"] "/pack"
  = Some true
  /\ exists a,
       bundle_files "/home/u" (ignore_file ["skip/"]) pack_tree
         "/pack" "/pack/pack.zip" "/pack/.packignore" = Some a
       /\ ~ In (Py.join "/" ["skip"; "b.txt"]) (map fst a).
Proof.
  destruct (directory_pattern_ignores_subtree "/home/u" "/pack" ["skip/"] "skip" ["b.txt"])
    as [H1 H2].
  - reflexivity.
  - simpl; tauto.
  - reflexivity.
  - discriminate.
  - repeat constructor.
  - split; [exact H1|].
    apply (H2 (ignore_file ["skip/"]) pack_tree "/pack/pack.zip" "/pack/.packignore" "B").
    + reflexivity.
    + reflexivity.
    + find_file.
Defined.

Lemma archive_never_holds_output_name_witness :
  exists a,
    bundle_files "/home/u" (ignore_file ["skip/"]) pack_tree
      "/pack" "/pack/pack.zip" "/pack/.packignore" = Some a
    /\ ~ In (basename "/pack/pack.zip") (map fst a).
Proof.
  apply (archive_never_holds_output_name "/home/u" (ignore_file ["skip/"]) pack_tree
           "/pack" "/pack/pack.zip" "/pack/.packignore" ["skip/"]); reflexivity.
Defined.

Lemma archived_exactly_when_kept_witness :
  exists a,
    bundle_files "/home/u" (ignore_file ["skip"]) pack_tree
      "/pack" "/pack/pack.zip" "/pack/.packignore" = Some a
    /\ forall comps data arcname,
         file_at pack_tree comps data ->
         relpath "/home/u" (Posixpath.join "/pack" comps) "/pack" = Some arcname ->
         (In arcname (map fst a) <->
          should_ignore "/home/u" (Posixpath.join "/pack" comps) ["skip"] "/pack"
          = Some false
          /\ (forall k, 0 < k < length comps ->
                should_ignore "/home/u" (Posixpath.join "/pack" (firstn k comps))
                  ["skip"] "/pack" = Some false)
          /\ basename (Posixpath.join "/pack" comps) <> basename "/pack/pack.zip").
Proof.
  apply (archived_exactly_when_kept "/home/u" (ignore_file ["skip"]) pack_tree
           "/pack" "/pack/pack.zip" "/pack/.packignore" ["skip"]); reflexivity.
Defined.

(** The exclusion of [keep/skip/d.txt] under the pattern ["skip"] comes from
    its parent alone: [should_ignore] answers false for the file itself. *)
Example excluded_by_ancestor_only :
  should_ignore "/home/u" "/pack/keep/skip/d.txt" ["skip"] "/pack" = Some false
  /\ should_ignore "/home/u" "/pack/keep/skip" ["skip"] "/pack" = Some true
  /\ bundle_files "/home/u" (ignore_file ["skip"]) pack_tree
       "/pack" "/pack/pack.zip" "/pack/.packignore"
     = Some [("a.txt", "A"); ("keep/c.txt", "C")].
Proof. repeat split; vm_compute; reflexivity. Qed.

(** C5, as stated, fails when a file deeper in the tree has the output
    archive's file name: it is not the output archive and is left out. *)
Lemma same_named_file_is_left_out :
  let lines := ["# build output
"; "
"] in
  (forall line, In line lines -> strip line = "" \/ startswith line "#" = true)
  /\ load_packignore_patterns (ignore_file lines) "/pack/.packignore" = Some []
  /\ file_at nested_zip_tree ["sub"; "pack.zip"] "Z"
  /\ Posixpath.join "/pack" ["sub"; "pack.zip"] <> "/pack/pack.zip"
  /\ bundle_files "/home/u" (ignore_file lines) nested_zip_tree
       "/pack" "/pack/pack.zip" "/pack/.packignore"
     = Some [("a.txt", "A")].
Proof.
  split.
  { intros line [<- | [<- | []]]; [right|left]; reflexivity. }
  split; [reflexivity|]. split; [find_file|]. split; [discriminate|].
  vm_compute. reflexivity.
Qed.

Lemma comment_only_ignore_file_witness :
  load_packignore_patterns (ignore_file ["# nothing"; "   "]) "/pack/.packignore"
  = Some []
  /\ exists a,
       bundle_files "/home/u" (ignore_file ["# nothing"; "   "]) nested_zip_tree
         "/pack" "/pack/pack.zip" "/pack/.packignore" = Some a
       /\ forall comps data,
            file_at nested_zip_tree comps data ->
            (In (Py.join "/" comps, data) a <->
             List.last comps "" <> basename "/pack/pack.zip").
Proof.
  apply (comment_only_ignore_file "/home/u" (ignore_file ["# nothing"; "   "])
           nested_zip_tree "/pack" "/pack/pack.zip" "/pack/.packignore"
           ["# nothing"; "   "]); try reflexivity.
  intros line [<- | [<- | []]]; [right|left]; reflexivity.
Defined.

Lemma load_packignore_patterns_contract_witness :
  (load_packignore_patterns (ignore_file ["# build"; " skip/ "; ""; "*.tmp"])
     "/pack/.packignore"
   = Some ["skip/"; "*.tmp"])
  /\ (load_packignore_patterns (ignore_file []) "/elsewhere/.packignore" = Some []
      /\ bundle_files "/home/u" (ignore_file []) pack_tree
           "/pack" "/pack/pack.zip" "/elsewhere/.packignore"
         = walk "/home/u" [] "/pack" (basename "/pack/pack.zip") "/pack" pack_tree).
Proof.
  split.
  - apply (load_packignore_patterns_contract
             (ignore_file ["# build"; " skip/ "; ""; "*.tmp"]) "/pack/.packignore").
    discriminate.
  - destruct (load_packignore_patterns_contract (ignore_file []) "/elsewhere/.packignore")
      as [H1 H2]; [discriminate|].
    split; [exact H1|]. apply H2. reflexivity.
Defined.

End BundleTheorems.

(* ===================================================================== *)
(** ** Properties of generate.py *)
(* ===================================================================== *)

Module GenerateFacts.
Import Py PyFacts Generate.

Lemma startswith_frame_app (s : string) :
  s <> "" -> startswith (s +:+ "_frame") "_frame" = startswith s "_frame".
Proof.
  intros H.
  destruct s as [|c1 [|c2 [|c3 [|c4 [|c5 [|c6 s]]]]]]; [congruence| | | | | |];
    cbn [String.append startswith]; try reflexivity.
  all: repeat match goal with
         | |- context [Ascii.eqb ?a ?b] =>
             lazymatch a with
             | Ascii _ _ _ _ _ _ _ _ =>
                 let v := eval vm_compute in (Ascii.eqb a b) in
                 change (Ascii.eqb a b) with v
             end
         end.
  all: rewrite ?andb_false_r; reflexivity.
Qed.

Lemma contains_unfold (sub s : string) :
  contains sub s =
  startswith s sub || match s with "" => false | String _ s' => contains sub s' end.
Proof. destruct s; reflexivity. Qed.

Lemma startswith_refl (s : string) : startswith s s = true.
Proof. induction s; simpl; [reflexivity|]. rewrite Ascii.eqb_refl. assumption. Qed.

Lemma contains_app_r (sub x : string) : contains sub (x +:+ sub) = true.
Proof.
  induction x as [|c x IH].
  - simpl. rewrite contains_unfold, startswith_refl. reflexivity.
  - change (String c x +:+ sub) with (String c (x +:+ sub)).
    rewrite contains_unfold, IH. apply orb_true_r.
Qed.

(** Without an earlier occurrence, only the final ["_frame"] is replaced. *)
Lemma replace_final_frame (stem : string) :
  contains "_frame" stem = false ->
  replace (stem +:+ "_frame") "_frame" "_planks" = stem +:+ "_planks".
Proof.
  unfold replace. induction stem as [|c stem IH]; intros H.
  - reflexivity.
  - rewrite contains_unfold in H. apply orb_false_iff in H. destruct H as [H1 H2].
    change (String c stem +:+ "_frame") with (String c (stem +:+ "_frame")).
    cbn [replace_from].
    change (String c (stem +:+ "_frame")) with (String c stem +:+ "_frame").
    rewrite startswith_frame_app by discriminate. rewrite H1.
    rewrite IH by assumption. reflexivity.
Qed.


Lemma append_entries {A B : Type} (f : A -> B) (l : list A) (acc : list B) :
  fold_left (fun entries x => entries ++ [f x]) l acc = acc ++ map f l.
Proof.
  revert acc. induction l as [|a l IH]; intros acc; simpl.
  - rewrite List.app_nil_r. reflexivity.
  - rewrite IH, <- List.app_assoc. reflexivity.
Qed.

End GenerateFacts.

Module GenerateTheorems.
Import Py PyFacts Generate GenerateSpec GenerateFacts.

(** C7, as stated, fails on log names: a name without a frame suffix and
    without a planks suffix is returned as it is when it ends in ["_log"]. *)
Lemma log_name_gets_no_planks_suffix :
  let base_name := replace "oak_log.json" ".json" "" in
  endswith base_name "_frame" = false
  /\ endswith base_name "_planks" = false
  /\ extract_base_name "oak_log.json" = "oak_log"
  /\ extract_base_name "oak_log.json" <> base_name +:+ "_planks".
Proof. vm_compute. repeat split; discriminate. Qed.

(** C7, amended. With every [".json"] removed from the file name: a name
    ending in ["_frame"] with no earlier ["_frame"] has that suffix renamed
    to ["_planks"]; a name without ["_frame"] is returned unchanged when it
    ends in ["_log"] or in ["_planks"], and gets ["_planks"] appended
    otherwise. *)
Theorem extract_base_name_cases (filename : string) :
  let base_name := replace filename ".json" "" in
  (forall stem,
      base_name = stem +:+ "_frame" -> contains "_frame" stem = false ->
      extract_base_name filename = stem +:+ "_planks")
  /\ (contains "_frame" base_name = false ->
      extract_base_name filename =
      if endswith base_name "_log" || endswith base_name "_planks"
      then base_name
      else base_name +:+ "_planks").
Proof.
  intros base_name. unfold extract_base_name. fold base_name. split.
  - intros stem E Hstem. rewrite E, contains_app_r.
    apply replace_final_frame. assumption.
  - intros ->. destruct (endswith base_name "_log"); [reflexivity|].
    destruct (endswith base_name "_planks"); reflexivity.
Qed.

Lemma extract_base_name_cases_witness :
  extract_base_name "acacia_frame.json" = "acacia_planks"
  /\ extract_base_name "stripped_oak_log.json" = "stripped_oak_log"
  /\ extract_base_name "bamboo_planks.json" = "bamboo_planks"
  /\ extract_base_name "stone.json" = "stone_planks".
Proof.
  split; [|split; [|split]].
  - apply (proj1 (extract_base_name_cases "acacia_frame.json") "acacia"); reflexivity.
  - apply (proj2 (extract_base_name_cases "stripped_oak_log.json")). reflexivity.
  - apply (proj2 (extract_base_name_cases "bamboo_planks.json")). reflexivity.
  - apply (proj2 (extract_base_name_cases "stone.json")). reflexivity.
Defined.

(** C8. The recipe for a list of variant strings is the document with the
    fixed type, [overwrite] false and one [{"item": v}] entry per variant,
    in the order and number of the input. *)
Theorem create_chiseling_recipe_shape (variants : list string) :
  exists es,
    create_chiseling_recipe (map JStr variants)
    = JObj [("type", JStr "rechiseled:chiseling");
            ("overwrite", JBool false);
            ("entries", JArr es)]
    /\ length es = length variants
    /\ forall i,
         nth_error es i
         = option_map (fun v => JObj [("item", JStr v)]) (nth_error variants i).
Proof.
  exists (map (fun v => JObj [("item", JStr v)]) variants). repeat split.
  - unfold create_chiseling_recipe.
    rewrite (append_entries (fun variant => JObj [("item", variant)])).
    simpl. rewrite map_map. reflexivity.
  - apply length_map.
  - intros i. apply nth_error_map.
Qed.


Section ErrorHandling.

Variable net : json -> outcome.
Variable json_error_is_request_exception : bool.
Variable writing : string -> write_outcome.
Variable stray : string -> string * option string.
Variable output_dir_str : string.
Variable repr : json -> string.
Variable builtin_message : exn -> string.

Abbreviation download_file_content :=
  (download_file_content net json_error_is_request_exception repr builtin_message).
Abbreviation process_chisel_file :=
  (process_chisel_file net json_error_is_request_exception writing stray
     output_dir_str repr builtin_message).
Abbreviation process_files :=
  (process_files net json_error_is_request_exception writing stray
     output_dir_str repr builtin_message).
Abbreviation get_github_files :=
  (get_github_files net json_error_is_request_exception builtin_message).
Abbreviation main :=
  (main net json_error_is_request_exception writing stray
     output_dir_str repr builtin_message).
Abbreviation download_fails := (download_fails net).
Abbreviation fmt := (fmt repr).
Abbreviation list_fetch_fails := (list_fetch_fails net json_error_is_request_exception).
Abbreviation failed_run_log := (failed_run_log output_dir_str).

Lemma download_failure_is_None (url : json) :
  download_fails url = true ->
  exists msg, forall st,
    download_file_content url st = (Ok None, mkState (out_dir st) (log st ++ [msg])).
Proof.
  unfold GenerateSpec.download_fails, Generate.download_file_content, try_except, bind, get_json.
  destruct (net url) as [msg | msg | j]; intros H; try discriminate.
  - eexists. intros st. reflexivity.
  - destruct json_error_is_request_exception; eexists; intros st; reflexivity.
Qed.

Lemma loop_passes_failed_file (file_info filename url : json) (rest : list json) :
  subscript file_info "name" = Ok filename ->
  subscript file_info "download_url" = Ok url ->
  download_fails url = true ->
  exists msg, forall st,
    process_chisel_file file_info st
    = (Ok tt, mkState (out_dir st) (log st ++ skipped_lines (fmt filename) msg))
    /\ process_files (file_info :: rest) st
       = process_files rest
           (mkState (out_dir st)
              (log st ++ skipped_lines (fmt filename) msg ++ [turn_end])).
Proof.
  intros Hname Hurl Hfail.
  destruct (download_failure_is_None url Hfail) as [msg Hd].
  exists msg. intros st.
  assert (Hrun : process_chisel_file file_info st
                 = (Ok tt, mkState (out_dir st)
                             (log st ++ skipped_lines (fmt filename) msg))).
  { unfold Generate.process_chisel_file, bind, lift. rewrite Hname, Hurl.
    cbn [print]. rewrite Hd. unfold print. cbn [out_dir log].
    unfold skipped_lines. rewrite <- !List.app_assoc. reflexivity. }
  split; [exact Hrun|].
  cbn [Generate.process_files]. unfold bind, try_except.
  rewrite Hrun. unfold print, turn_end. cbn [out_dir log].
  rewrite <- List.app_assoc. reflexivity.
Qed.

(** *** Every file of the list gets its turn *)

Lemma appends_ret {A : Type} (a : A) : appends (ret a).
Proof. intros st. exists []. symmetry. apply List.app_nil_r. Qed.

Lemma appends_lift {A : Type} (r : result A) : appends (lift r).
Proof. intros st. exists []. symmetry. apply List.app_nil_r. Qed.

Lemma appends_print (msg : string) : appends (print msg).
Proof. intros st. exists [msg]. reflexivity. Qed.

Lemma appends_bind {A B : Type} (m : M A) (k : A -> M B) :
  appends m -> (forall a, appends (k a)) -> appends (bind m k).
Proof.
  intros Hm Hk st. unfold bind. destruct (Hm st) as [l1 H1].
  destruct (m st) as [[a|e] st1]; cbn [snd] in *.
  - destruct (Hk a st1) as [l2 H2]. exists (l1 ++ l2).
    rewrite H2, H1. symmetry. apply List.app_assoc.
  - exists l1. exact H1.
Qed.

Lemma appends_try_except {A : Type} (body : M A) (handler : exn -> option (M A)) :
  appends body ->
  (forall e h, handler e = Some h -> appends h) ->
  appends (try_except body handler).
Proof.
  intros Hb Hh st. unfold try_except. destruct (Hb st) as [l1 H1].
  destruct (body st) as [[a|e] st1]; cbn [snd] in *.
  - exists l1. exact H1.
  - destruct (handler e) as [h|] eqn:E.
    + destruct (Hh e h E st1) as [l2 H2]. exists (l1 ++ l2).
      rewrite H2, H1. symmetry. apply List.app_assoc.
    + exists l1. exact H1.
Qed.

Lemma appends_get_json (url : json) : appends (get_json net url).
Proof.
  intros st. exists []. unfold get_json.
  destruct (net url); symmetry; apply List.app_nil_r.
Qed.

Lemma appends_download_file_content (url : json) : appends (download_file_content url).
Proof.
  unfold Generate.download_file_content. apply appends_try_except.
  - apply appends_bind; [apply appends_get_json|]. intros j. apply appends_ret.
  - intros e h.
    destruct (is_RequestException json_error_is_request_exception e).
    + intros H. inversion H; subst.
      apply appends_bind; [apply appends_print|]. intros _. apply appends_ret.
    + destruct e; intros H; inversion H; subst.
      apply appends_bind; [apply appends_print|]. intros _. apply appends_ret.
Qed.

Lemma store_log (output_filename : string) (content : file) (st : state) :
  log (store stray output_filename content st) = log st.
Proof. unfold store. destruct (target stray output_filename), (out_dir st); reflexivity. Qed.

Lemma appends_write_json (output_filename : string) (doc : json) :
  appends (write_json writing stray output_dir_str output_filename doc).
Proof.
  intros st. exists []. rewrite List.app_nil_r. unfold write_json.
  destruct (out_dir st), (Py.has_char "/" output_filename), (writing output_filename);
    cbn [snd]; rewrite ?store_log; reflexivity.
Qed.

(** What follows the line ["Processing: ..."] in [process_chisel_file]. *)
Lemma appends_process_chisel_file (file_info : json) :
  appends (process_chisel_file file_info).
Proof.
  unfold Generate.process_chisel_file.
  apply appends_bind; [apply appends_lift|]. intros filename.
  apply appends_bind; [apply appends_lift|]. intros download_url.
  apply appends_bind; [apply appends_print|]. intros _.
  apply appends_bind; [apply appends_download_file_content|].
  intros [content|]; [|apply appends_print].
  destruct (negb (truthy content)); [apply appends_print|].
  apply appends_bind; [apply appends_lift|]. intros variants.
  destruct (negb (truthy variants)); [apply appends_print|].
  apply appends_bind; [apply appends_lift|]. intros n.
  apply appends_bind; [apply appends_print|]. intros _.
  apply appends_bind; [apply appends_lift|]. intros base_name.
  apply appends_bind; [apply appends_lift|]. intros items.
  apply appends_try_except.
  - apply appends_bind; [apply appends_write_json|]. intros _. apply appends_print.
  - intros e h. destruct (is_IOError _ e); intros H; inversion H; subst.
    apply appends_print.
Qed.

(** With both keys present the first line printed names the file. *)
Lemma process_chisel_file_announces (file_info filename url : json) (st : state) :
  subscript file_info "name" = Ok filename ->
  subscript file_info "download_url" = Ok url ->
  exists more,
    log (snd (process_chisel_file file_info st))
    = log st ++ ("Processing: " +:+ fmt filename) :: more.
Proof.
  intros Hname Hurl.
  unfold Generate.process_chisel_file.
  unfold bind at 1 2 3, lift. rewrite Hname, Hurl. cbn [print].
  match goal with
  | |- context [snd (?m ?s)] =>
      assert (Hrest : appends m);
      [|destruct (Hrest s) as [more Hmore]; exists more;
        rewrite Hmore; cbn [log]; rewrite <- List.app_assoc; reflexivity]
  end.
  apply appends_bind; [apply appends_download_file_content|].
  intros [content|]; [|apply appends_print].
  destruct (negb (truthy content)); [apply appends_print|].
  apply appends_bind; [apply appends_lift|]. intros variants.
  destruct (negb (truthy variants)); [apply appends_print|].
  apply appends_bind; [apply appends_lift|]. intros n.
  apply appends_bind; [apply appends_print|]. intros _.
  apply appends_bind; [apply appends_lift|]. intros base_name.
  apply appends_bind; [apply appends_lift|]. intros items.
  apply appends_try_except.
  - apply appends_bind; [apply appends_write_json|]. intros _. apply appends_print.
  - intros e h. destruct (is_IOError _ e); intros H; inversion H; subst.
    apply appends_print.
Qed.

(** One turn of the loop: the call and its handler return normally for a
    file with a name, and what the call printed is kept. *)
Lemma turn_returns (file_info name : json) (st : state) :
  subscript file_info "name" = Ok name ->
  exists st1 more,
    try_except (process_chisel_file file_info)
      (fun e =>
         Some (name <- lift (subscript file_info "name") ;;
               print ("Error processing " +:+ fmt name +:+ ": "
                      +:+ exn_str builtin_message e))) st
    = (Ok tt, st1)
    /\ log st1 = log (snd (process_chisel_file file_info st)) ++ more.
Proof.
  intros Hname. unfold try_except.
  destruct (process_chisel_file file_info st) as [[[]|e] st1]; cbn [snd].
  - exists st1, []. split; [reflexivity|]. symmetry. apply List.app_nil_r.
  - unfold bind, lift. rewrite Hname. cbn [print].
    eexists. eexists. split; reflexivity.
Qed.

Lemma every_file_gets_its_turn (files : list json) :
  (forall f, In f files -> exists name, subscript f "name" = Ok name) ->
  forall st, exists printed st',
    process_files files st = (Ok tt, st')
    /\ log st' = log st ++ printed
    /\ forall f name url,
         In f files ->
         subscript f "name" = Ok name ->
         subscript f "download_url" = Ok url ->
         In ("Processing: " +:+ fmt name) printed.
Proof.
  induction files as [|f files IH]; intros Hnames st.
  - exists [], st. split; [reflexivity|]. split; [symmetry; apply List.app_nil_r|].
    intros f name url [].
  - destruct (Hnames f (or_introl eq_refl)) as [name Hname].
    destruct (turn_returns f name st Hname) as (st1 & more & Hturn & Hlog1).
    destruct (appends_process_chisel_file f st) as [lines Hlines].
    destruct (IH (fun g Hg => Hnames g (or_intror Hg))
                (mkState (out_dir st1) (log st1 ++ [turn_end])))
      as (printed & st' & Hrun & Hlog & Hall).
    exists (lines ++ more ++ [turn_end] ++ printed), st'.
    split; [|split].
    + cbn [Generate.process_files]. unfold bind at 1.
      rewrite Hturn. unfold bind. cbn [print]. exact Hrun.
    + rewrite Hlog. cbn [log]. rewrite Hlog1, Hlines.
      rewrite <- !List.app_assoc. reflexivity.
    + intros g gname url [<- | Hg] Hgname Hgurl.
      * destruct (process_chisel_file_announces f gname url st Hgname Hgurl)
          as [rest Hrest].
        rewrite Hrest in Hlines. apply List.app_inv_head in Hlines. subst lines.
        left. reflexivity.
      * apply List.in_or_app. right. apply List.in_or_app. right.
        right. eapply Hall; eassumption.
Qed.

Lemma list_failure_is_empty (msg : string) :
  list_fetch_fails msg ->
  forall st,
    get_github_files st
    = (Ok [], mkState (out_dir st)
                (log st ++ ["Fetching file list from: " +:+ list_url;
                            "Error fetching file list: " +:+ msg])).
Proof.
  intros Hfail st.
  unfold Generate.get_github_files, bind, try_except, get_json, print.
  fold list_url. cbn [out_dir log].
  destruct Hfail as [-> | [-> ->]]; cbn [raise is_RequestException exn_str out_dir log];
    rewrite <- List.app_assoc; reflexivity.
Qed.

Lemma list_failure_ends_run (msg : string) :
  list_fetch_fails msg ->
  forall st, main st = (Ok tt, mkState (Some ∅) (failed_run_log st msg)).
Proof.
  intros Hfail st. unfold Generate.main.
  unfold bind at 1 2 3 4. cbn [print clean_output_directory out_dir log].
  rewrite (list_failure_is_empty msg Hfail). cbn [print out_dir log].
  unfold GenerateSpec.failed_run_log.
  destruct (out_dir st); unfold print; cbn [out_dir log];
    repeat rewrite <- List.app_assoc; reflexivity.
Qed.


End ErrorHandling.


Example partial_failure_run :
  fst run0 = Ok tt
  /\ (out_dir (snd run0) ≫= (.!! "birch_planks.json"))
     = Some (Whole (JObj [("type", JStr "rechiseled:chiseling");
                          ("overwrite", JBool false);
                          ("entries", JArr [JObj [("item", JStr "bd:birch_frame_1")];
                                            JObj [("item", JStr "bd:birch_frame_2")]])]))
  /\ (out_dir (snd run0) ≫= (.!! "oak_planks.json")) = None
  /\ In "Skipping oak_frame.json due to download/parse error" (log (snd run0)).
Proof. vm_compute. repeat split. tauto. Qed.


End GenerateTheorems.

(* ===================================================================== *)
(** ** Further properties of bundle.py *)
(* ===================================================================== *)

Module BundleProperties.
Import Py PyFacts Posixpath PathSpec PosixFacts Fnmatch FnmatchSpec FnmatchFacts.
Import Bundle BundleSpec BundleFacts BundleTheorems ArchiveSpec.

Lemma should_ignore_rel_hits (cwd path base_path : string) (patterns : list string) :
  should_ignore cwd path patterns base_path
  = option_map (fun r => rel_hits r (basename path) patterns)
      (relpath cwd path base_path).
Proof.
  unfold should_ignore, bind. destruct (relpath cwd path base_path) as [r|]; [|reflexivity].
  simpl. unfold rel_hits.
  destruct (existsb (pattern_hits r (basename path)) patterns); reflexivity.
Qed.

Lemma relpath_None (cwd path start : string) :
  relpath cwd path start = None <-> path = "".
Proof.
  split.
  - intros H. destruct (String.eqb path "") eqn:E; [apply String.eqb_eq; assumption|].
    apply String.eqb_neq in E. destruct (relpath_defined cwd path start E) as [r Hr].
    congruence.
  - intros ->. reflexivity.
Qed.

(** X1. [should_ignore] raises exactly for the empty path. *)
Theorem should_ignore_raises_iff_empty_path (cwd path base_path : string)
    (patterns : list string) :
  should_ignore cwd path patterns base_path = None <-> path = "".
Proof.
  rewrite should_ignore_rel_hits, <- (relpath_None cwd path base_path).
  destruct (relpath cwd path base_path); simpl; split; congruence.
Qed.

Lemma existsb_all_false {A : Type} (f : A -> bool) (l : list A) :
  (forall a, In a l -> f a = false) -> existsb f l = false.
Proof.
  intros H. apply not_true_is_false. intros E. apply existsb_exists in E.
  destruct E as (a & Ha & Hf). rewrite (H a Ha) in Hf. discriminate.
Qed.

Lemma existsb_incl {A : Type} (f : A -> bool) (l l' : list A) :
  incl l l' -> existsb f l = true -> existsb f l' = true.
Proof.
  intros Hi H. apply existsb_exists in H. destruct H as (a & Ha & Hf).
  apply existsb_exists. exists a. auto.
Qed.

Lemma rel_hits_incl (r b : string) (ps qs : list string) :
  incl ps qs -> rel_hits r b ps = true -> rel_hits r b qs = true.
Proof.
  unfold rel_hits. intros Hi H. apply orb_true_iff in H. apply orb_true_iff.
  destruct H as [H | H].
  - left. eapply existsb_incl; eassumption.
  - right. apply existsb_exists in H. destruct H as (i & Hin & H).
    apply existsb_exists. exists i. split; [assumption|].
    eapply existsb_incl; eassumption.
Qed.

(** X2. With no pattern nothing is ignored. *)
Theorem no_pattern_ignores_nothing (cwd path base_path : string) :
  path <> "" -> should_ignore cwd path [] base_path = Some false.
Proof.
  intros H. rewrite should_ignore_rel_hits.
  destruct (relpath_defined cwd path base_path H) as [r ->]. simpl. f_equal.
  unfold rel_hits. simpl. apply existsb_all_false. reflexivity.
Qed.

Lemma no_pattern_ignores_nothing_witness :
  should_ignore "/home/u" "/pack/keep/c.txt" [] "/pack" = Some false.
Proof. apply no_pattern_ignores_nothing. discriminate. Defined.

(** X3. Patterns only add: what a list ignores, every list that holds its
    patterns ignores. *)
Theorem more_patterns_ignore_more (cwd path base_path : string) (ps qs : list string) :
  incl ps qs ->
  should_ignore cwd path ps base_path = Some true ->
  should_ignore cwd path qs base_path = Some true.
Proof.
  intros Hi. rewrite !should_ignore_rel_hits.
  destruct (relpath cwd path base_path) as [r|]; simpl; [|discriminate].
  intros H. inversion H as [H']. rewrite H'. f_equal.
  rewrite (rel_hits_incl _ _ ps qs Hi H'). reflexivity.
Qed.

Lemma more_patterns_ignore_more_witness :
  should_ignore "/home/u" "/pack/skip/b.txt" ["*.md"; "skip/"; "*.tmp"] "/pack" = Some true.
Proof.
  apply (more_patterns_ignore_more "/home/u" "/pack/skip/b.txt" "/pack" ["skip/"]).
  - intros p [<- | []]. simpl. tauto.
  - reflexivity.
Defined.

(** X4. The answer depends on the patterns as a set: order and repetition
    of the lines do not matter. *)
Theorem pattern_order_is_irrelevant (cwd path base_path : string) (ps qs : list string) :
  (forall p, In p ps <-> In p qs) ->
  should_ignore cwd path ps base_path = should_ignore cwd path qs base_path.
Proof.
  intros H. rewrite !should_ignore_rel_hits.
  destruct (relpath cwd path base_path) as [r|]; simpl; [|reflexivity]. f_equal.
  assert (H1 : incl ps qs) by (intros p Hp; apply H; assumption).
  assert (H2 : incl qs ps) by (intros p Hp; apply H; assumption).
  destruct (rel_hits r (basename path) ps) eqn:E1.
  - symmetry. eapply rel_hits_incl; eassumption.
  - destruct (rel_hits r (basename path) qs) eqn:E2; [|reflexivity].
    rewrite (rel_hits_incl _ _ qs ps H2 E2) in E1. discriminate.
Qed.

Lemma pattern_order_is_irrelevant_witness :
  should_ignore "/home/u" "/pack/skip/b.txt" ["*.md"; "skip/"] "/pack"
  = should_ignore "/home/u" "/pack/skip/b.txt" ["skip/"; "*.md"; "skip/"] "/pack".
Proof.
  apply pattern_order_is_irrelevant. intros p. simpl. tauto.
Defined.


Lemma tokens_match_star (s : string) : tokens_match [STAR] s = true.
Proof. induction s as [|c s IH]; [reflexivity|]. simpl. simpl in IH. rewrite IH. reflexivity. Qed.

Lemma fnmatch_star_all (s : string) : fnmatch s "*" = true.
Proof. apply tokens_match_star. Qed.

Lemma ignored_incl (ps qs : list string) (comps : list string) :
  incl ps qs -> ignored ps comps = true -> ignored qs comps = true.
Proof.
  unfold ignored. intros Hi H. apply orb_true_iff in H. apply orb_true_iff.
  destruct H as [H | H].
  - left. eapply existsb_incl; eassumption.
  - right. apply existsb_exists in H. destruct H as (i & Hin & H).
    apply existsb_exists. exists i. split; [assumption|].
    eapply existsb_incl; eassumption.
Qed.

Lemma ignored_star (patterns : list string) (comps : list string) :
  In "*" patterns -> ignored patterns comps = true.
Proof.
  intros H. unfold ignored. apply orb_true_iff. left.
  apply existsb_exists. exists "*". split; [assumption|].
  unfold pattern_hits. simpl. rewrite fnmatch_star_all. reflexivity.
Qed.

Lemma no_member_nil {A : Type} (l : list A) : (forall a, ~ In a l) -> l = [].
Proof. destruct l as [|a l]; [reflexivity|]. intros H. exfalso. apply (H a). left. reflexivity. Qed.

(** X5. A line ["*"] in the ignore file makes [should_ignore] true for
    every path, and the archive comes out empty. *)
Theorem star_pattern_empties_archive (cwd : string) (fs : string -> fs_node)
    (tree : entry) (source_dir output_zip packignore_path : string)
    (patterns : list string) :
  isabs cwd = true ->
  names_ok tree = true ->
  load_packignore_patterns fs packignore_path = Some patterns ->
  In "*" patterns ->
  (forall path, path <> "" -> should_ignore cwd path patterns source_dir = Some true)
  /\ bundle_files cwd fs tree source_dir output_zip packignore_path = Some [].
Proof.
  intros Hcwd Hok Hload Hstar. split.
  - intros path Hpath. rewrite should_ignore_rel_hits.
    destruct (relpath_defined cwd path source_dir Hpath) as [r ->]. simpl. f_equal.
    unfold rel_hits. apply orb_true_iff. left.
    apply existsb_exists. exists "*". split; [assumption|].
    unfold pattern_hits. simpl. rewrite fnmatch_star_all. reflexivity.
  - rewrite (bundle_files_run cwd fs tree source_dir output_zip packignore_path patterns)
      by assumption.
    f_equal. apply no_member_nil. intros [key data] H.
    apply walk_pure_in in H. destruct H as (rest & _ & _ & _ & Hign & _).
    rewrite ignored_star in Hign by assumption. discriminate.
Qed.

Lemma star_pattern_empties_archive_witness :
  (forall path, path <> "" ->
     should_ignore "/home/u" path ["*"; "skip/"] "/pack" = Some true)
  /\ bundle_files "/home/u" (ignore_file ["*"; "skip/"]) pack_tree
       "/pack" "/pack/pack.zip" "/pack/.packignore" = Some [].
Proof.
  apply (star_pattern_empties_archive "/home/u" (ignore_file ["*"; "skip/"]) pack_tree
           "/pack" "/pack/pack.zip" "/pack/.packignore" ["*"; "skip/"]);
    try reflexivity.
  simpl. tauto.
Defined.

Lemma endswith_join_names (comps : list string) :
  comps <> [] -> Forall (fun n => wf_name n = true) comps ->
  endswith (Py.join "/" comps) "/" = false.
Proof.
  intros Hne Hwf. destruct (exists_last Hne) as (l0 & x & ->).
  apply List.Forall_app in Hwf. destruct Hwf as [_ Hx]. inversion Hx as [|? ? Hx' _]; subst.
  apply wf_name_inv in Hx'. destruct Hx' as (Hx1 & Hx2 & _).
  destruct l0 as [|a l0].
  - simpl. apply endswith_slash_free. assumption.
  - rewrite join_snoc by discriminate.
    rewrite <- sapp_assoc, endswith_slash_app by assumption.
    apply endswith_slash_free. assumption.
Qed.

(** X6. A pattern that is the relative path of an entry, written without
    metacharacters, makes [should_ignore] true for that entry. *)
Theorem exact_path_pattern_is_ignored (cwd source_dir : string)
    (patterns : list string) (comps : list string) :
  isabs cwd = true ->
  comps <> [] -> Forall (fun n => wf_name n = true) comps ->
  literal (Py.join "/" comps) = true ->
  In (Py.join "/" comps) patterns ->
  should_ignore cwd (Posixpath.join source_dir comps) patterns source_dir = Some true.
Proof.
  intros Hcwd Hne Hwf Hlit Hin.
  rewrite (should_ignore_below cwd Hcwd) by assumption. f_equal.
  unfold ignored. apply orb_true_iff. left.
  apply existsb_exists. exists (Py.join "/" comps). split; [assumption|].
  unfold pattern_hits. rewrite endswith_join_names by assumption.
  rewrite fnmatch_literal by assumption. reflexivity.
Qed.

Lemma exact_path_pattern_is_ignored_witness :
  should_ignore "/home/u" (Posixpath.join "/pack" ["keep"; "c.txt"]) ["keep/c.txt"] "/pack"
  = Some true.
Proof.
  apply exact_path_pattern_is_ignored; try reflexivity.
  - discriminate.
  - repeat constructor.
  - simpl. tauto.
Defined.

(** X7. When a pattern meets a directory in the loop over the prefixes (a
    directory pattern matching its relative path with the separator added,
    or another pattern matching its relative path), [should_ignore] is true
    for every path below that directory. *)
Theorem prefix_match_ignores_everything_below (cwd source_dir : string)
    (patterns : list string) (pattern : string) (dir rest : list string) :
  isabs cwd = true ->
  dir <> [] -> Forall (fun n => wf_name n = true) (dir ++ rest) ->
  In pattern patterns ->
  prefix_hits (Py.join "/" dir) pattern = true ->
  should_ignore cwd (Posixpath.join source_dir (dir ++ rest)) patterns source_dir
  = Some true.
Proof.
  intros Hcwd Hne Hwf Hin Hhit.
  rewrite (should_ignore_below cwd Hcwd); [|destruct dir; [congruence|discriminate]|assumption].
  f_equal. unfold ignored. apply orb_true_iff. right.
  apply existsb_exists. exists (length dir - 1). split.
  - apply in_seq. rewrite length_app. destruct dir; [congruence|]. simpl. lia.
  - apply existsb_exists. exists pattern. split; [assumption|].
    replace (length dir - 1 + 1) with (length dir) by (destruct dir; [congruence|simpl; lia]).
    rewrite firstn_app, Nat.sub_diag, firstn_all, firstn_O, List.app_nil_r. assumption.
Qed.

Lemma prefix_match_ignores_everything_below_witness :
  should_ignore "/home/u"
    (Posixpath.join "/pack" (["build"; "cache"] ++ ["x"; "y.o"])) ["*/cache/"] "/pack"
  = Some true.
Proof.
  apply (prefix_match_ignores_everything_below "/home/u" "/pack" ["*/cache/"] "*/cache/");
    try reflexivity.
  - discriminate.
  - repeat constructor.
  - simpl. tauto.
Defined.

(** X8. Every entry of the archive is a file of the tree: its key is the
    file's path relative to the root and its content the file's. *)
Theorem archive_entries_are_files (cwd : string) (fs : string -> fs_node)
    (tree : entry) (source_dir output_zip packignore_path : string)
    (patterns : list string) (a : archive) :
  isabs cwd = true ->
  names_ok tree = true ->
  load_packignore_patterns fs packignore_path = Some patterns ->
  bundle_files cwd fs tree source_dir output_zip packignore_path = Some a ->
  forall key data,
    In (key, data) a ->
    exists comps,
      file_at tree comps data
      /\ relpath cwd (Posixpath.join source_dir comps) source_dir = Some key
      /\ startswith key "/" = false.
Proof.
  intros Hcwd Hok Hload Hrun key data Hin.
  rewrite (bundle_files_run cwd fs tree source_dir output_zip packignore_path patterns)
    in Hrun by assumption.
  inversion Hrun; subst a.
  apply walk_pure_in in Hin. destruct Hin as (rest & Hat & Hkey & _).
  simpl in Hkey. subst key.
  pose proof (file_at_nonempty _ _ _ Hat) as Hne.
  pose proof (file_at_wf _ _ _ Hok Hat) as Hwf.
  exists rest. split; [assumption|]. split.
  - apply (relpath_below cwd Hcwd); assumption.
  - destruct rest as [|x rest]; [congruence|].
    inversion Hwf as [|? ? Hx _]; subst.
    pose proof (wf_name_not_abs x Hx) as Hrel.
    apply wf_name_inv in Hx. destruct Hx as (Hx & _).
    destruct rest; [exact Hrel|].
    rewrite join_cons by discriminate.
    rewrite startswith_app_nonempty; assumption.
Qed.

Lemma archive_entries_are_files_witness :
  exists comps,
    file_at three_file_tree comps "C"
    /\ relpath "/home/u" (Posixpath.join "/pack" comps) "/pack" = Some "keep/c.txt"
    /\ startswith "keep/c.txt" "/" = false.
Proof.
  apply (archive_entries_are_files "/home/u" (ignore_file ["skip/"]) three_file_tree
           "/pack" "/pack/pack.zip" "/pack/.packignore" ["skip/"]
           [("a.txt", "A"); ("keep/c.txt", "C")]); try reflexivity.
  simpl. tauto.
Defined.

(** X9. Adding patterns never adds entries: the archive made with a longer
    pattern list holds only entries of the archive made with the shorter
    one. *)
Theorem more_patterns_smaller_archive (cwd : string) (fs fs' : string -> fs_node)
    (tree : entry) (source_dir output_zip packignore_path : string)
    (ps qs : list string) :
  isabs cwd = true ->
  names_ok tree = true ->
  load_packignore_patterns fs packignore_path = Some ps ->
  load_packignore_patterns fs' packignore_path = Some qs ->
  incl ps qs ->
  exists a b,
    bundle_files cwd fs tree source_dir output_zip packignore_path = Some a
    /\ bundle_files cwd fs' tree source_dir output_zip packignore_path = Some b
    /\ incl b a.
Proof.
  intros Hcwd Hok Hps Hqs Hi.
  do 2 eexists. split; [apply bundle_files_run; eassumption|].
  split; [apply bundle_files_run; eassumption|].
  intros [key data] H. apply walk_pure_in in H. apply walk_pure_in.
  destruct H as (rest & Hat & Hkey & Hreach & Hign & Hout).
  exists rest. repeat split; try assumption.
  - intros k Hk. specialize (Hreach k Hk).
    destruct (ignored ps ([] ++ firstn k rest)) eqn:E; [|reflexivity].
    rewrite (ignored_incl ps qs _ Hi E) in Hreach. discriminate.
  - destruct (ignored ps ([] ++ rest)) eqn:E; [|reflexivity].
    rewrite (ignored_incl ps qs _ Hi E) in Hign. discriminate.
Qed.

Lemma more_patterns_smaller_archive_witness :
  exists a b,
    bundle_files "/home/u" (ignore_file ["skip/"]) pack_tree
      "/pack" "/pack/pack.zip" "/pack/.packignore" = Some a
    /\ bundle_files "/home/u" (ignore_file ["skip/"; "*.txt"]) pack_tree
         "/pack" "/pack/pack.zip" "/pack/.packignore" = Some b
    /\ incl b a.
Proof.
  apply (more_patterns_smaller_archive "/home/u" (ignore_file ["skip/"])
           (ignore_file ["skip/"; "*.txt"]) pack_tree "/pack" "/pack/pack.zip"
           "/pack/.packignore" ["skip/"] ["skip/"; "*.txt"]); try reflexivity.
  intros p [<- | []]. simpl. tauto.
Defined.


Lemma distinct_cons (a : string) (l : list string) :
  distinct (a :: l) = true -> ~ In a l /\ distinct l = true.
Proof.
  simpl. rewrite andb_true_iff, negb_true_iff. intros [H1 H2]. split; [|assumption].
  intros Hin. assert (E : existsb (String.eqb a) l = true).
  { apply existsb_exists. exists a. split; [assumption|apply String.eqb_refl]. }
  congruence.
Qed.

Lemma walk_pure_key (patterns : list string) (out : string) (pre : list string)
    (e : entry) (key : string) :
  In key (map fst (walk_pure patterns out pre e)) ->
  exists rest data, file_at e rest data /\ key = Py.join "/" (pre ++ rest).
Proof.
  intros H. apply in_map_iff in H. destruct H as ((k, data) & Hk & H).
  simpl in Hk. subst k. apply walk_pure_in in H.
  destruct H as (rest & Hat & Hkey & _). eauto.
Qed.

Lemma join_under_inj (pre r1 r2 : list string) :
  Forall (fun n => wf_name n = true) pre ->
  r1 <> [] -> r2 <> [] ->
  Forall (fun n => wf_name n = true) r1 -> Forall (fun n => wf_name n = true) r2 ->
  Py.join "/" (pre ++ r1) = Py.join "/" (pre ++ r2) -> r1 = r2.
Proof.
  intros Hpre H1 H2 Hw1 Hw2 E.
  apply join_names_inj in E.
  - apply app_inv_head in E. assumption.
  - destruct pre; [assumption|discriminate].
  - destruct pre; [assumption|discriminate].
  - apply List.Forall_app. auto.
  - apply List.Forall_app. auto.
Qed.

Section NoDuplicates.

Variable patterns : list string.
Variable out : string.

Abbreviation below := (walk_below patterns out).

Lemma file_keys_nodup (pre : list string) (l : list entry) :
  Forall (fun n => wf_name n = true) pre ->
  Forall (fun c => wf_name (entry_name c) = true) l ->
  distinct (map entry_name l) = true ->
  List.NoDup (map fst (flat_map (file_pure patterns out pre) (file_entries l))).
Proof.
  intros Hpre Hwf Hd. induction l as [|c l IH]; [constructor|].
  inversion Hwf as [|? ? Hc Hl]; subst.
  simpl in Hd. apply distinct_cons in Hd. destruct Hd as [Hnot Hd].
  destruct c as [f data | d ch]; [|apply IH; assumption].
  change (file_entries (File f data :: l)) with ((f, data) :: file_entries l).
  cbn [flat_map]. rewrite map_app. apply List.NoDup_app.
  - unfold file_pure. cbn [fst snd].
    destruct (negb (ignored patterns (pre ++ [f])) && negb (String.eqb f out));
      simpl; [apply List.NoDup_cons; [intros []|constructor]|constructor].
  - apply IH; assumption.
  - intros key H1 H2. unfold file_pure in H1. cbn [fst snd] in H1.
    destruct (negb (ignored patterns (pre ++ [f])) && negb (String.eqb f out));
      [|contradiction].
    destruct H1 as [<- | []].
    apply in_map_iff in H2. destruct H2 as ((k, data') & Hk & H2). simpl in Hk.
    apply in_flat_map in H2. destruct H2 as ((f', data'') & Hf' & H2).
    unfold file_pure in H2. cbn [fst snd] in H2.
    destruct (negb (ignored patterns (pre ++ [f'])) && negb (String.eqb f' out));
      [|contradiction].
    destruct H2 as [H2 | []]. inversion H2; subst.
    apply in_file_entries in Hf'.
    assert (Hwf' : wf_name f' = true).
    { rewrite List.Forall_forall in Hl. apply (Hl _ Hf'). }
    apply join_under_inj in H0; try assumption; try discriminate;
      try (constructor; [assumption|constructor]).
    inversion H0; subst f'.
    apply Hnot. simpl. apply in_map_iff.
    match goal with H : In (File f ?x) l |- _ => exists (File f x); auto end.
Qed.

Lemma below_keys_nodup (pre : list string) (l : list entry) :
  Forall (fun n => wf_name n = true) pre ->
  Forall (fun c => wf_name (entry_name c) = true /\ names_ok c = true) l ->
  Forall (fun c => forall pre',
            Forall (fun n => wf_name n = true) pre' ->
            List.NoDup (map fst (walk_pure patterns out pre' c))) l ->
  distinct (map entry_name l) = true ->
  List.NoDup (map fst (flat_map (below pre) l)).
Proof.
  intros Hpre Hwf Hnd Hd. induction l as [|c l IH]; [constructor|].
  inversion Hwf as [|? ? [Hc Hokc] Hl]; subst.
  inversion Hnd as [|? ? Hndc Hndl]; subst.
  simpl in Hd. apply distinct_cons in Hd. destruct Hd as [Hnot Hd].
  cbn [flat_map]. rewrite map_app. apply List.NoDup_app.
  - unfold walk_below. destruct c as [f data | d ch]; [constructor|].
    destruct (negb (ignored patterns (pre ++ [d]))); [|constructor].
    apply Hndc. apply List.Forall_app. split; [assumption|].
    constructor; [exact Hc|constructor].
  - apply IH; assumption.
  - intros key H1 H2. unfold walk_below in H1.
    destruct c as [f data | d ch]; [contradiction|].
    destruct (negb (ignored patterns (pre ++ [d]))); [|contradiction].
    apply walk_pure_key in H1. destruct H1 as (r1 & data1 & Hat1 & Hk1).
    apply in_map_iff in H2. destruct H2 as ((k, data2) & Hk & H2). simpl in Hk. subst k.
    apply in_flat_map in H2. destruct H2 as (c' & Hc' & H2).
    unfold walk_below in H2. destruct c' as [f' data' | d' ch']; [contradiction|].
    destruct (negb (ignored patterns (pre ++ [d']))); [|contradiction].
    assert (H2' : In key (map fst (walk_pure patterns out (pre ++ [d']) (Dir d' ch')))).
    { apply in_map_iff. exists (key, data2). auto. }
    apply walk_pure_key in H2'. destruct H2' as (r2 & data2' & Hat2 & Hk2).
    rewrite List.Forall_forall in Hl. destruct (Hl _ Hc') as [Hwf' Hok'].
    simpl in Hc, Hwf'.
    rewrite <- !List.app_assoc in Hk1, Hk2. rewrite Hk1 in Hk2.
    apply join_under_inj in Hk2; try assumption; try discriminate.
    + inversion Hk2; subst d'. apply Hnot. simpl.
      apply in_map_iff. exists (Dir d ch'). auto.
    + simpl. constructor; [assumption|]. exact (file_at_wf _ _ _ Hokc Hat1).
    + simpl. constructor; [assumption|]. exact (file_at_wf _ _ _ Hok' Hat2).
Qed.

Lemma walk_pure_nodup (e : entry) :
  forall pre,
    names_ok e = true -> names_unique e = true ->
    Forall (fun n => wf_name n = true) pre ->
    List.NoDup (map fst (walk_pure patterns out pre e)).
Proof.
  induction e as [n data | n children IH] using entry_induction;
    intros pre Hok Huniq Hpre.
  - constructor.
  - cbn [walk_pure]. rewrite map_app.
    simpl in Huniq. apply andb_true_iff in Huniq. destruct Huniq as [Hd Hall].
    assert (Hch : Forall (fun c => wf_name (entry_name c) = true /\ names_ok c = true)
                    children).
    { apply List.Forall_forall. intros c Hc. eapply names_ok_child; eassumption. }
    apply List.NoDup_app.
    + apply file_keys_nodup; try assumption.
      eapply List.Forall_impl; [|exact Hch]. intros c [H _]. exact H.
    + apply (below_keys_nodup pre children); try assumption.
      rewrite List.Forall_forall in IH, Hch. apply List.Forall_forall.
      intros c Hc pre' Hpre'. apply IH; try assumption.
      * apply (Hch c Hc).
      * rewrite forallb_forall in Hall. apply Hall. assumption.
    + intros key H1 H2.
      apply in_map_iff in H1. destruct H1 as ((k, data1) & Hk & H1). simpl in Hk. subst k.
      apply in_flat_map in H1. destruct H1 as ((f, data') & Hf & H1).
      unfold file_pure in H1. cbn [fst snd] in H1.
      destruct (negb (ignored patterns (pre ++ [f])) && negb (String.eqb f out));
        [|contradiction].
      destruct H1 as [H1 | []]. inversion H1; subst.
      apply in_file_entries in Hf.
      apply in_map_iff in H2. destruct H2 as ((k, data2) & Hk & H2). simpl in Hk.
      apply in_flat_map in H2. destruct H2 as (c & Hc & H2).
      destruct c as [f' data'' | d ch]; [contradiction|].
      destruct (negb (ignored patterns (pre ++ [d]))); [|contradiction].
      assert (H2' : In k (map fst (walk_pure patterns out (pre ++ [d]) (Dir d ch)))).
      { apply in_map_iff. exists (k, data2). auto. }
      apply walk_pure_key in H2'. destruct H2' as (r & data3 & Hat & Hkr).
      rewrite List.Forall_forall in Hch.
      destruct (Hch _ Hc) as [Hwd Hokd]. destruct (Hch _ Hf) as [Hwf _].
      simpl in Hwd, Hwf.
      rewrite <- List.app_assoc in Hkr. rewrite Hkr in Hk.
      apply join_under_inj in Hk; try assumption; try discriminate.
      * inversion Hk as [[E1 E2]]. apply (file_at_nonempty _ _ _ Hat). assumption.
      * simpl. constructor; [assumption|]. exact (file_at_wf _ _ _ Hokd Hat).
      * constructor; [assumption|constructor].
Qed.

End NoDuplicates.

(** X10. When the entries of every directory have different names, no two
    entries of the archive have the same key. *)
Theorem archive_keys_are_distinct (cwd : string) (fs : string -> fs_node)
    (tree : entry) (source_dir output_zip packignore_path : string)
    (patterns : list string) :
  isabs cwd = true ->
  names_ok tree = true ->
  names_unique tree = true ->
  load_packignore_patterns fs packignore_path = Some patterns ->
  exists a,
    bundle_files cwd fs tree source_dir output_zip packignore_path = Some a
    /\ List.NoDup (map fst a).
Proof.
  intros Hcwd Hok Huniq Hload.
  eexists. split; [apply bundle_files_run; eassumption|].
  apply walk_pure_nodup; try assumption. constructor.
Qed.

Lemma archive_keys_are_distinct_witness :
  exists a,
    bundle_files "/home/u" (ignore_file ["*.md"]) pack_tree
      "/pack" "/pack/pack.zip" "/pack/.packignore" = Some a
    /\ List.NoDup (map fst a).
Proof.
  apply (archive_keys_are_distinct "/home/u" (ignore_file ["*.md"]) pack_tree
           "/pack" "/pack/pack.zip" "/pack/.packignore" ["*.md"]); reflexivity.
Defined.


(** *** The working directory *)

Lemma relpath_absolute (cwd cwd' path start : string) :
  isabs path = true -> isabs start = true ->
  relpath cwd path start = relpath cwd' path start.
Proof. intros Hp Hs. unfold relpath, abspath. rewrite Hp, Hs. reflexivity. Qed.

Lemma should_ignore_absolute (cwd cwd' path base_path : string) (patterns : list string) :
  isabs path = true -> isabs base_path = true ->
  should_ignore cwd path patterns base_path = should_ignore cwd' path patterns base_path.
Proof.
  intros Hp Hb. unfold should_ignore.
  rewrite (relpath_absolute cwd cwd' path base_path Hp Hb). reflexivity.
Qed.

Lemma join2_absolute (root d : string) : isabs root = true -> isabs (join2 root d) = true.
Proof.
  intros H. unfold join2. destruct (startswith d "/") eqn:E; [exact E|].
  assert (Hne : root <> "") by (intros ->; discriminate).
  destruct (String.eqb root "" || endswith root "/");
    unfold isabs; rewrite startswith_app_nonempty; assumption.
Qed.

Lemma filterM_ext {A : Type} (f g : A -> option bool) (l : list A) :
  (forall a, In a l -> f a = g a) -> filterM f l = filterM g l.
Proof.
  induction l as [|a l IH]; intros H; simpl; [reflexivity|].
  rewrite (H a (or_introl eq_refl)), IH by (intros; apply H; right; assumption).
  reflexivity.
Qed.

Lemma concatM_ext {A B : Type} (f g : A -> option (list B)) (l : list A) :
  (forall a, In a l -> f a = g a) -> concatM f l = concatM g l.
Proof.
  induction l as [|a l IH]; intros H; simpl; [reflexivity|].
  rewrite (H a (or_introl eq_refl)), IH by (intros; apply H; right; assumption).
  reflexivity.
Qed.

Lemma bind_ext {A B : Type} (m : option A) (k k' : A -> option B) :
  (forall a, k a = k' a) -> bind m k = bind m k'.
Proof. intros H. destruct m; simpl; [apply H|reflexivity]. Qed.

Lemma bind_congr {A B : Type} (m m' : option A) (k k' : A -> option B) :
  m = m' -> (forall a, k a = k' a) -> bind m k = bind m' k'.
Proof. intros -> H. apply bind_ext. exact H. Qed.

Lemma walk_absolute (cwd cwd' : string) (patterns : list string)
    (source_dir out : string) (e : entry) :
  isabs source_dir = true ->
  forall root, isabs root = true ->
    walk cwd patterns source_dir out root e = walk cwd' patterns source_dir out root e.
Proof.
  intros Hsrc. induction e as [n data | n children IH] using entry_induction;
    intros root Hroot; [reflexivity|].
  cbn [walk].
  apply bind_congr.
  { apply filterM_ext. intros d _.
    rewrite (should_ignore_absolute cwd cwd'); auto using join2_absolute. }
  intros dirs. apply bind_congr.
  { apply concatM_ext. intros file _. unfold bundle_file.
    rewrite (should_ignore_absolute cwd cwd'); auto using join2_absolute.
    rewrite (relpath_absolute cwd cwd'); auto using join2_absolute. }
  intros written. apply bind_congr; [|reflexivity].
  apply concatM_ext. intros c Hc. destruct c as [f data | d ch]; [reflexivity|].
  destruct (existsb (String.eqb d) dirs); [|reflexivity].
  rewrite List.Forall_forall in IH. apply (IH _ Hc). apply join2_absolute. assumption.
Qed.

(** X11. With an absolute source directory and an absolute path of the
    ignore file, the result of [bundle_files] does not depend on the working
    directory, for any tree and any ignore file: [fs] and [fs'] are the
    files as two working directories show them, the same under every
    absolute path. *)
Theorem bundle_files_ignores_cwd (cwd cwd' : string) (fs fs' : string -> fs_node)
    (tree : entry) (source_dir output_zip packignore_path : string) :
  (forall p, isabs p = true -> fs p = fs' p) ->
  isabs source_dir = true ->
  isabs packignore_path = true ->
  bundle_files cwd fs tree source_dir output_zip packignore_path
  = bundle_files cwd' fs' tree source_dir output_zip packignore_path.
Proof.
  intros Hfs Hsrc Hpath. unfold bundle_files, load_packignore_patterns.
  rewrite (Hfs packignore_path Hpath).
  apply bind_ext. intros patterns. apply walk_absolute; assumption.
Qed.

Lemma bundle_files_ignores_cwd_witness :
  bundle_files "/home/u" (ignore_file ["skip/"]) pack_tree
    "/pack" "/pack/pack.zip" "/pack/.packignore"
  = bundle_files "/tmp" (ignore_file ["skip/"]) pack_tree
      "/pack" "/pack/pack.zip" "/pack/.packignore".
Proof. apply bundle_files_ignores_cwd; reflexivity. Defined.


(** *** The lines kept as patterns *)

Lemma rstrip_unfold (a : ascii) (s : string) :
  rstrip (String a s) =
  match rstrip s with
  | "" => if isspace a then "" else String a ""
  | r => String a r
  end.
Proof. reflexivity. Qed.

Lemma rstrip_idem (s : string) : rstrip (rstrip s) = rstrip s.
Proof.
  induction s as [|a s IH]; [reflexivity|].
  rewrite rstrip_unfold. destruct (rstrip s) as [|b r] eqn:E.
  - destruct (isspace a) eqn:Ea; [reflexivity|].
    rewrite rstrip_unfold. simpl. rewrite Ea. reflexivity.
  - rewrite rstrip_unfold, IH. reflexivity.
Qed.

Lemma rstrip_keeps_first (a : ascii) (s : string) :
  isspace a = false -> exists r, rstrip (String a s) = String a r.
Proof.
  intros Ha. rewrite rstrip_unfold. destruct (rstrip s); [rewrite Ha|]; eauto.
Qed.

Lemma lstrip_first (s : string) :
  lstrip s = "" \/ exists a r, lstrip s = String a r /\ isspace a = false.
Proof.
  induction s as [|a s IH]; [left; reflexivity|].
  simpl. destruct (isspace a) eqn:Ea; [exact IH|]. right. eauto.
Qed.

Lemma strip_idem (s : string) : strip (strip s) = strip s.
Proof.
  unfold strip. destruct (lstrip_first s) as [-> | (a & r & -> & Ha)]; [reflexivity|].
  destruct (rstrip_keeps_first a r Ha) as [r' E].
  rewrite E. simpl lstrip. rewrite Ha, <- E. apply rstrip_idem.
Qed.

(** X12. Every pattern that [load_packignore_patterns] returns is a
    non-empty line that does not start with ['#'] and has no white space at
    either end. *)
Theorem loaded_patterns_are_clean (fs : string -> fs_node) (packignore_path : string)
    (patterns : list string) :
  load_packignore_patterns fs packignore_path = Some patterns ->
  forall p, In p patterns -> p <> "" /\ startswith p "#" = false /\ strip p = p.
Proof.
  intros Hload p Hp. unfold load_packignore_patterns in Hload.
  destruct (fs packignore_path) as [|lines|]; [| |discriminate].
  - inversion Hload; subst. contradiction.
  - rewrite load_loop in Hload. inversion Hload; subst. simpl in Hp.
    apply filter_In in Hp. destruct Hp as [Hin Hkeep].
    apply in_map_iff in Hin. destruct Hin as (line & <- & _).
    unfold is_pattern_line in Hkeep. apply andb_true_iff in Hkeep.
    destruct Hkeep as [H1 H2]. apply negb_true_iff in H1, H2.
    apply String.eqb_neq in H1. auto using strip_idem.
Qed.

Lemma loaded_patterns_are_clean_witness :
  "skip/" <> "" /\ startswith "skip/" "#" = false /\ strip "skip/" = "skip/".
Proof.
  apply (loaded_patterns_are_clean (ignore_file ["  skip/  "; "# tmp"; "*.tmp "; "   "])
           "/pack/.packignore" ["skip/"; "*.tmp"]).
  - reflexivity.
  - simpl. tauto.
Defined.

(** *** The command line *)

Lemma basename_join2_any (a b : string) : basename (join2 a b) = basename b.
Proof.
  unfold join2. destruct (startswith b "/"); [reflexivity|].
  destruct (String.eqb a "") eqn:E0; simpl.
  - apply String.eqb_eq in E0. subst. reflexivity.
  - unfold basename. destruct (endswith a "/") eqn:E.
    + apply endswith_inv in E. destruct E as [t ->].
      rewrite sapp_assoc. change ("/" +:+ b) with (String "/" b).
      apply last_split_app_sep.
    + change ("/" +:+ b) with (String "/" b). apply last_split_app_sep.
Qed.

Lemma rstrip_char_empty (s : string) :
  rstrip_char "/" s = "" -> all_slashes s = true.
Proof.
  induction s as [|c s IH]; [reflexivity|]. simpl.
  destruct (rstrip_char "/" s); [|discriminate].
  destruct (Ascii.eqb c "/"); [|discriminate]. intros _. apply IH. reflexivity.
Qed.

Lemma dirname_absolute (p : string) : isabs p = true -> isabs (dirname p) = true.
Proof.
  destruct p as [|c p]; [discriminate|]. unfold isabs. simpl.
  rewrite andb_true_r. intros Hc. unfold dirname. cbn [dir_head]. rewrite Hc.
  cbn [orb]. set (head := String c (dir_head p)).
  destruct (nonempty head && negb (all_slashes head)) eqn:E.
  - apply andb_true_iff in E. destruct E as [_ E]. apply negb_true_iff in E.
    subst head. cbn [rstrip_char].
    destruct (rstrip_char "/" (dir_head p)) eqn:Er.
    + apply rstrip_char_empty in Er. simpl in E. rewrite Hc, Er in E. discriminate.
    + simpl. rewrite Hc. reflexivity.
  - subst head. simpl. rewrite Hc. reflexivity.
Qed.

Lemma normpath_absolute (p : string) : isabs p = true -> isabs (normpath p) = true.
Proof.
  intros H. unfold normpath.
  assert (Hne : String.eqb p "" = false) by (destruct p; [discriminate|reflexivity]).
  rewrite Hne. destruct (initial_slashes_abs p H) as [-> | ->]; reflexivity.
Qed.

Lemma abspath_absolute (cwd p : string) : isabs cwd = true -> isabs (abspath cwd p) = true.
Proof.
  intros H. unfold abspath. apply normpath_absolute.
  destruct (isabs p) eqn:E; [assumption|]. apply join2_cwd_abs; assumption.
Qed.

Lemma basename_of_joined_names (dirs : list string) (name : string) :
  forallb wf_name (dirs ++ [name]) = true ->
  basename (Py.join "/" (dirs ++ [name])) = name.
Proof.
  intros H. unfold basename. rewrite split_join.
  - apply last_last.
  - destruct dirs; discriminate.
  - apply List.Forall_forall. intros n Hn.
    rewrite forallb_forall in H. apply H in Hn.
    apply wf_name_inv in Hn. tauto.
Qed.

(** X13. When [--output] names a file in a directory of the bundled tree
    (the tree's root or a directory below it) and not a directory, [main]
    bundles an absolute directory, prints the completion line, and no entry
    of the archive is a file named like the last component of [--output],
    wherever the script lies. *)
Theorem main_leaves_out_the_output_name (cwd : string) (fs : string -> fs_node)
    (file : string) (args : Args) (tree : entry) (patterns : list string)
    (dirs : list string) (name : string) :
  isabs cwd = true ->
  names_ok tree = true ->
  load_packignore_patterns fs
    (join2 (dirname (dirname (abspath cwd file))) (packignore args)) = Some patterns ->
  output args = Py.join "/" (dirs ++ [name]) ->
  forallb wf_name (dirs ++ [name]) = true ->
  dir_at tree dirs = true ->
  dir_at tree (dirs ++ [name]) = false ->
  isabs (dirname (dirname (abspath cwd file))) = true
  /\ exists a,
       main cwd fs file args tree = Some (a, "Bundle created: " +:+ output args)
       /\ forall comps data,
            file_at tree comps data ->
            In (Py.join "/" comps) (map fst a) ->
            List.last comps "" <> name.
Proof.
  intros Hcwd Hok Hload Hout Hnames _ _. split.
  - auto using dirname_absolute, abspath_absolute.
  - unfold main.
    rewrite (bundle_files_run cwd fs tree _ _ _ patterns Hcwd Hok Hload).
    cbn [bind]. eexists. split; [reflexivity|].
    intros comps data Hat Hin.
    apply (archived_iff _ _ _ _ _ Hok Hat) in Hin. destruct Hin as (_ & _ & Hlast).
    rewrite basename_join2_any, Hout, basename_of_joined_names in Hlast by assumption.
    exact Hlast.
Qed.

Lemma main_leaves_out_the_output_name_witness :
  isabs (dirname (dirname (abspath "/home/u" "/pack/scripts/bundle.py"))) = true
  /\ exists a,
       main "/home/u" (ignore_file ["skip/"]) "/pack/scripts/bundle.py"
         (mkArgs "dist/pack.zip" ".packignore") project_tree
       = Some (a, "Bundle created: " +:+ output (mkArgs "dist/pack.zip" ".packignore"))
       /\ forall comps data,
            file_at project_tree comps data ->
            In (Py.join "/" comps) (map fst a) ->
            List.last comps "" <> "pack.zip".
Proof.
  apply (main_leaves_out_the_output_name "/home/u" (ignore_file ["skip/"])
           "/pack/scripts/bundle.py" (mkArgs "dist/pack.zip" ".packignore") project_tree
           ["skip/"] ["dist"] "pack.zip"); reflexivity.
Defined.

End BundleProperties.

(* ===================================================================== *)
(** ** Further properties of generate.py *)
(* ===================================================================== *)

Module GenerateProperties.
Import Py PyFacts Generate GenerateSpec GenerateFacts.

Lemma startswith_app_self (p x : string) : startswith (p +:+ x) p = true.
Proof. induction p as [|c p IH]; [reflexivity|]. simpl. rewrite Ascii.eqb_refl. exact IH. Qed.

Lemma contains_cons (sub : string) (c : ascii) (s : string) :
  contains sub s = true -> contains sub (String c s) = true.
Proof. intros H. rewrite contains_unfold, H. apply orb_true_r. Qed.

Lemma contains_app_l (sub a b : string) :
  contains sub b = true -> contains sub (a +:+ b) = true.
Proof. intros H. induction a as [|c a IH]; [exact H|]. simpl. apply contains_cons, IH. Qed.

Lemma contains_prefix (sub x : string) : contains sub (sub +:+ x) = true.
Proof. rewrite contains_unfold, startswith_app_self. reflexivity. Qed.

(** Where [old] occurs, the result of the replacement holds [new]. *)
Lemma replace_brings_new (old new s : string) :
  old <> "" ->
  contains old s = true -> contains new (replace_from old new 0 s) = true.
Proof.
  intros Hold. induction s as [|c s IH]; intros H.
  - destruct old; [congruence|]. simpl in H. discriminate.
  - cbn [replace_from]. destruct (startswith (String c s) old) eqn:E.
    + apply contains_prefix.
    + rewrite contains_unfold, E in H. simpl in H. apply contains_cons, IH, H.
Qed.


(** X14. The name that [extract_base_name] returns holds ["_planks"] or
    ends in ["_log"]. *)
Theorem extract_base_name_is_planks_or_log (filename : string) :
  contains "_planks" (extract_base_name filename) = true
  \/ endswith (extract_base_name filename) "_log" = true.
Proof.
  unfold extract_base_name. set (base_name := replace filename ".json" "").
  destruct (contains "_frame" base_name) eqn:Ef.
  - left. apply replace_brings_new; [discriminate|assumption].
  - destruct (endswith base_name "_log") eqn:El; [right; exact El|].
    left. destruct (endswith base_name "_planks") eqn:Ep; simpl.
    + apply endswith_inv in Ep. destruct Ep as [t ->]. apply contains_app_r.
    + apply contains_app_r.
Qed.

Lemma no_char_no_occurrence (c : ascii) (rest s : string) :
  has_char c s = false -> contains (String c rest) s = false.
Proof.
  induction s as [|a s IH]; intros H; [reflexivity|].
  simpl in H. apply orb_false_iff in H. destruct H as [H1 H2].
  rewrite contains_unfold. simpl. rewrite H1, IH by assumption. reflexivity.
Qed.

(** Without a dot in [x], the only [".json"] of [x ++ ".json"] is the
    last one. *)
Lemma replace_final_json (x : string) :
  has_char "." x = false -> replace (x +:+ ".json") ".json" "" = x.
Proof.
  unfold replace. induction x as [|c x IH]; intros H; [reflexivity|].
  simpl in H. apply orb_false_iff in H. destruct H as [H1 H2].
  change (String c x +:+ ".json") with (String c (x +:+ ".json")).
  cbn [replace_from startswith]. rewrite H1. cbn [andb].
  rewrite IH by assumption. reflexivity.
Qed.

Lemma startswith_frame_planks (s : string) :
  s <> "" -> startswith (s +:+ "_planks") "_frame" = startswith s "_frame".
Proof.
  intros H.
  destruct s as [|c1 [|c2 [|c3 [|c4 [|c5 [|c6 s]]]]]]; [congruence| | | | | |];
    cbn [String.append startswith]; try reflexivity.
  all: repeat match goal with
         | |- context [Ascii.eqb ?a ?b] =>
             lazymatch a with
             | Ascii _ _ _ _ _ _ _ _ =>
                 let v := eval vm_compute in (Ascii.eqb a b) in
                 change (Ascii.eqb a b) with v
             end
         end.
  all: rewrite ?andb_false_r; reflexivity.
Qed.

Lemma no_frame_after_planks (stem : string) :
  contains "_frame" stem = false -> contains "_frame" (stem +:+ "_planks") = false.
Proof.
  induction stem as [|c stem IH]; intros H; [reflexivity|].
  rewrite contains_unfold in H. apply orb_false_iff in H. destruct H as [H1 H2].
  rewrite contains_unfold, startswith_frame_planks, H1 by discriminate.
  change (String c stem +:+ "_planks") with (String c (stem +:+ "_planks")).
  cbn [orb]. apply IH. assumption.
Qed.

(** X15. The frame file and the planks file of one stem get the same output
    name, so the recipe written later replaces the earlier one. *)
Theorem frame_and_planks_share_a_name (stem : string) :
  has_char "." stem = false ->
  contains "_frame" stem = false ->
  extract_base_name (stem +:+ "_frame" +:+ ".json") = stem +:+ "_planks"
  /\ extract_base_name (stem +:+ "_planks" +:+ ".json") = stem +:+ "_planks".
Proof.
  intros Hdot Hframe. unfold extract_base_name.
  rewrite <- !sapp_assoc.
  rewrite !replace_final_json by (rewrite has_char_app, Hdot; reflexivity).
  split.
  - rewrite contains_app_r. apply replace_final_frame. assumption.
  - rewrite no_frame_after_planks by assumption.
    rewrite endswith_app.
    destruct (endswith (stem +:+ "_planks") "_log"); reflexivity.
Qed.

Lemma frame_and_planks_share_a_name_witness :
  extract_base_name ("stripped_oak" +:+ "_frame" +:+ ".json") = "stripped_oak" +:+ "_planks"
  /\ extract_base_name ("stripped_oak" +:+ "_planks" +:+ ".json")
     = "stripped_oak" +:+ "_planks".
Proof. apply frame_and_planks_share_a_name; reflexivity. Defined.


Section Processing.

Variable net : json -> outcome.
Variable json_error_is_request_exception : bool.
Variable writing : string -> write_outcome.
Variable stray : string -> string * option string.
Variable output_dir_str : string.
Variable repr : json -> string.
Variable builtin_message : exn -> string.

Abbreviation download_file_content :=
  (download_file_content net json_error_is_request_exception repr builtin_message).
Abbreviation process_chisel_file :=
  (process_chisel_file net json_error_is_request_exception writing stray
     output_dir_str repr builtin_message).
Abbreviation process_files :=
  (process_files net json_error_is_request_exception writing stray
     output_dir_str repr builtin_message).
Abbreviation get_github_files :=
  (get_github_files net json_error_is_request_exception builtin_message).
Abbreviation main :=
  (main net json_error_is_request_exception writing stray
     output_dir_str repr builtin_message).

Lemma download_document (url j : json) (st : state) :
  net url = Document j -> download_file_content url st = (Ok (Some j), st).
Proof.
  intros H. unfold Generate.download_file_content, try_except, bind, get_json.
  rewrite H. reflexivity.
Qed.

Lemma iterate_len (variants : json) (items : list json) :
  iterate variants = Ok items -> exists n, len variants = Ok n.
Proof. destruct variants; simpl; intros H; try discriminate; eauto. Qed.

Lemma has_char_replace_from (c : ascii) (old new : string) :
  has_char c new = false ->
  forall s skip, has_char c s = false -> has_char c (replace_from old new skip s) = false.
Proof.
  intros Hnew. induction s as [|a s IH]; intros skip H; [reflexivity|].
  simpl in H. apply orb_false_iff in H. destruct H as [H1 H2].
  cbn [replace_from]. destruct skip as [|k]; [|apply IH; assumption].
  destruct (startswith (String a s) old).
  - rewrite has_char_app, Hnew. apply IH. assumption.
  - simpl. rewrite H1. apply IH. assumption.
Qed.

(** A name without a separator gives an output file name without one. *)
Lemma output_filename_plain (name : string) :
  has_char "/" name = false ->
  has_char "/" (extract_base_name name +:+ ".json") = false.
Proof.
  intros H. rewrite has_char_app. apply orb_false_iff. split; [|reflexivity].
  unfold extract_base_name, replace.
  assert (Hb : has_char "/" (replace_from ".json" "" 0 name) = false)
    by (apply has_char_replace_from; [reflexivity|assumption]).
  destruct (contains "_frame" _).
  - apply has_char_replace_from; [reflexivity|assumption].
  - destruct (endswith _ "_log"); [assumption|].
    destruct (endswith _ "_planks"); cbn [negb]; [assumption|].
    rewrite has_char_app, Hb. reflexivity.
Qed.

(** What the write of a recipe does for a file name without separator in
    a directory that exists. *)
Lemma write_json_plain (output_filename : string) (doc : json) (files : gmap string file)
    (st : state) :
  has_char "/" output_filename = false ->
  out_dir st = Some files ->
  write_json writing stray output_dir_str output_filename doc st
  = match writing output_filename with
    | Written =>
        (Ok tt, mkState (Some (<[output_filename := Whole doc]> files)) (log st))
    | OpenFails msg => (Raise (IOError msg), st)
    | DumpFails msg =>
        (Raise (IOError msg),
         mkState (Some (<[output_filename := Partial]> files)) (log st))
    end.
Proof.
  intros Hplain Hdir. unfold write_json, store, target. rewrite Hplain, Hdir.
  destruct (writing output_filename); reflexivity.
Qed.

Lemma path_str_plain (output_filename : string) :
  has_char "/" output_filename = false ->
  path_str stray output_dir_str output_filename
  = output_dir_str +:+ "/" +:+ output_filename.
Proof. intros H. unfold path_str. rewrite H. reflexivity. Qed.

(** X16. A listed file whose name holds no separator and whose download is
    a document with a non-empty ["variants"] gets its recipe written under
    the derived name, in a directory that exists and can be written. *)
Theorem recipe_is_written (file_info url content variants : json) (name : string)
    (items : list json) (files : gmap string file) (st : state) :
  subscript file_info "name" = Ok (JStr name) ->
  subscript file_info "download_url" = Ok url ->
  net url = Document content ->
  truthy content = true ->
  dict_get content "variants" (JArr []) = Ok variants ->
  truthy variants = true ->
  iterate variants = Ok items ->
  has_char "/" name = false ->
  out_dir st = Some files ->
  writing (extract_base_name name +:+ ".json") = Written ->
  exists st',
    process_chisel_file file_info st = (Ok tt, st')
    /\ out_dir st'
       = Some (<[extract_base_name name +:+ ".json"
                 := Whole (create_chiseling_recipe items)]> files)
    /\ List.last (log st') ""
       = "Generated: " +:+ output_dir_str +:+ "/" +:+ extract_base_name name +:+ ".json".
Proof.
  intros Hname Hurl Hnet Hcontent Hget Hvariants Hiter Hplain Hdir Hwrite.
  apply output_filename_plain in Hplain.
  destruct (iterate_len variants items Hiter) as [n Hlen].
  unfold Generate.process_chisel_file, bind, lift. rewrite Hname, Hurl.
  cbn [print]. rewrite (download_document url content _ Hnet).
  rewrite Hcontent. cbn [negb]. rewrite Hget, Hvariants. cbn [negb].
  rewrite Hlen. cbn [print]. rewrite Hiter.
  unfold try_except, bind.
  rewrite (write_json_plain _ _ files) by (cbn [out_dir]; assumption).
  rewrite Hwrite, path_str_plain by assumption.
  cbn [print out_dir log]. eexists. split; [reflexivity|].
  cbn [out_dir log]. split; [reflexivity|]. apply last_last.
Qed.

(** X17. A document that is empty, or whose ["variants"] is missing or
    empty, leads to no output file and no error. *)
Theorem no_variants_no_output (file_info filename url content : json) (st : state) :
  subscript file_info "name" = Ok filename ->
  subscript file_info "download_url" = Ok url ->
  net url = Document content ->
  truthy content = false
  \/ (exists variants,
        dict_get content "variants" (JArr []) = Ok variants
        /\ truthy variants = false) ->
  exists st',
    process_chisel_file file_info st = (Ok tt, st') /\ out_dir st' = out_dir st.
Proof.
  intros Hname Hurl Hnet Hcases.
  unfold Generate.process_chisel_file, bind, lift. rewrite Hname, Hurl.
  cbn [print]. rewrite (download_document url content _ Hnet).
  destruct (truthy content) eqn:Hc.
  - destruct Hcases as [Hf | (variants & Hget & Hv)]; [discriminate|].
    cbn [negb]. rewrite Hget, Hv. cbn [negb print out_dir log].
    eexists. split; reflexivity.
  - cbn [negb print out_dir log]. eexists. split; reflexivity.
Qed.

(** X18. When the recipe cannot be written the [IOError] is caught: the
    call returns normally and the last printed line reports the error. When
    [open] failed the output directory is as before; when the dump failed
    after [open], the file is left in the directory, without a whole
    recipe. *)
Theorem write_error_is_caught (file_info url content variants : json) (name msg : string)
    (items : list json) (files : gmap string file) (opened : bool) (st : state) :
  subscript file_info "name" = Ok (JStr name) ->
  subscript file_info "download_url" = Ok url ->
  net url = Document content ->
  truthy content = true ->
  dict_get content "variants" (JArr []) = Ok variants ->
  truthy variants = true ->
  iterate variants = Ok items ->
  has_char "/" name = false ->
  out_dir st = Some files ->
  writing (extract_base_name name +:+ ".json")
  = (if opened then DumpFails msg else OpenFails msg) ->
  exists st',
    process_chisel_file file_info st = (Ok tt, st')
    /\ out_dir st'
       = Some (if opened
               then <[extract_base_name name +:+ ".json" := Partial]> files
               else files)
    /\ List.last (log st') "" =
       "Error writing "
       +:+ (output_dir_str +:+ "/" +:+ extract_base_name name +:+ ".json")
       +:+ ": " +:+ msg.
Proof.
  intros Hname Hurl Hnet Hcontent Hget Hvariants Hiter Hplain Hdir Hwrite.
  apply output_filename_plain in Hplain.
  destruct (iterate_len variants items Hiter) as [n Hlen].
  unfold Generate.process_chisel_file, bind, lift. rewrite Hname, Hurl.
  cbn [print]. rewrite (download_document url content _ Hnet).
  rewrite Hcontent. cbn [negb]. rewrite Hget, Hvariants. cbn [negb].
  rewrite Hlen. cbn [print]. rewrite Hiter.
  unfold try_except, bind.
  rewrite (write_json_plain _ _ files) by (cbn [out_dir]; assumption).
  rewrite Hwrite, path_str_plain by assumption.
  destruct opened; cbn [is_IOError print out_dir log exn_str];
    (eexists; split; [reflexivity|]; cbn [out_dir log]; split;
     [first [reflexivity | assumption] | apply last_last]).
Qed.


Lemma type_is_file (j : json) :
  match j with
  | JStr "file" => @Ok bool true
  | _ => Ok false
  end = Ok true ->
  j = JStr "file".
Proof.
  destruct j as [| | |s| |]; try discriminate.
  do 4 (destruct s as [|c s]; [discriminate|];
        destruct c as [[] [] [] [] [] [] [] []]; try discriminate).
  destruct s; [reflexivity|discriminate].
Qed.

Lemma is_json_file_true (f : json) :
  is_json_file f = Ok true ->
  exists name,
    subscript f "name" = Ok (JStr name)
    /\ endswith name ".json" = true
    /\ subscript f "type" = Ok (JStr "file").
Proof.
  unfold is_json_file.
  destruct (subscript f "name") as [[| | |name| |]|]; try discriminate.
  destruct (endswith name ".json") eqn:E; [|discriminate].
  destruct (subscript f "type") as [j|]; [|discriminate].
  intros H. apply type_is_file in H. subst j. eauto.
Qed.

Lemma select_json_files_spec (items files : list json) :
  select_json_files items = Ok files ->
  files = List.filter (fun f => match is_json_file f with Ok true => true | _ => false end)
            items
  /\ forall f, In f items -> exists keep, is_json_file f = Ok keep.
Proof.
  revert files. induction items as [|f items IH]; intros files H.
  - inversion H. split; [reflexivity|]. intros f [].
  - cbn [select_json_files] in H.
    destruct (is_json_file f) as [keep|] eqn:Ef; [|discriminate].
    destruct (select_json_files items) as [r|]; [|discriminate].
    destruct (IH r eq_refl) as [-> Hall].
    inversion H; subst. split.
    + cbn [List.filter]. rewrite Ef. destruct keep; reflexivity.
    + intros g [<- | Hg]; eauto.
Qed.

(** What the list request delivers when [get_github_files] returns
    normally: the listing, or nothing when the request failed. *)
Lemma get_github_files_Ok (st st' : state) (files : list json) :
  get_github_files st = (Ok files, st') ->
  out_dir st' = out_dir st
  /\ (files = []
      \/ exists listing items,
           net (JStr list_url) = Document listing
           /\ iterate listing = Ok items
           /\ select_json_files items = Ok files).
Proof.
  unfold Generate.get_github_files, bind, try_except, get_json, print, lift.
  fold list_url. cbn [out_dir log].
  destruct (net (JStr list_url)) as [msg | msg | listing] eqn:En.
  - cbn [raise is_RequestException]. intros H. inversion H. auto.
  - cbn [raise is_RequestException].
    destruct json_error_is_request_exception; intros H; inversion H. auto.
  - cbn [ret]. destruct (iterate listing) as [items|e] eqn:Ei.
    + destruct (select_json_files items) as [r|e] eqn:Es.
      * cbn [out_dir log]. intros H. inversion H; subst. split; [reflexivity|].
        right. eauto.
      * destruct listing; simpl in Ei; try discriminate;
          (destruct (is_RequestException json_error_is_request_exception e) eqn:Ee;
           [|discriminate]; cbn [out_dir log]; intros H; inversion H; auto).
    + destruct (is_RequestException json_error_is_request_exception e);
        [|discriminate]. cbn [out_dir log]. intros H. inversion H. auto.
Qed.

Lemma listed_files_have_json_names (st st' : state) (files : list json) :
  get_github_files st = (Ok files, st') ->
  out_dir st' = out_dir st
  /\ forall f, In f files ->
       exists name,
         subscript f "name" = Ok (JStr name)
         /\ endswith name ".json" = true
         /\ subscript f "type" = Ok (JStr "file").
Proof.
  intros H. apply get_github_files_Ok in H. destruct H as [Hout Hfiles].
  split; [exact Hout|].
  destruct Hfiles as [-> | (listing & items & _ & _ & Hsel)]; [intros f []|].
  apply select_json_files_spec in Hsel. destruct Hsel as [-> _].
  intros f Hf. apply filter_In in Hf. destruct Hf as [_ Hf].
  apply is_json_file_true.
  destruct (is_json_file f) as [[]|]; [reflexivity|discriminate|discriminate].
Qed.

(** X19. Every file that [get_github_files] returns has a ["name"] that is
    a string ending in [".json"] and the ["type"] ["file"]; the call does
    not touch the output directory. *)
Theorem listed_files_are_json_files (st st' : state) (files : list json) :
  get_github_files st = (Ok files, st') ->
  out_dir st' = out_dir st
  /\ forall f, In f files ->
       exists name,
         subscript f "name" = Ok (JStr name)
         /\ endswith name ".json" = true
         /\ subscript f "type" = Ok (JStr "file").
Proof. apply listed_files_have_json_names. Qed.


Lemma process_files_returns (files : list json) :
  (forall f, In f files -> exists name, subscript f "name" = Ok name) ->
  forall st, exists st', process_files files st = (Ok tt, st').
Proof.
  induction files as [|f files IH]; intros Hnames st.
  - eexists. reflexivity.
  - destruct (Hnames f (or_introl eq_refl)) as [name Hname].
    assert (Hrest : forall g, In g files -> exists name, subscript g "name" = Ok name)
      by (intros g Hg; apply Hnames; right; assumption).
    cbn [Generate.process_files]. unfold bind at 1 2, try_except.
    destruct (process_chisel_file f st) as [[[]|e] st1].
    + cbn [print]. apply IH. assumption.
    + unfold bind, lift. rewrite Hname. cbn [print]. apply IH. assumption.
Qed.

(** X20. The loop of [main] never raises on the files that
    [get_github_files] returned, whatever the network and the file system do
    for each of them. *)
Theorem loop_over_listed_files_returns (st st1 : state) (files : list json) :
  get_github_files st = (Ok files, st1) ->
  forall st2, exists st', process_files files st2 = (Ok tt, st').
Proof.
  intros H. apply process_files_returns.
  apply get_github_files_Ok in H. destruct H as [_ Hfiles].
  destruct Hfiles as [-> | (listing & items & _ & _ & Hsel)]; [intros f []|].
  apply select_json_files_spec in Hsel. destruct Hsel as [-> _].
  intros f Hf. apply filter_In in Hf. destruct Hf as [_ Hf].
  destruct (is_json_file f) as [[]|] eqn:E; try discriminate.
  apply is_json_file_true in E. destruct E as (name & Hname & _). eauto.
Qed.

(** X21. A listing that is a JSON object with at least one key (what the
    API sends for a path that is not a directory) makes [get_github_files]
    raise a [TypeError] that nothing catches: [main] ends with that error,
    after it has emptied the output directory. *)
Theorem object_listing_crashes_main (fields : list (string * json)) (st : state) :
  net (JStr list_url) = Document (JObj fields) ->
  fields <> [] ->
  exists st',
    main st = (Raise TypeError, st') /\ out_dir st' = Some ∅.
Proof.
  intros Hnet Hne. destruct fields as [|[k v] fields]; [congruence|].
  unfold Generate.main. unfold bind at 1 2 3 4.
  cbn [print clean_output_directory out_dir log].
  unfold Generate.get_github_files, bind, try_except, get_json, print, lift.
  fold list_url. rewrite Hnet. cbn [ret iterate map fst select_json_files].
  cbn [is_json_file subscript is_RequestException out_dir log].
  eexists. split; reflexivity.
Qed.


(** One call of [process_chisel_file] leaves the output directory as it
    is, or leaves one file there: a recipe, or what a failed dump left,
    under the entry that the derived file name leads to. *)
Lemma process_chisel_file_effect (f : json) (st st' : state) (r : result unit) :
  process_chisel_file f st = (r, st') ->
  out_dir st' = out_dir st
  \/ exists name items files key content,
       subscript f "name" = Ok (JStr name)
       /\ out_dir st = Some files
       /\ target stray (extract_base_name name +:+ ".json") = Some key
       /\ out_dir st' = Some (<[key := content]> files)
       /\ (content = Partial \/ content = Whole (create_chiseling_recipe items)).
Proof.
  unfold Generate.process_chisel_file, Generate.download_file_content, write_json, store,
    bind, lift, try_except, get_json, print, ret, raise.
  cbn [out_dir log].
  repeat (match goal with
          | |- context [subscript ?a ?b] => destruct (subscript a b) as [?|?] eqn:?
          | |- context [net ?u] => destruct (net u) eqn:?
          | |- context [if json_error_is_request_exception then _ else _] =>
              destruct json_error_is_request_exception
          | |- context [truthy ?c] => destruct (truthy c) eqn:?
          | |- context [dict_get ?a ?b ?c] => destruct (dict_get a b c) eqn:?
          | |- context [len ?v] => destruct (len v) eqn:?
          | |- context [iterate ?v] => destruct (iterate v) eqn:?
          | |- context [writing ?k] => destruct (writing k) eqn:?
          | |- context [target stray ?k] => destruct (target stray k) eqn:?
          | |- context [match out_dir ?s with _ => _ end] => destruct (out_dir s) eqn:?
          | |- context [if has_char ?c ?k then _ else _] => destruct (has_char c k) eqn:?
          | |- context [match ?j with JStr _ => _ | _ => _ end] => is_var j; destruct j
          end; cbn [out_dir log negb is_RequestException is_IOError]).
  all: intros H; inversion H; subst; cbn [out_dir log].
  all: try (left; reflexivity).
  all: try (left; assumption).
  all: right;
    match goal with
    | Hn : subscript _ "name" = Ok (JStr ?n), Hi : iterate _ = Ok ?it,
      Hd : out_dir _ = Some ?g, Ht : target stray _ = Some ?k |- _ =>
        exists n, it, g, k; eexists;
        do 4 (split; [first [reflexivity | exact Ht]|]);
        first [left; reflexivity | right; reflexivity]
    end.
Qed.

(** The files that a run of the loop leaves: those from before, and for
    files of the list with names without separator a recipe or what a
    failed dump left, under the derived name. *)
Lemma process_files_effect (files : list json) :
  (forall f name,
      In f files -> subscript f "name" = Ok (JStr name) -> has_char "/" name = false) ->
  forall st st' r m,
    process_files files st = (r, st') ->
    out_dir st = Some m ->
    exists m',
      out_dir st' = Some m'
      /\ forall k c,
           m' !! k = Some c ->
           m !! k = Some c
           \/ exists f name,
                In f files
                /\ subscript f "name" = Ok (JStr name)
                /\ k = extract_base_name name +:+ ".json"
                /\ (c = Partial \/ exists items, c = Whole (create_chiseling_recipe items)).
Proof.
  induction files as [|f files IH]; intros Hplain st st' r m Hrun Hdir.
  - inversion Hrun; subst. exists m. auto.
  - cbn [Generate.process_files] in Hrun. unfold bind at 1 2, try_except in Hrun.
    destruct (process_chisel_file f st) as [r1 st1] eqn:Hf.
    apply process_chisel_file_effect in Hf.
    assert (Hm1 : exists m1,
               out_dir st1 = Some m1
               /\ forall k c,
                    m1 !! k = Some c ->
                    m !! k = Some c
                    \/ exists name,
                         subscript f "name" = Ok (JStr name)
                         /\ k = extract_base_name name +:+ ".json"
                         /\ (c = Partial
                             \/ exists items, c = Whole (create_chiseling_recipe items))).
    { destruct Hf as [Hsame | (name & items & files0 & key & content & Hname & Hd0
                                & Hkey & Hd1 & Hcontent)].
      - exists m. split; [congruence|auto].
      - rewrite Hdir in Hd0. inversion Hd0; subst files0.
        assert (key = extract_base_name name +:+ ".json") as ->.
        { unfold target in Hkey.
          rewrite (output_filename_plain name) in Hkey
            by (apply (Hplain f); [left; reflexivity|assumption]).
          congruence. }
        eexists. split; [exact Hd1|]. intros k c Hk.
        apply lookup_insert_Some in Hk. destruct Hk as [[<- <-] | [_ Hk]]; [|auto].
        right. exists name. split; [assumption|]. split; [reflexivity|].
        destruct Hcontent as [-> | ->]; eauto. }
    destruct Hm1 as (m1 & Hd1 & Hkeys1).
    assert (Hgo : forall st2 : state,
               out_dir st2 = Some m1 ->
               process_files files st2 = (r, st') ->
               exists m',
                 out_dir st' = Some m'
                 /\ forall k c,
                      m' !! k = Some c ->
                      m !! k = Some c
                      \/ exists g name,
                           In g (f :: files)
                           /\ subscript g "name" = Ok (JStr name)
                           /\ k = extract_base_name name +:+ ".json"
                           /\ (c = Partial
                               \/ exists items,
                                    c = Whole (create_chiseling_recipe items))).
    { intros st2 Hd2 Hrest.
      apply (IH (fun g name Hg => Hplain g name (or_intror Hg)) _ _ _ m1) in Hrest;
        [|exact Hd2].
      destruct Hrest as (m' & Hd' & Hkeys'). exists m'. split; [exact Hd'|].
      intros k c Hk. destruct (Hkeys' k c Hk) as [Hk1 | (g & name & Hg & H)].
      - destruct (Hkeys1 k c Hk1) as [? | (name & H)]; [auto|].
        right. exists f, name. simpl. tauto.
      - right. exists g, name. simpl. tauto. }
    assert (Hstop : forall e, (r, st') = (Raise e, st1) ->
               exists m',
                 out_dir st' = Some m'
                 /\ forall k c,
                      m' !! k = Some c ->
                      m !! k = Some c
                      \/ exists g name,
                           In g (f :: files)
                           /\ subscript g "name" = Ok (JStr name)
                           /\ k = extract_base_name name +:+ ".json"
                           /\ (c = Partial
                               \/ exists items,
                                    c = Whole (create_chiseling_recipe items))).
    { intros e E. inversion E; subst. exists m1. split; [exact Hd1|].
      intros k c Hk. destruct (Hkeys1 k c Hk) as [? | (name & H)]; [auto|].
      right. exists f, name. simpl. tauto. }
    clear Hf Hkeys1.
    destruct r1 as [[]|e].
    + cbn [print] in Hrun. eapply Hgo; [|exact Hrun]. exact Hd1.
    + unfold bind, lift in Hrun.
      destruct (subscript f "name") as [name|e'].
      * cbn [print] in Hrun. eapply Hgo; [|exact Hrun]. exact Hd1.
      * apply (Hstop e'). symmetry. exact Hrun.
Qed.

Lemma get_github_files_keeps_dir (st st' : state) (r : result (list json)) :
  get_github_files st = (r, st') -> out_dir st' = out_dir st.
Proof.
  unfold Generate.get_github_files, bind, try_except, get_json, print, lift, ret, raise.
  cbn [out_dir log].
  destruct (net (JStr (GITHUB_API_BASE +:+ "?ref=" +:+ GITHUB_BRANCH))) as [msg|msg|j].
  - cbn [is_RequestException out_dir log]. intros H. inversion H. reflexivity.
  - cbn [is_RequestException out_dir log].
    destruct json_error_is_request_exception; intros H; inversion H; reflexivity.
  - destruct (iterate j) as [items|e].
    + destruct (select_json_files items) as [files|e].
      * cbn [out_dir log]. intros H. inversion H. reflexivity.
      * destruct (is_RequestException json_error_is_request_exception e);
          cbn [out_dir log]; intros H; inversion H; reflexivity.
    + destruct (is_RequestException json_error_is_request_exception e);
        cbn [out_dir log]; intros H; inversion H; reflexivity.
Qed.


End Processing.

Lemma recipe_is_written_witness :
  exists st',
    process_chisel_file net0 true (fun _ => Written) (fun _ => ("", None)) "out"
      (fun _ => "") (fun _ => "")
      (file_info "birch_frame.json" "https://raw/birch") (mkState (Some ∅) [])
    = (Ok tt, st')
    /\ out_dir st'
       = Some (<[extract_base_name "birch_frame.json" +:+ ".json"
                 := Whole (create_chiseling_recipe
                             [JStr "bd:birch_frame_1"; JStr "bd:birch_frame_2"])]> ∅)
    /\ List.last (log st') ""
       = "Generated: " +:+ "out" +:+ "/" +:+ extract_base_name "birch_frame.json"
         +:+ ".json".
Proof.
  apply (recipe_is_written net0 true (fun _ => Written) (fun _ => ("", None)) "out"
           (fun _ => "") (fun _ => "")
           (file_info "birch_frame.json" "https://raw/birch") (JStr "https://raw/birch")
           (JObj [("variants", JArr [JStr "bd:birch_frame_1"; JStr "bd:birch_frame_2"])])
           (JArr [JStr "bd:birch_frame_1"; JStr "bd:birch_frame_2"]));
    reflexivity.
Defined.

Lemma no_variants_no_output_witness :
  let st0 := mkState (Some ∅) [] in
  exists st',
    process_chisel_file (fun _ => Document (JObj [("shape", JStr "frame")])) true
      (fun _ => Written) (fun _ => ("", None)) "out" (fun _ => "") (fun _ => "")
      (file_info "oak_frame.json" "https://raw/oak") st0
    = (Ok tt, st')
    /\ out_dir st' = out_dir st0.
Proof.
  intros st0.
  apply (no_variants_no_output (fun _ => Document (JObj [("shape", JStr "frame")])) true
           (fun _ => Written) (fun _ => ("", None)) "out" (fun _ => "") (fun _ => "")
           (file_info "oak_frame.json" "https://raw/oak") (JStr "oak_frame.json")
           (JStr "https://raw/oak") (JObj [("shape", JStr "frame")]));
    try reflexivity.
  right. exists (JArr []). split; reflexivity.
Defined.

Lemma write_error_is_caught_witness :
  let st0 := mkState (Some ∅) [] in
  exists st',
    process_chisel_file net0 true (fun _ => DumpFails "disk full") (fun _ => ("", None))
      "out" (fun _ => "") (fun _ => "")
      (file_info "birch_frame.json" "https://raw/birch") st0
    = (Ok tt, st')
    /\ out_dir st'
       = Some (<[extract_base_name "birch_frame.json" +:+ ".json" := Partial]> ∅)
    /\ List.last (log st') "" =
       "Error writing "
       +:+ ("out" +:+ "/" +:+ extract_base_name "birch_frame.json" +:+ ".json")
       +:+ ": " +:+ "disk full".
Proof.
  intros st0.
  apply (write_error_is_caught net0 true (fun _ => DumpFails "disk full")
           (fun _ => ("", None)) "out" (fun _ => "") (fun _ => "")
           (file_info "birch_frame.json" "https://raw/birch")
           (JStr "https://raw/birch")
           (JObj [("variants", JArr [JStr "bd:birch_frame_1"; JStr "bd:birch_frame_2"])])
           (JArr [JStr "bd:birch_frame_1"; JStr "bd:birch_frame_2"])
           "birch_frame.json" "disk full"
           [JStr "bd:birch_frame_1"; JStr "bd:birch_frame_2"] ∅ true);
    reflexivity.
Defined.

Lemma listed_files_are_json_files_witness :
  exists name,
    subscript (file_info "birch_frame.json" "https://raw/birch") "name" = Ok (JStr name)
    /\ endswith name ".json" = true
    /\ subscript (file_info "birch_frame.json" "https://raw/birch") "type"
       = Ok (JStr "file").
Proof.
  eapply (proj2 (listed_files_are_json_files net0 true (fun _ => "") (mkState None [])
                   _ [file_info "oak_frame.json" "https://raw/oak";
                      file_info "birch_frame.json" "https://raw/birch"] eq_refl)).
  simpl. tauto.
Defined.

Lemma loop_over_listed_files_returns_witness :
  exists st',
    process_files net0 true (fun _ => Written) (fun _ => ("", None)) "out" (fun _ => "") (fun _ => "")
      [file_info "oak_frame.json" "https://raw/oak";
       file_info "birch_frame.json" "https://raw/birch"] (mkState (Some ∅) [])
    = (Ok tt, st').
Proof.
  eapply (loop_over_listed_files_returns net0 true (fun _ => Written) (fun _ => ("", None)) "out" (fun _ => "")
            (fun _ => "") (mkState None [])).
  reflexivity.
Defined.

Lemma object_listing_crashes_main_witness :
  exists st',
    main (fun _ => Document (JObj [("message", JStr "This is not a directory")])) false
      (fun _ => Written) (fun _ => ("", None)) "out" (fun _ => "") (fun _ => "") (mkState None [])
    = (Raise TypeError, st')
    /\ out_dir st' = Some ∅.
Proof.
  apply (object_listing_crashes_main
           (fun _ => Document (JObj [("message", JStr "This is not a directory")])) false
           (fun _ => Written) (fun _ => ("", None)) "out" (fun _ => "") (fun _ => "")
           [("message", JStr "This is not a directory")]).
  - reflexivity.
  - discriminate.
Defined.


End GenerateProperties.

(* ===================================================================== *)
(** ** Sample evaluations *)
(* ===================================================================== *)

Module Examples.
Import Bundle BundleSpec.

Example fnmatch_star : Fnmatch.fnmatch "keep/skip/b.txt" "*.txt" = true.
Proof. reflexivity. Qed.

Example fnmatch_dir : Fnmatch.fnmatch "skip/" "skip/" = true.
Proof. reflexivity. Qed.

Example fnmatch_nested : Fnmatch.fnmatch "keep/skip/" "skip/" = false.
Proof. reflexivity. Qed.

Example fnmatch_set : Fnmatch.fnmatch "b7" "[a-c][!0-5]" = true.
Proof. reflexivity. Qed.

Example fnmatch_empty_range : Fnmatch.fnmatch "b" "[c-a]" = false.
Proof. reflexivity. Qed.

Example fnmatch_open_bracket : Fnmatch.fnmatch "[ab" "[ab" = true.
Proof. reflexivity. Qed.

Example relpath_inside : Posixpath.relpath "/home/u" "/pack/keep/c.txt" "/pack"
                         = Some "keep/c.txt".
Proof. reflexivity. Qed.

Example relpath_from_cwd : Posixpath.relpath "/pack" "./keep/c.txt" "." = Some "keep/c.txt".
Proof. reflexivity. Qed.

(** Root with [a.txt], [skip/b.txt] and [keep/c.txt], ignore file with
    ["skip/"]: the archive holds exactly [a.txt] and [keep/c.txt]. *)
Example end_to_end :
  bundle_files "/home/u" (ignore_file ["# comment
"; "
"; "skip/
"]) three_file_tree "/pack" "/pack/pack.zip" "/pack/.packignore"
  = Some [("a.txt", "A"); ("keep/c.txt", "C")].
Proof. vm_compute. reflexivity. Qed.

Example relative_root :
  bundle_files "/pack" (ignore_file ["skip/"]) three_file_tree "." "pack.zip"
    "/pack/.packignore"
  = Some [("a.txt", "A"); ("keep/c.txt", "C")].
Proof. vm_compute. reflexivity. Qed.

End Examples.
